(** * CSP Timetable: a shallow embedding of the solver core

    The development follows the Python sources module by module:
    [models.py], [data_loader.py], [problem_builder.py], [constraints.py],
    [solver.py] and [soft_constraints.py].

    Conventions of the embedding:
    - a Python [str] is a [string] (a sequence of bytes);
    - a Python [dict] is an association list in insertion order, without
      repeated keys: assigning to a present key updates it in place,
      assigning to an absent key appends, [del] removes the key;
    - a pandas table is the list of its rows, every cell already a string
      (or an integer for [Credits]);
    - [time.time()] and [random.shuffle] are read from a [World]: the k-th
      reading of the clock, and the permutation produced by the k-th shuffle;
    - text written by [print] is kept as a list of messages;
    - floating point arithmetic of the quality scorer is idealised by real
      numbers where the values are not integers;
    - white space and digits are the ASCII ones, and the recursion limit of
      the interpreter is left out. *)

From Stdlib Require Import List String Ascii Bool Arith ZArith QArith Lia.
From Stdlib Require Import Permutation DecimalString Reals Psatz.
From Stdlib Require DecimalZ DecimalPos.
Import ListNotations.

Local Close Scope R_scope.
Local Close Scope Q_scope.
Local Open Scope string_scope.
Local Open Scope list_scope.
Local Open Scope nat_scope.

(* ================================================================== *)
(** ** Python strings *)

Module PyStr.

(** [str.isspace] on one byte: TAB..CR, FS..US and SPACE. *)
Definition is_space (c : ascii) : bool :=
  let n := nat_of_ascii c in
  ((9 <=? n) && (n <=? 13)) || ((28 <=? n) && (n <=? 32)).

Fixpoint lstrip (s : string) : string :=
  match s with
  | String c s' => if is_space c then lstrip s' else s
  | EmptyString => EmptyString
  end.

(** Drops the white space at the end of [s]. *)
Fixpoint rstrip (s : string) : string :=
  match s with
  | EmptyString => EmptyString
  | String c s' =>
      match rstrip s' with
      | EmptyString => if is_space c then EmptyString else String c EmptyString
      | r => String c r
      end
  end.

(** [s.strip()] *)
Definition strip (s : string) : string := rstrip (lstrip s).

(** [s.split(',')]: never empty, [''.split(',') == ['']]. *)
Fixpoint split_comma (s : string) : list string :=
  match s with
  | EmptyString => [EmptyString]
  | String c s' =>
      if Ascii.eqb c ","%char then EmptyString :: split_comma s'
      else match split_comma s' with
           | w :: ws => String c w :: ws
           | [] => [String c EmptyString]
           end
  end.

(** [s.startswith(p)] *)
Fixpoint startswith (p s : string) : bool :=
  match p, s with
  | EmptyString, _ => true
  | String a p', String b s' => Ascii.eqb a b && startswith p' s'
  | String _ _, EmptyString => false
  end.

(** [p in s] for strings. *)
Fixpoint contains (p s : string) : bool :=
  startswith p s ||
  match s with
  | EmptyString => false
  | String _ s' => contains p s'
  end.

Fixpoint drop (n : nat) (s : string) : string :=
  match n, s with
  | O, _ => s
  | S n', String _ s' => drop n' s'
  | S _, EmptyString => EmptyString
  end.

(** [s.replace(old, '')] for a non-empty [old]: the occurrences of [old]
    are removed from left to right, without overlap. [fuel] bounds the
    number of characters looked at. *)
Fixpoint remove_all_fuel (fuel : nat) (old s : string) : string :=
  match fuel with
  | O => s
  | S fuel' =>
      match s with
      | EmptyString => EmptyString
      | String c s' =>
          if startswith old s
          then remove_all_fuel fuel' old (drop (String.length old) s)
          else String c (remove_all_fuel fuel' old s')
      end
  end.

Definition remove_all (old s : string) : string :=
  remove_all_fuel (String.length s) old s.

(** [s[0]], defined on non-empty strings. *)
Definition head (s : string) : option ascii :=
  match s with
  | EmptyString => None
  | String c _ => Some c
  end.

(** [s[1:]] *)
Definition tail (s : string) : string := drop 1 s.

Definition digit_val (c : ascii) : option Z :=
  let n := nat_of_ascii c in
  if (48 <=? n) && (n <=? 57) then Some (Z.of_nat (n - 48)) else None.

(** Digits of an integer literal, single underscores allowed between
    digits; [acc] is the value read so far, [after_digit] tells whether
    the previous character was a digit. *)
Fixpoint digits (s : string) (acc : Z) (after_digit : bool) : option Z :=
  match s with
  | EmptyString => if after_digit then Some acc else None
  | String c s' =>
      match digit_val c with
      | Some d => digits s' (10 * acc + d)%Z true
      | None =>
          if Ascii.eqb c "_"%char && after_digit
          then match s' with
               | String c' _ =>
                   match digit_val c' with
                   | Some _ => digits s' acc false
                   | None => None
                   end
               | EmptyString => None
               end
          else None
      end
  end.

(** [int(s)] in base ten: surrounding white space, an optional sign,
    then digits. [None] is the [ValueError]. *)
Definition int (s : string) : option Z :=
  match strip s with
  | String c s' =>
      if Ascii.eqb c "-"%char then option_map Z.opp (digits s' 0%Z false)
      else if Ascii.eqb c "+"%char then digits s' 0%Z false
      else digits (String c s') 0%Z false
  | EmptyString => None
  end.

(** [str(n)] for an integer. *)
Definition of_Z (n : Z) : string := NilZero.string_of_int (Z.to_int n).

(** Insertion of [x] into a list sorted by code points, after the
    elements that are not greater (the sort is stable). *)
Fixpoint insert_sorted (x : string) (l : list string) : list string :=
  match l with
  | [] => [x]
  | y :: l' => if String.ltb x y then x :: l else y :: insert_sorted x l'
  end.

(** [sorted(l)] for a list of strings. *)
Definition sorted (l : list string) : list string :=
  fold_left (fun acc x => insert_sorted x acc) l [].

(** [x in l] for a list of strings. *)
Definition mem (x : string) (l : list string) : bool :=
  existsb (String.eqb x) l.

(** [l.index(x)]; [None] is the [ValueError]. *)
Fixpoint index (x : string) (l : list string) : option Z :=
  match l with
  | [] => None
  | y :: l' =>
      if String.eqb y x then Some 0%Z
      else option_map Z.succ (index x l')
  end.

End PyStr.

(* ================================================================== *)
(** ** Python dictionaries, in insertion order *)

Module Dict.
Section Ops.
Context {K V : Type} (eqb : K -> K -> bool).

(** [d.get(k)] *)
Fixpoint get (k : K) (d : list (K * V)) : option V :=
  match d with
  | [] => None
  | (k', v) :: d' => if eqb k' k then Some v else get k d'
  end.

(** [k in d] *)
Definition mem (k : K) (d : list (K * V)) : bool :=
  match get k d with Some _ => true | None => false end.

(** [d[k] = v]: a present key keeps its position, a new key goes last. *)
Fixpoint set (k : K) (v : V) (d : list (K * V)) : list (K * V) :=
  match d with
  | [] => [(k, v)]
  | (k', v') :: d' =>
      if eqb k' k then (k', v) :: d' else (k', v') :: set k v d'
  end.

(** [del d[k]]; the [KeyError] on an absent key is raised where [del]
    is used. *)
Fixpoint del (k : K) (d : list (K * V)) : list (K * V) :=
  match d with
  | [] => []
  | (k', v') :: d' => if eqb k' k then d' else (k', v') :: del k d'
  end.

Definition keys (d : list (K * V)) : list K := map fst d.

End Ops.

Section Grouping.
Context {K A : Type} (eqb : K -> K -> bool).

(** [if k not in d: d[k] = []] followed by [d[k].append(x)]. *)
Fixpoint append_to (k : K) (x : A) (d : list (K * list A)) : list (K * list A) :=
  match d with
  | [] => [(k, [x])]
  | (k', xs) :: d' =>
      if eqb k' k then (k', xs ++ [x]) :: d' else (k', xs) :: append_to k x d'
  end.

(** The dictionary of lists built by one pass over [items]. *)
Definition group (items : list (K * A)) : list (K * list A) :=
  fold_left (fun d kx => append_to (fst kx) (snd kx) d) items [].

End Grouping.
End Dict.

(** Equality of the pairs of strings used as dictionary keys. *)
Definition pair_eqb (a b : string * string) : bool :=
  String.eqb (fst a) (fst b) && String.eqb (snd a) (snd b).

(* ================================================================== *)
(** ** models.py *)

(** An assignment value [(timeslot, room, instructor)]. *)
Definition Value : Type := string * string * string.
Definition Assignment : Type := list (string * Value).
Definition Domains : Type := list (string * list Value).

Definition timeslot_of (v : Value) : string := fst (fst v).
Definition room_of (v : Value) : string := snd (fst v).
Definition instructor_of (v : Value) : string := snd v.

Record Lecture := mkLecture {
  course_id : string;
  section_id : string;
  lecture_number : Z
}.

(** [Lecture.get_variable_name] *)
Definition get_variable_name (l : Lecture) : string :=
  section_id l ++ "_" ++ course_id l ++ "_L" ++ PyStr.of_Z (lecture_number l).

(** [Course.needs_lab], on the course's [type] field. *)
Definition needs_lab (course_type : string) : bool :=
  PyStr.contains "Lab" course_type.

(** [Instructor.is_available_on_day], on the [unavailable_day] field. *)
Definition is_available_on_day (unavailable_day : option string) (day : string) : bool :=
  match unavailable_day with
  | None => true
  | Some u => negb (String.eqb u day)
  end.

(* ================================================================== *)
(** ** data_loader.py *)

Record CourseRow := mkCourse {
  CourseID : string;
  Credits : Z;
  CourseType : string
}.

Record InstructorRow := mkInstructor {
  InstructorID : string;
  PreferredSlots : string;
  QualifiedCourses : string
}.

Record RoomRow := mkRoom {
  RoomID : string;
  RoomType : string
}.

Record TimeSlotRow := mkTimeSlot {
  TimeSlotID : string;
  Day : string
}.

Record SectionRow := mkSection {
  SectionID : string;
  Courses : string
}.

Record DataLoader := mkLoader {
  courses : list CourseRow;
  instructors : list InstructorRow;
  rooms : list RoomRow;
  timeslots : list TimeSlotRow;
  sections : list SectionRow
}.

Section Loader.
Variable L : DataLoader.

(** [get_course_info]: the first row of that course, if any. *)
Definition get_course_info (course : string) : option CourseRow :=
  find (fun r => String.eqb (CourseID r) course) (courses L).

(** The stripped pieces of a comma-separated cell. *)
Definition parse_list (cell : string) : list string :=
  map PyStr.strip (PyStr.split_comma cell).

(** [get_qualified_instructors] *)
Definition get_qualified_instructors (course : string) : list string :=
  map InstructorID
    (filter (fun r => PyStr.mem course (parse_list (QualifiedCourses r)))
            (instructors L)).

(** [get_instructor_unavailable_day] *)
Definition get_instructor_unavailable_day (instructor : string) : option string :=
  match find (fun r => String.eqb (InstructorID r) instructor) (instructors L) with
  | None => None
  | Some r =>
      let pref := PreferredSlots r in
      if PyStr.contains "Not on" pref
      then Some (PyStr.strip (PyStr.remove_all "Not on " pref))
      else None
  end.

(** [get_available_timeslots_for_day] *)
Definition get_available_timeslots_for_day (day : string) : list string :=
  map TimeSlotID (filter (fun r => String.eqb (Day r) day) (timeslots L)).

(** [get_rooms_by_type] *)
Definition get_rooms_by_type (room_type : string) : list string :=
  map RoomID (filter (fun r => String.eqb (RoomType r) room_type) (rooms L)).

(** [get_section_courses] *)
Definition get_section_courses (section : string) : list string :=
  match find (fun r => String.eqb (SectionID r) section) (sections L) with
  | None => []
  | Some r => parse_list (Courses r)
  end.

(** [timeslots[timeslots['TimeSlotID'] == ts].iloc[0]['Day']], [None]
    when the selection is empty. *)
Definition timeslot_day (ts : string) : option string :=
  option_map Day (find (fun r => String.eqb (TimeSlotID r) ts) (timeslots L)).

End Loader.

(* ================================================================== *)
(** ** problem_builder.py *)

Section ProblemBuilder.
Variable L : DataLoader.

Definition _calculate_lectures_per_week (credits : Z) : Z :=
  if (credits =? 1)%Z then 1
  else if (credits =? 2)%Z then 1
  else if (credits =? 3)%Z then 2
  else if (credits =? 4)%Z then 2
  else if (credits =? 5)%Z then 3
  else 2.

(** [range(1, n + 1)] *)
Definition range1 (n : Z) : list Z := map Z.of_nat (seq 1 (Z.to_nat n)).

(** The lectures of one course of one section; none when the course is
    not in the table. *)
Definition lectures_of_course (section course : string) : list Lecture :=
  match get_course_info L course with
  | None => []
  | Some info =>
      map (fun lec_num => mkLecture course section lec_num)
          (range1 (_calculate_lectures_per_week (Credits info)))
  end.

Definition build_lectures_for_sections (section_ids : list string) : list Lecture :=
  flat_map (fun section =>
              flat_map (lectures_of_course section) (get_section_courses L section))
           section_ids.

(** Truth value of [unavailable_day and unavailable_day == day]. *)
Definition unavailable_on (unavailable_day : option string) (day : string) : bool :=
  match unavailable_day with
  | None => false
  | Some u => negb (String.eqb u "") && String.eqb u day
  end.

(** The three nested loops of [build_domains]. *)
Definition domain_values (qualified available_rooms slots : list string) : list Value :=
  flat_map (fun timeslot_id =>
    match timeslot_day L timeslot_id with
    | None => []
    | Some day =>
        flat_map (fun room_id =>
          flat_map (fun instructor_id =>
            if unavailable_on (get_instructor_unavailable_day L instructor_id) day
            then []
            else [(timeslot_id, room_id, instructor_id)])
          qualified)
        available_rooms
    end) slots.

(** One turn of the loop over the lectures: [None] stands for the two
    [continue] exits, that store nothing. *)
Definition lecture_domain (lecture : Lecture) : option (list Value) :=
  match get_course_info L (course_id lecture) with
  | None => None
  | Some info =>
      let room_type := if PyStr.contains "Lab" (CourseType info) then "Lab" else "Lecture" in
      let qualified := get_qualified_instructors L (course_id lecture) in
      match qualified with
      | [] => None
      | _ :: _ =>
          Some (domain_values qualified (get_rooms_by_type L room_type)
                              (map TimeSlotID (timeslots L)))
      end
  end.

(** [build_domains], from the mapping [domains0] held by the builder
    (empty for a new builder). *)
Definition build_domains (lectures : list Lecture) (domains0 : Domains) : Domains :=
  fold_left (fun domains lecture =>
               match lecture_domain lecture with
               | None => domains
               | Some domain =>
                   Dict.set String.eqb (get_variable_name lecture) domain domains
               end)
            lectures domains0.

End ProblemBuilder.

(* ================================================================== *)
(** ** constraints.py *)

Section Constraints.

(** The values of [assignment.items()] under the keys
    [(instructor, timeslot)]. *)
Definition instructor_schedule (assignment : Assignment) : list (string * string * list string) :=
  Dict.group pair_eqb
    (map (fun item => ((instructor_of (snd item), timeslot_of (snd item)), fst item))
         assignment).

Definition room_schedule (assignment : Assignment) : list (string * string * list string) :=
  Dict.group pair_eqb
    (map (fun item => ((room_of (snd item), timeslot_of (snd item)), fst item))
         assignment).

(** [var_to_section]: the last lecture of a name decides. *)
Definition var_to_section (lectures : list Lecture) : list (string * string) :=
  fold_left (fun d lecture =>
               Dict.set String.eqb (get_variable_name lecture) (section_id lecture) d)
            lectures [].

(** The items [((section_id, timeslot), var_name)] of the variables whose
    section passes [keep]. *)
Definition section_items (keep : string -> bool)
           (assignment : Assignment) (lectures : list Lecture)
  : list (string * string * string) :=
  flat_map (fun item =>
              match Dict.get String.eqb (fst item) (var_to_section lectures) with
              | None => []
              | Some section =>
                  if keep section
                  then [((section, timeslot_of (snd item)), fst item)]
                  else []
              end)
           assignment.

(** Grouping of [no_student_conflict]: [if section_id is None: continue]. *)
Definition section_schedule (assignment : Assignment) (lectures : list Lecture) :=
  Dict.group pair_eqb (section_items (fun _ => true) assignment lectures).

(** Grouping of [get_conflicts]: [if section_id:], which also leaves
    out the empty section name. *)
Definition section_schedule_truthy (assignment : Assignment) (lectures : list Lecture) :=
  Dict.group pair_eqb
    (section_items (fun s => negb (String.eqb s "")) assignment lectures).

(** [return False] at the first group with [len(...) > 1]. *)
Definition no_group_above_one {K : Type} (schedule : list (K * list string)) : bool :=
  forallb (fun g => negb (1 <? List.length (snd g))) schedule.

Definition no_instructor_conflict (assignment : Assignment) : bool :=
  no_group_above_one (instructor_schedule assignment).

Definition no_room_conflict (assignment : Assignment) : bool :=
  no_group_above_one (room_schedule assignment).

Definition no_student_conflict (assignment : Assignment) (lectures : list Lecture) : bool :=
  no_group_above_one (section_schedule assignment lectures).

Definition check_all_constraints (assignment : Assignment) (lectures : list Lecture) : bool :=
  no_instructor_conflict assignment
  && no_room_conflict assignment
  && no_student_conflict assignment lectures.

(** [is_consistent]: the constraints on a copy holding the new value. *)
Definition is_consistent (var_name : string) (value : Value)
           (assignment : Assignment) (lectures : list Lecture) : bool :=
  let temp_assignment := Dict.set String.eqb var_name value assignment in
  check_all_constraints temp_assignment lectures.

(** The parts of one conflict description. *)
Inductive Conflict :=
| InstructorConflict (instructor timeslot : string) (lectures_list : list string)
| RoomConflict (room timeslot : string) (lectures_list : list string)
| SectionConflict (section timeslot : string) (lectures_list : list string).

Definition conflicts_of (mk : string -> string -> list string -> Conflict)
           (schedule : list (string * string * list string)) : list Conflict :=
  map (fun g => mk (fst (fst g)) (snd (fst g)) (snd g))
      (filter (fun g => 1 <? List.length (snd g)) schedule).

Definition get_conflicts (assignment : Assignment) (lectures : list Lecture) : list Conflict :=
  conflicts_of InstructorConflict (instructor_schedule assignment)
  ++ conflicts_of RoomConflict (room_schedule assignment)
  ++ conflicts_of SectionConflict (section_schedule_truthy assignment lectures).

End Constraints.

(* ================================================================== *)
(** ** solver.py *)

(** What the solver reads from outside: the clock and the shuffles. *)
Record World := mkWorld {
  clock : nat -> Q;
  shuffle : nat -> list Value -> list Value;
  shuffle_perm : forall k l, Permutation l (shuffle k l)
}.

Inductive Msg :=
| MsgStart (variables : nat) (timeout : Z)
| MsgTimeout
| MsgProgress (assigned total iteration : nat)
| MsgSolutionFound
| MsgNoSolutionFound
| MsgSummary (elapsed : Q) (iteration : nat).

Inductive Exn := KeyError | TypeError.

(** The fields of a [TimetableSolver], the numbers of clock readings and
    of shuffles made so far, and the text printed. *)
Record State := mkState {
  assignment : Assignment;
  iterations : nat;
  start_time : option Q;
  clock_reads : nat;
  shuffles : nat;
  output : list Msg
}.

Definition new_solver : State := mkState [] 0 None 0 0 [].

Definition with_assignment (a : Assignment) (st : State) : State :=
  mkState a (iterations st) (start_time st) (clock_reads st) (shuffles st) (output st).

Definition print (m : Msg) (st : State) : State :=
  mkState (assignment st) (iterations st) (start_time st) (clock_reads st)
          (shuffles st) (output st ++ [m]).

(** The result of a call: a returned value, a raised exception, or the
    recursion budget of the embedding used up. *)
Inductive Res :=
| Ret (result : option Assignment)
| Raised (e : Exn)
| OutOfFuel.

Section Solver.
Variable W : World.
Variable lectures : list Lecture.
Variable domains : Domains.

(** [time.time()] *)
Definition time_time (st : State) : Q * State :=
  (clock W (clock_reads st),
   mkState (assignment st) (iterations st) (start_time st)
           (S (clock_reads st)) (shuffles st) (output st)).

(** [self.domains.get(var_name, [])] *)
Definition domain_of (var_name : string) : list Value :=
  match Dict.get String.eqb var_name domains with
  | Some d => d
  | None => []
  end.

(** [_order_domain_values]: a shuffled copy. *)
Definition _order_domain_values (domain : list Value) (st : State) : list Value * State :=
  (shuffle W (shuffles st) domain,
   mkState (assignment st) (iterations st) (start_time st)
           (clock_reads st) (S (shuffles st)) (output st)).

Definition unassigned_variables (a : Assignment) : list string :=
  filter (fun var_name => negb (Dict.mem String.eqb var_name a))
         (map get_variable_name lectures).

(** Number of values of the domain still consistent with [a]. *)
Definition remaining_values (a : Assignment) (var_name : string) : nat :=
  List.length (filter (fun value => is_consistent var_name value a lectures)
                 (domain_of var_name)).

(** [remaining < min_remaining], where [None] is [float('inf')]. *)
Definition below (remaining : nat) (min_remaining : option nat) : bool :=
  match min_remaining with
  | None => true
  | Some m => remaining <? m
  end.

Definition mrv_step (a : Assignment) (acc : option nat * option string) (var_name : string)
  : option nat * option string :=
  let remaining := remaining_values a var_name in
  if below remaining (fst acc) then (Some remaining, Some var_name) else acc.

Definition _select_unassigned_variable (a : Assignment) : option string :=
  match unassigned_variables a with
  | [] => None
  | unassigned => snd (fold_left (mrv_step a) unassigned (None, None))
  end.

(** The loop over the ordered values of [var_name]; [recurse] is the
    recursive call of [_backtrack]. *)
Fixpoint try_values (recurse : State -> Res * State) (var_name : string)
         (values : list Value) (st : State) : Res * State :=
  match values with
  | [] => (Ret None, st)
  | value :: rest =>
      if is_consistent var_name value (assignment st) lectures then
        let st1 := with_assignment
                     (Dict.set String.eqb var_name value (assignment st)) st in
        match recurse st1 with
        | (Ret (Some result), st2) => (Ret (Some result), st2)
        | (Ret None, st2) =>
            if Dict.mem String.eqb var_name (assignment st2)
            then try_values recurse var_name rest
                   (with_assignment (Dict.del String.eqb var_name (assignment st2)) st2)
            else (Raised KeyError, st2)
        | other => other
        end
      else try_values recurse var_name rest st
  end.

Fixpoint _backtrack (fuel : nat) (timeout : Z) (st : State) : Res * State :=
  match fuel with
  | O => (OutOfFuel, st)
  | S fuel' =>
      let st := mkState (assignment st) (S (iterations st)) (start_time st)
                        (clock_reads st) (shuffles st) (output st) in
      let (now, st) := time_time st in
      match start_time st with
      | None => (Raised TypeError, st)
      | Some start =>
          if negb (Qle_bool (now - start) (inject_Z timeout)) then
            (Ret None, print MsgTimeout st)
          else
            let st :=
              if iterations st mod 100 =? 0
              then print (MsgProgress (List.length (assignment st)) (List.length lectures)
                                      (iterations st)) st
              else st in
            if List.length (assignment st) =? List.length lectures then
              (Ret (Some (assignment st)), st)
            else
              match _select_unassigned_variable (assignment st) with
              | None => (Ret None, st)
              | Some var_name =>
                  let domain := domain_of var_name in
                  let (ordered_values, st) := _order_domain_values domain st in
                  try_values (_backtrack fuel' timeout) var_name ordered_values st
              end
      end
  end.

(** Truth value of a returned result: [None] and the empty dictionary
    are false. *)
Definition truthy (r : Res) : bool :=
  match r with
  | Ret (Some (_ :: _)) => true
  | _ => false
  end.

(** The end of [solve]: the summary printed once [_backtrack] has
    returned [result]. An exception skips it. *)
Definition report (t0 : Q) (result : Res) (st : State) : Res * State :=
  match result with
  | Ret _ =>
      let (t1, st) := time_time st in
      let st := print (if truthy result then MsgSolutionFound else MsgNoSolutionFound) st in
      let st := print (MsgSummary (t1 - t0) (iterations st)) st in
      (result, st)
  | _ => (result, st)
  end.

(** [solve]. The recursion is at most one level deeper than the number
    of lectures, which is the budget given to [_backtrack]. *)
Definition solve (timeout : Z) (st : State) : Res * State :=
  let st := print (MsgStart (List.length lectures) timeout) st in
  let (t0, st) := time_time st in
  let st := mkState [] 0 (Some t0) (clock_reads st) (shuffles st) (output st) in
  let (result, st) := _backtrack (S (List.length lectures)) timeout st in
  report t0 result st.

End Solver.

(* ================================================================== *)
(** ** soft_constraints.py *)

Record Weights := mkWeights {
  no_gaps : Z;
  balanced_days : Z;
  avoid_early : Z;
  avoid_late : Z;
  consecutive_rooms : Z
}.

(** The weights set by [SoftConstraints.__init__]. *)
Definition default_weights : Weights := mkWeights 10 5 3 3 8.

(** [penalty += f x] for every [x] of [l], where [f] may raise. *)
Fixpoint add_each {A : Type} (f : A -> option Z) (l : list A) (penalty : Z) : option Z :=
  match l with
  | [] => Some penalty
  | x :: l' =>
      match f x with
      | None => None
      | Some p => add_each f l' (penalty + p)%Z
      end
  end.

(** The pairs [(l[i], l[i + 1])] for [i] in [range(len(l) - 1)]. *)
Definition adjacent_pairs {A : Type} (l : list A) : list (A * A) :=
  combine l (tl l).

(** [if s:] for an optional string. *)
Definition truthy_str (s : option string) : bool :=
  match s with
  | Some (String _ _) => true
  | _ => false
  end.

Section SoftConstraints.
Variable L : DataLoader.
Variable weights : Weights.

(** [next((l for l in lectures if l.get_variable_name() == var_name), None)] *)
Definition lecture_named (lectures : list Lecture) (var_name : string) : option Lecture :=
  find (fun l => String.eqb (get_variable_name l) var_name) lectures.

Definition _group_by_section_and_day (assignment : Assignment) (lectures : list Lecture)
  : list (string * string * list string) :=
  Dict.group pair_eqb
    (flat_map (fun item =>
                 match lecture_named lectures (fst item) with
                 | None => []
                 | Some lecture =>
                     match timeslot_day L (timeslot_of (snd item)) with
                     | None => []
                     | Some day => [((section_id lecture, day), timeslot_of (snd item))]
                     end
                 end)
              assignment).

Definition _group_by_instructor_and_day (assignment : Assignment)
  : list (string * string * list string) :=
  Dict.group pair_eqb
    (flat_map (fun item =>
                 match timeslot_day L (timeslot_of (snd item)) with
                 | None => []
                 | Some day => [((instructor_of (snd item), day), timeslot_of (snd item))]
                 end)
              assignment).

(** The amount added for one pair of neighbours of the sorted slots;
    [None] is the [ValueError] of [day_slots.index]. *)
Definition gap_of_pair (day_slots : list string) (p : string * string) : option Z :=
  match PyStr.index (fst p) day_slots with
  | None => None
  | Some current_idx =>
      match PyStr.index (snd p) day_slots with
      | None => None
      | Some next_idx =>
          let gap_size := (next_idx - current_idx - 1)%Z in
          Some (if (0 <? gap_size)%Z then (gap_size * no_gaps weights)%Z else 0%Z)
      end
  end.

Definition gap_of_group (g : string * string * list string) : option Z :=
  let sorted_slots := PyStr.sorted (snd g) in
  if 1 <? List.length sorted_slots then
    let day_slots := get_available_timeslots_for_day L (snd (fst g)) in
    add_each (gap_of_pair day_slots) (adjacent_pairs sorted_slots) 0%Z
  else Some 0%Z.

Definition _calculate_gap_penalty (assignment : Assignment) (lectures : list Lecture)
  : option Z :=
  add_each gap_of_group (_group_by_section_and_day assignment lectures) 0%Z.

(** The nested dictionary [section_schedules] of
    [_calculate_balance_bonus]: section, then day, then count. *)
Definition balance_step (lectures : list Lecture)
           (schedules : list (string * list (string * nat))) (item : string * Value)
  : list (string * list (string * nat)) :=
  match lecture_named lectures (fst item) with
  | None => schedules
  | Some lecture =>
      let section := section_id lecture in
      let schedules :=
        if Dict.mem String.eqb section schedules then schedules
        else Dict.set String.eqb section [] schedules in
      match timeslot_day L (timeslot_of (snd item)) with
      | None => schedules
      | Some day =>
          let day_counts :=
            match Dict.get String.eqb section schedules with
            | Some c => c
            | None => []
            end in
          let count :=
            match Dict.get String.eqb day day_counts with
            | Some n => n
            | None => 0
            end in
          Dict.set String.eqb section
                   (Dict.set String.eqb day (S count) day_counts) schedules
      end
  end.

Definition section_day_counts (assignment : Assignment) (lectures : list Lecture)
  : list (string * list (string * nat)) :=
  fold_left (balance_step lectures) assignment [].

Definition sum_R (l : list R) : R := fold_left Rplus l 0%R.

(** [mean], [variance] and [std_dev] of the counts. *)
Definition mean_of (values : list nat) : R :=
  (sum_R (map INR values) / INR (List.length values))%R.

Definition variance_of (values : list nat) : R :=
  (sum_R (map (fun x => (INR x - mean_of values) * (INR x - mean_of values))%R values)
   / INR (List.length values))%R.

Definition std_dev_of (values : list nat) : R := sqrt (variance_of values).

(** [max(0, 5 - std_dev) * weights['balanced_days']] *)
Definition balance_of_counts (values : list nat) : R :=
  (Rmax 0 (5 - std_dev_of values) * IZR (balanced_days weights))%R.

Definition _calculate_balance_bonus (assignment : Assignment) (lectures : list Lecture) : R :=
  fold_left (fun bonus sc =>
               match snd sc with
               | [] => bonus
               | day_counts => (bonus + balance_of_counts (map snd day_counts))%R
               end)
            (section_day_counts assignment lectures) 0%R.

Definition early_slots : list string := ["TS0"; "TS4"; "TS8"; "TS12"; "TS16"].
Definition late_slots : list string := ["TS3"; "TS7"; "TS11"; "TS15"; "TS19"].

Definition _calculate_time_preference_penalty (assignment : Assignment) : Z :=
  fold_left (fun penalty item =>
               let timeslot := timeslot_of (snd item) in
               let penalty :=
                 if PyStr.mem timeslot early_slots
                 then (penalty + avoid_early weights)%Z else penalty in
               if PyStr.mem timeslot late_slots
               then (penalty + avoid_late weights)%Z else penalty)
            assignment 0%Z.

(** [_calculate_room_distance]; [None] is the [IndexError] of [room[0]]
    on an empty name. *)
Definition _calculate_room_distance (room1 room2 : string) : option Z :=
  if String.eqb room1 room2 then Some 0%Z
  else
    match PyStr.head room1, PyStr.head room2 with
    | Some r1_type, Some r2_type =>
        if Ascii.eqb r1_type r2_type then
          match PyStr.int (PyStr.tail room1), PyStr.int (PyStr.tail room2) with
          | Some r1_num, Some r2_num => Some (Z.abs (r1_num - r2_num) / 5)%Z
          | _, _ => Some 1%Z
          end
        else Some 3%Z
    | _, _ => None
    end.

(** [[f'TS{i}' for i in range(20)]] *)
Definition all_slots : list string :=
  map (fun i => ("TS" ++ PyStr.of_Z (Z.of_nat i))%string) (seq 0 20).

(** The room left in [current_room] (or [next_room]) by the scan of the
    whole assignment: the room of the last item at timeslot [ts]. *)
Definition room_at (assignment : Assignment) (ts : string) : option string :=
  fold_left (fun found item =>
               if String.eqb (timeslot_of (snd item)) ts
               then Some (room_of (snd item)) else found)
            assignment None.

Definition distance_of_pair (assignment : Assignment) (p : string * string) : option Z :=
  match PyStr.index (fst p) all_slots with
  | None => None
  | Some current_idx =>
      match PyStr.index (snd p) all_slots with
      | None => None
      | Some next_idx =>
          if (next_idx =? current_idx + 1)%Z then
            let current_room := room_at assignment (fst p) in
            let next_room := room_at assignment (snd p) in
            if truthy_str current_room && truthy_str next_room then
              match current_room, next_room with
              | Some r1, Some r2 =>
                  match _calculate_room_distance r1 r2 with
                  | None => None
                  | Some distance =>
                      Some (if (2 <? distance)%Z
                            then (distance * consecutive_rooms weights)%Z else 0%Z)
                  end
              | _, _ => Some 0%Z
              end
            else Some 0%Z
          else Some 0%Z
      end
  end.

Definition _check_consecutive_room_distance (slots : list string)
           (assignment : Assignment) : option Z :=
  if List.length slots <? 2 then Some 0%Z
  else add_each (distance_of_pair assignment) (adjacent_pairs (PyStr.sorted slots)) 0%Z.

Definition _calculate_room_distance_penalty (assignment : Assignment)
           (lectures : list Lecture) : option Z :=
  let section_schedules := _group_by_section_and_day assignment lectures in
  let instructor_schedules := _group_by_instructor_and_day assignment in
  match add_each (fun g => _check_consecutive_room_distance (snd g) assignment)
                 section_schedules 0%Z with
  | None => None
  | Some penalty =>
      add_each (fun g => _check_consecutive_room_distance (snd g) assignment)
               instructor_schedules penalty
  end.

(** [calculate_quality_score] *)
Definition calculate_quality_score (assignment : Assignment) (lectures : list Lecture)
  : option R :=
  match _calculate_gap_penalty assignment lectures with
  | None => None
  | Some gap =>
      let balance := _calculate_balance_bonus assignment lectures in
      let time := _calculate_time_preference_penalty assignment in
      match _calculate_room_distance_penalty assignment lectures with
      | None => None
      | Some room => Some (1000 - IZR gap + balance - IZR time - IZR room)%R
      end
  end.

End SoftConstraints.

(* ================================================================== *)
(** ** Notions used to state the properties *)

(** A run has timed out when the time-out message was printed. *)
Definition is_timeout_msg (m : Msg) : bool :=
  match m with MsgTimeout => true | _ => false end.

Definition timed_out (st : State) : bool := existsb is_timeout_msg (output st).

(** The returned value tells a time-out from an exhausted search: some
    reading [classify] of the returned value alone gives, for every call
    that does not return an assignment, whether it timed out. *)
Definition failure_kind_in_result : Prop :=
  exists classify : Res -> bool,
    forall W lectures domains timeout,
      (forall a, fst (solve W lectures domains timeout new_solver) <> Ret (Some a)) ->
      classify (fst (solve W lectures domains timeout new_solver))
      = timed_out (snd (solve W lectures domains timeout new_solver)).

(** A malformed configuration, and its eager rejection: an exception
    rather than a returned value, and no search step made. *)
Definition malformed (lectures : list Lecture) (timeout : Z) : Prop :=
  (timeout < 0)%Z \/ lectures = [].

Definition rejected_eagerly (r : Res * State) : Prop :=
  (exists e, fst r = Raised e) /\ iterations (snd r) = 0.

(** The room requirement of a course type, and the three unary filters on
    a domain value. *)
Definition required_room_type (course_type : string) : string :=
  if needs_lab course_type then "Lab" else "Lecture".

Definition room_matches (L : DataLoader) (course : string) (room : string) : Prop :=
  exists info r,
    get_course_info L course = Some info /\
    In r (rooms L) /\ RoomID r = room /\
    RoomType r = required_room_type (CourseType info).

Definition qualified_for (L : DataLoader) (course : string) (instructor : string) : Prop :=
  exists r,
    In r (instructors L) /\ InstructorID r = instructor /\
    In course (parse_list (QualifiedCourses r)).

(** The instructor is marked unavailable on [day]: its record names a
    weekday (a non-empty name), and it is [day]. *)
Definition marked_unavailable (L : DataLoader) (instructor : string) (day : string) : Prop :=
  exists u, get_instructor_unavailable_day L instructor = Some u /\ u <> "" /\ u = day.

(** The last filter is also given with [Instructor.is_available_on_day]
    of [models.py], for the weekdays that have a name. *)
Definition satisfies_unary_filters (L : DataLoader) (lecture : Lecture) (v : Value) : Prop :=
  room_matches L (course_id lecture) (room_of v) /\
  qualified_for L (course_id lecture) (instructor_of v) /\
  (exists day,
      timeslot_day L (timeslot_of v) = Some day /\
      ~ marked_unavailable L (instructor_of v) day /\
      (day <> "" ->
       is_available_on_day (get_instructor_unavailable_day L (instructor_of v)) day = true)).

(** Weekdays of the week, in the order of the timeslot table. *)
Definition weekdays (L : DataLoader) : list string :=
  nodup string_dec (map Day (timeslots L)).

(** Counts of one section over every weekday of the week, the days
    without a session counted as 0. *)
Definition week_counts (L : DataLoader) (day_counts : list (string * nat)) : list nat :=
  map (fun day => match Dict.get String.eqb day day_counts with
                  | Some n => n
                  | None => 0
                  end)
      (weekdays L).

(** The balance bonus as the sum, over the sections, of
    [max(0, 5 - s) * weight] with [s] taken over the whole week. *)
Definition balance_bonus_over_week (L : DataLoader) (weights : Weights)
           (assignment : Assignment) (lectures : list Lecture) : R :=
  fold_left (fun bonus sc =>
               (bonus + balance_of_counts weights (week_counts L (snd sc)))%R)
            (section_day_counts L assignment lectures) 0%R.

(** Number of free positions of [day_slots] strictly between the first
    and the last position held by a slot of [used]. *)
Fixpoint drop_free (flags : list bool) : list bool :=
  match flags with
  | false :: flags' => drop_free flags'
  | _ => flags
  end.

Definition idle_between (day_slots used : list string) : nat :=
  let flags := map (fun s => PyStr.mem s used) day_slots in
  List.length (filter negb (drop_free (rev (drop_free flags)))).

(** Idle positions of an assignment, summed over the sections and days. *)
Definition idle_positions (L : DataLoader) (assignment : Assignment)
           (lectures : list Lecture) : nat :=
  fold_left (fun n g =>
               n + idle_between (get_available_timeslots_for_day L (snd (fst g))) (snd g))
            (_group_by_section_and_day L assignment lectures) 0.

(** The variables of each section and day, and of each instructor and
    day: the groups of [_group_by_section_and_day] and of
    [_group_by_instructor_and_day], by variable instead of timeslot. *)
Definition vars_by_section_and_day (L : DataLoader) (assignment : Assignment)
           (lectures : list Lecture) : list (string * string * list string) :=
  Dict.group pair_eqb
    (flat_map (fun item =>
                 match lecture_named lectures (fst item) with
                 | None => []
                 | Some lecture =>
                     match timeslot_day L (timeslot_of (snd item)) with
                     | None => []
                     | Some day => [((section_id lecture, day), fst item)]
                     end
                 end)
              assignment).

Definition vars_by_instructor_and_day (L : DataLoader) (assignment : Assignment)
  : list (string * string * list string) :=
  Dict.group pair_eqb
    (flat_map (fun item =>
                 match timeslot_day L (timeslot_of (snd item)) with
                 | None => []
                 | Some day => [((instructor_of (snd item), day), fst item)]
                 end)
              assignment).

(** The room of the session that the variables [vars] hold at [ts]. *)
Definition own_room_at (assignment : Assignment) (vars : list string) (ts : string)
  : option string :=
  room_at (filter (fun item => PyStr.mem (fst item) vars) assignment) ts.

(** The check of one group when the rooms are looked up among the
    sessions of the group itself. *)
Definition own_room_distance (weights : Weights) (assignment : Assignment)
           (vars : list string) : option Z :=
  let own := filter (fun item => PyStr.mem (fst item) vars) assignment in
  _check_consecutive_room_distance weights
    (map (fun item => timeslot_of (snd item)) own) own.

(** The room-distance penalty with, for every pair of adjacent sessions,
    the two rooms of these sessions. *)
Definition room_distance_penalty_own (L : DataLoader) (weights : Weights)
           (assignment : Assignment) (lectures : list Lecture) : option Z :=
  match add_each (fun g => own_room_distance weights assignment (snd g))
                 (vars_by_section_and_day L assignment lectures) 0%Z with
  | None => None
  | Some penalty =>
      add_each (fun g => own_room_distance weights assignment (snd g))
               (vars_by_instructor_and_day L assignment) penalty
  end.

(* ================================================================== *)
(** ** Concrete instances *)

(** A clock that stands still and a shuffle that keeps the order. *)
Definition still_world : World :=
  mkWorld (fun _ => 0%Q) (fun _ l => l) (fun _ l => Permutation_refl l).

(** A clock that advances by 1000 seconds at every reading, and a shuffle
    that reverses. *)
Definition slow_world : World :=
  mkWorld (fun k => inject_Z (1000 * Z.of_nat k)) (fun _ l => rev l)
          (fun _ l => Permutation_rev l).

Definition week_slots : list TimeSlotRow :=
  map (fun i => mkTimeSlot ("TS" ++ PyStr.of_Z (Z.of_nat i))%string
                  (nth (i / 4) ["Sunday"; "Monday"; "Tuesday"; "Wednesday"; "Thursday"] ""))
      (seq 0 20).

Definition demo_loader : DataLoader :=
  mkLoader
    [mkCourse "AID312" 3 "Lecture and Lab"; mkCourse "PHY113" 2 "Lecture";
     mkCourse "LRA101" 1 "Lecture"]
    [mkInstructor "PROF01" "Not on Sunday" "AID312, PHY113";
     mkInstructor "PROF02" "Any" "PHY113"]
    [mkRoom "R101" "Lecture"; mkRoom "L1" "Lab"]
    week_slots
    [mkSection "S1" "AID312, PHY113, LRA101"].

Definition demo_lectures : list Lecture := build_lectures_for_sections demo_loader ["S1"].
Definition demo_domains : Domains := build_domains demo_loader demo_lectures [].

(** Two lectures of one section whose domains offer one timeslot only. *)
Definition clash_lectures : list Lecture :=
  [mkLecture "A" "S1" 1; mkLecture "B" "S1" 1].
Definition clash_domains : Domains :=
  [("S1_A_L1", [("TS0", "R1", "P1")]); ("S1_B_L1", [("TS0", "R2", "P2")])].

(** Two lectures with disjoint values. *)
Definition easy_domains : Domains :=
  [("S1_A_L1", [("TS0", "R1", "P1")]); ("S1_B_L1", [("TS1", "R2", "P2")])].

(** A lecture without any value. *)
Definition starved_domains : Domains :=
  [("S1_A_L1", [("TS0", "R1", "P1")])].

(** The assignment found for [easy_domains]. *)
Definition easy_solution : Assignment :=
  [("S1_A_L1", ("TS0", "R1", "P1")); ("S1_B_L1", ("TS1", "R2", "P2"))].

(** A clock that stands still for two readings and then jumps by 1000
    seconds: the second step of a search times out. *)
Definition jump_world : World :=
  mkWorld (fun k => if k <? 2 then 0%Q else inject_Z 1000) (fun _ l => l)
          (fun _ l => Permutation_refl l).

(** The values found under the key [k] in a list of items. *)
Definition select_key {K A : Type} (eqb : K -> K -> bool) (k : K) (items : list (K * A))
  : list A :=
  map snd (filter (fun kx => eqb (fst kx) k) items).

(** Two days of six timeslots: TS0..TS5 on Sunday, TS6..TS11 on Monday. *)
Definition six_slot_loader : DataLoader :=
  mkLoader [] [] []
    (map (fun i => mkTimeSlot ("TS" ++ PyStr.of_Z (Z.of_nat i))%string
                    (nth (i / 6) ["Sunday"; "Monday"] ""))
         (seq 0 12))
    [].

(** Section S1 on Monday: sessions at TS6 and TS11, four free positions
    between them; and sessions at TS6 and TS8, one free position. *)
Definition wide_gap : Assignment :=
  [("S1_A_L1", ("TS6", "R1", "P1")); ("S1_B_L1", ("TS11", "R1", "P1"))].
Definition narrow_gap : Assignment :=
  [("S1_A_L1", ("TS6", "R1", "P1")); ("S1_B_L1", ("TS8", "R1", "P1"))].

(** In the week of five days of four timeslots, Tuesday holds TS8..TS11:
    sessions at TS8 and TS10 leave TS9 free; on Monday (TS4..TS7) sessions
    at TS4 and TS6 leave TS5 free. *)
Definition tuesday_gap : Assignment :=
  [("S1_A_L1", ("TS8", "R1", "P1")); ("S1_B_L1", ("TS10", "R1", "P1"))].
Definition monday_gap : Assignment :=
  [("S1_A_L1", ("TS4", "R1", "P1")); ("S1_B_L1", ("TS6", "R1", "P1"))].
Definition tuesday_wide_gap : Assignment :=
  [("S1_A_L1", ("TS8", "R1", "P1")); ("S1_B_L1", ("TS11", "R1", "P1"))].

(** Both sessions of section S1 on Sunday. *)
Definition one_day : Assignment :=
  [("S1_A_L1", ("TS0", "R1", "P1")); ("S1_B_L1", ("TS1", "R1", "P1"))].

(** Section S1 goes from R101 to R102 with instructor P1; section S2 is
    in the laboratory L1 at the second of these timeslots. *)
Definition campus_lectures : list Lecture :=
  [mkLecture "A" "S1" 1; mkLecture "B" "S1" 1; mkLecture "C" "S2" 1].
Definition next_door : Assignment :=
  [("S1_A_L1", ("TS0", "R101", "P1")); ("S1_B_L1", ("TS1", "R102", "P1"));
   ("S2_C_L1", ("TS1", "L1", "P2"))].

(** The grouping pass of [Dict.group], continued from the dictionary [d]. *)
Definition group_from {K A : Type} (eqb : K -> K -> bool)
           (d : list (K * list A)) (items : list (K * A)) : list (K * list A) :=
  fold_left (fun d kx => Dict.append_to eqb (fst kx) (snd kx) d) items d.

(** A partial assignment as the search keeps it: free of conflicts, one
    entry per key, every key a lecture and every value from its domain. *)
Definition well_formed (lectures : list Lecture) (domains : Domains) (a : Assignment) : Prop :=
  check_all_constraints a lectures = true /\
  NoDup (Dict.keys a) /\
  forall k v, In (k, v) a ->
              In k (map get_variable_name lectures) /\ In v (domain_of domains k).

(** What a call of [_backtrack] entered with the assignment [a] and the
    start time [t] leaves behind. *)
Definition backtrack_post (lectures : list Lecture) (domains : Domains)
           (a : Assignment) (t : Q) (r : option Assignment) (st' : State) : Prop :=
  start_time st' = Some t /\
  match r with
  | None => assignment st' = a
  | Some result =>
      result = assignment st' /\
      well_formed lectures domains result /\
      List.length result = List.length lectures
  end.

(* ================================================================== *)
(** ** More of the sources *)

(** *** solver.py: [get_solution_statistics] *)

Record Statistics := mkStatistics {
  total_assigned : nat;
  timeslot_usage : list (string * nat);
  instructor_load : list (string * nat);
  room_usage : list (string * nat)
}.

(** [if k not in d: d[k] = 0] followed by [d[k] += 1]. *)
Definition count_one (k : string) (d : list (string * nat)) : list (string * nat) :=
  let d := if Dict.mem String.eqb k d then d else Dict.set String.eqb k 0 d in
  Dict.set String.eqb k
           (S (match Dict.get String.eqb k d with Some n => n | None => 0 end)) d.

(** One turn of the loop over [self.assignment.items()]. *)
Definition statistics_step
           (acc : list (string * nat) * list (string * nat) * list (string * nat))
           (item : string * Value)
  : list (string * nat) * list (string * nat) * list (string * nat) :=
  let '(timeslot_usage, instructor_load, room_usage) := acc in
  (count_one (timeslot_of (snd item)) timeslot_usage,
   count_one (instructor_of (snd item)) instructor_load,
   count_one (room_of (snd item)) room_usage).

(** [get_solution_statistics]; [None] is the empty dictionary returned
    for an empty assignment. *)
Definition get_solution_statistics (assignment : Assignment) : option Statistics :=
  match assignment with
  | [] => None
  | _ :: _ =>
      let '(timeslot_usage, instructor_load, room_usage) :=
        fold_left statistics_step assignment ([], [], []) in
      Some (mkStatistics (List.length assignment) timeslot_usage instructor_load room_usage)
  end.

(** *** problem_builder.py: [get_lecture_by_name] *)

Definition get_lecture_by_name (lectures : list Lecture) (var_name : string)
  : option Lecture :=
  find (fun lecture => String.eqb (get_variable_name lecture) var_name) lectures.

(** *** soft_constraints.py: [print_quality_report] *)

(** What the report computes before it prints: the total score and the
    four terms again. [None] is an exception of one of them. *)
Definition print_quality_report (L : DataLoader) (weights : Weights)
           (assignment : Assignment) (lectures : list Lecture) : option unit :=
  match calculate_quality_score L weights assignment lectures with
  | None => None
  | Some _ =>
      match _calculate_gap_penalty L weights assignment lectures with
      | None => None
      | Some _ =>
          match _calculate_room_distance_penalty L weights assignment lectures with
          | None => None
          | Some _ => Some tt
          end
      end
  end.

(** *** main.py: [TimetableGenerator.run], on data already loaded *)

(** The builder and the solver are new objects; the value is the boolean
    returned, [None] when the quality report raises. *)
Definition run (L : DataLoader) (W : World) (sections_to_schedule : list string)
           (timeout : Z) : option bool :=
  let lectures := build_lectures_for_sections L sections_to_schedule in
  let domains := build_domains L lectures [] in
  match fst (solve W lectures domains timeout new_solver) with
  | Ret (Some (item :: rest)) =>
      match print_quality_report L default_weights (item :: rest) lectures with
      | None => None
      | Some _ => Some true
      end
  | Ret _ => Some false
  | _ => None
  end.

(** *** Notions for the further properties *)

(** Two values that cannot be held together. *)
Definition same_instructor_and_time (v1 v2 : Value) : Prop :=
  instructor_of v1 = instructor_of v2 /\ timeslot_of v1 = timeslot_of v2.

Definition same_room_and_time (v1 v2 : Value) : Prop :=
  room_of v1 = room_of v2 /\ timeslot_of v1 = timeslot_of v2.

(** A complete assignment that satisfies every hard constraint, with one
    value of its domain for every lecture. *)
Definition is_solution (lectures : list Lecture) (domains : Domains) (s : Assignment) : Prop :=
  well_formed lectures domains s /\ List.length s = List.length lectures.

(** The character [c] occurs in [s]. *)
Fixpoint has_char (c : ascii) (s : string) : bool :=
  match s with
  | EmptyString => false
  | String c' s' => Ascii.eqb c' c || has_char c s'
  end.

(** The items of a grouping pass whose key is optional. *)
Definition keyed_items (keyf : string * Value -> option (string * string))
           (assignment : Assignment) : list (string * string * string) :=
  flat_map (fun item =>
              match keyf item with
              | None => []
              | Some k => [(k, fst item)]
              end)
           assignment.

(** The key of a variable in the grouping by section and timeslot. *)
Definition section_key (keep : string -> bool) (lectures : list Lecture)
           (item : string * Value) : option (string * string) :=
  match Dict.get String.eqb (fst item) (var_to_section lectures) with
  | None => None
  | Some section => if keep section then Some (section, timeslot_of (snd item)) else None
  end.

(** One of the three dictionaries of [get_solution_statistics], started
    from [d]; and the number of entries of the assignment whose [field]
    is [x]. *)
Definition usage_from (field : Value -> string) (assignment : Assignment)
           (d : list (string * nat)) : list (string * nat) :=
  fold_left (fun d item => count_one (field (snd item)) d) assignment d.

Definition occurrences (field : Value -> string) (x : string) (assignment : Assignment) : nat :=
  List.length (filter (fun item => String.eqb (field (snd item)) x) assignment).

(** Number of time-out messages printed so far. *)
Definition timeouts (st : State) : nat :=
  List.length (filter is_timeout_msg (output st)).

(** Some reading of the clock made so far has exceeded the budget. *)
Definition late (W : World) (timeout : Z) (st : State) : Prop :=
  exists t k,
    start_time st = Some t /\ k < clock_reads st /\
    Qle_bool (clock W k - t) (inject_Z timeout) = false.

(** A clock that never runs backwards. *)
Definition monotone_clock (W : World) : Prop :=
  forall i j, i <= j -> (clock W i <= clock W j)%Q.

(** A result that is not an assignment. *)
Definition not_found (r : Res) : Prop := forall a, r <> Ret (Some a).

(** A list of strings without repetition, as a test. *)
Fixpoint distinct (l : list string) : bool :=
  match l with
  | [] => true
  | x :: l' => negb (PyStr.mem x l') && distinct l'
  end.

(** *** More concrete instances *)

(** Two lectures with one and the same variable name. *)
Definition colliding_lectures : list Lecture :=
  [mkLecture "B" "S1_A" 1; mkLecture "A_B" "S1" 1].

(** A week of six days of four timeslots, TS0..TS23; Friday holds
    TS20..TS23. *)
Definition long_week_loader : DataLoader :=
  mkLoader [] [] []
    (map (fun i => mkTimeSlot ("TS" ++ PyStr.of_Z (Z.of_nat i))%string
                    (nth (i / 4)
                         ["Sunday"; "Monday"; "Tuesday"; "Wednesday"; "Thursday"; "Friday"]
                         ""))
         (seq 0 24))
    [].

Definition friday_sessions : Assignment :=
  [("S1_A_L1", ("TS20", "R1", "P1")); ("S1_B_L1", ("TS21", "R1", "P1"))].

(** A loader whose courses all have an instructor. *)
Definition small_loader : DataLoader :=
  mkLoader
    [mkCourse "AID312" 3 "Lecture and Lab"; mkCourse "PHY113" 2 "Lecture"]
    [mkInstructor "PROF01" "Not on Sunday" "AID312, PHY113";
     mkInstructor "PROF02" "Any" "PHY113"]
    [mkRoom "R101" "Lecture"; mkRoom "L1" "Lab"]
    week_slots
    [mkSection "S1" "AID312, PHY113"].

Definition small_lectures : list Lecture := build_lectures_for_sections small_loader ["S1"].
Definition small_domains : Domains := build_domains small_loader small_lectures [].

(** A partial assignment of [clash_lectures]. *)
Definition first_assigned : Assignment := [("S1_A_L1", ("TS0", "R1", "P1"))].

(** The assignment found for [small_domains]. *)
Definition small_solution : Assignment :=
  [("S1_AID312_L1", ("TS4", "L1", "PROF01"));
   ("S1_AID312_L2", ("TS5", "L1", "PROF01"));
   ("S1_PHY113_L1", ("TS0", "R101", "PROF02"))].

(* ================================================================== *)
(** * Properties *)

(** ** The embedding on concrete inputs *)

Example strip_ex : PyStr.strip "  Not on Sunday " = "Not on Sunday".
Proof. reflexivity. Qed.

Example split_ex :
  parse_list "AID312, ECE223,PHY113 " = ["AID312"; "ECE223"; "PHY113"].
Proof. reflexivity. Qed.

Example remove_ex : PyStr.remove_all "Not on " "Not on Tuesday" = "Tuesday".
Proof. reflexivity. Qed.

Example int_ex :
  PyStr.int "101" = Some 101%Z /\ PyStr.int "1a" = None /\ PyStr.int "" = None.
Proof. repeat split. Qed.

Example sorted_ex :
  PyStr.sorted ["TS8"; "TS10"; "TS9"; "TS11"] = ["TS10"; "TS11"; "TS8"; "TS9"].
Proof. reflexivity. Qed.

Example variable_name_ex :
  get_variable_name (mkLecture "AID312" "S1_AID_L3" 1) = "S1_AID_L3_AID312_L1".
Proof. reflexivity. Qed.

(** Assignments of the tests at the end of [constraints.py]: the first
    one has PROF11 twice at TS0, the third one the room L1 twice at TS0,
    by two lectures of one section. *)
Example constraints_test_1 :
  check_all_constraints
    [("S1_L1_AID312_L1", ("TS0", "L1", "PROF11"));
     ("S1_L1_PHY113_L1", ("TS1", "L2", "PROF03"));
     ("S2_L1_AID312_L1", ("TS0", "L3", "PROF11"))]
    [mkLecture "AID312" "S1_L1" 1; mkLecture "PHY113" "S1_L1" 1; mkLecture "AID312" "S2_L1" 1]
  = false.
Proof. reflexivity. Qed.

Example constraints_test_3 :
  get_conflicts
    [("S1_L1_AID312_L1", ("TS0", "L1", "PROF11"));
     ("S1_L1_PHY113_L1", ("TS0", "L1", "PROF03"))]
    [mkLecture "AID312" "S1_L1" 1; mkLecture "PHY113" "S1_L1" 1; mkLecture "AID312" "S2_L1" 1]
  = [RoomConflict "L1" "TS0" ["S1_L1_AID312_L1"; "S1_L1_PHY113_L1"];
     SectionConflict "S1_L1" "TS0" ["S1_L1_AID312_L1"; "S1_L1_PHY113_L1"]].
Proof. reflexivity. Qed.

(** Two lectures with disjoint values are solved in three steps. *)
Example solve_easy :
  solve still_world clash_lectures easy_domains 300 new_solver
  = (Ret (Some easy_solution),
     mkState easy_solution 3 (Some 0%Q) 5 2
             [MsgStart 2 300; MsgSolutionFound; MsgSummary 0%Q 3]).
Proof. vm_compute. reflexivity. Qed.

(** Two lectures of one section with a single common timeslot: the
    search is exhausted after two steps. *)
Example solve_clash :
  solve still_world clash_lectures clash_domains 300 new_solver
  = (Ret None,
     mkState [] 2 (Some 0%Q) 4 2
             [MsgStart 2 300; MsgNoSolutionFound; MsgSummary 0%Q 2]).
Proof. vm_compute. reflexivity. Qed.

(** ** Dictionaries *)

Section DictFacts.
Context {V : Type}.
Implicit Types (d : list (string * V)) (k : string).

Lemma mem_false_not_in k d :
  Dict.mem String.eqb k d = false <-> ~ In k (Dict.keys d).
Proof.
  unfold Dict.mem. induction d as [|[k' v'] d IH]; simpl.
  - tauto.
  - destruct (String.eqb_spec k' k) as [->|Hne].
    + split; [discriminate | intros H; exfalso; apply H; now left].
    + rewrite IH. tauto.
Qed.

Lemma mem_true_in k d :
  Dict.mem String.eqb k d = true <-> In k (Dict.keys d).
Proof.
  destruct (Dict.mem String.eqb k d) eqn:E.
  - split; [intros _ | reflexivity].
    destruct (in_dec string_dec k (Dict.keys d)) as [Hin|Hnin]; [exact Hin|].
    apply mem_false_not_in in Hnin. congruence.
  - apply mem_false_not_in in E. split; [discriminate | tauto].
Qed.

Lemma set_fresh k (v : V) d :
  Dict.mem String.eqb k d = false -> Dict.set String.eqb k v d = d ++ [(k, v)].
Proof.
  unfold Dict.mem. induction d as [|[k' v'] d IH]; simpl; intros H.
  - reflexivity.
  - destruct (String.eqb k' k); [discriminate|]. now rewrite IH.
Qed.

Lemma del_fresh k d :
  Dict.mem String.eqb k d = false -> Dict.del String.eqb k d = d.
Proof.
  unfold Dict.mem. induction d as [|[k' v'] d IH]; simpl; intros H.
  - reflexivity.
  - destruct (String.eqb k' k); [discriminate|]. now rewrite IH.
Qed.

Lemma del_app_fresh k d d' :
  Dict.mem String.eqb k d = false ->
  Dict.del String.eqb k (d ++ d') = d ++ Dict.del String.eqb k d'.
Proof.
  unfold Dict.mem. induction d as [|[k' v'] d IH]; simpl; intros H.
  - reflexivity.
  - destruct (String.eqb k' k); [discriminate|]. now rewrite IH.
Qed.

(** Removing a key just inserted gives the dictionary back. *)
Lemma del_set_fresh k (v : V) d :
  Dict.mem String.eqb k d = false ->
  Dict.del String.eqb k (Dict.set String.eqb k v d) = d.
Proof.
  intros H. rewrite (set_fresh _ _ _ H), (del_app_fresh _ _ _ H). simpl.
  rewrite String.eqb_refl. apply app_nil_r.
Qed.

Lemma mem_set k k' (v : V) d :
  Dict.mem String.eqb k' (Dict.set String.eqb k v d)
  = String.eqb k k' || Dict.mem String.eqb k' d.
Proof.
  unfold Dict.mem. induction d as [|[k0 v0] d IH]; simpl.
  - destruct (String.eqb k k'); reflexivity.
  - destruct (String.eqb_spec k0 k) as [->|Hne]; simpl.
    + destruct (String.eqb k k'); reflexivity.
    + destruct (String.eqb_spec k0 k') as [->|Hne'].
      * now rewrite orb_true_r.
      * exact IH.
Qed.

Lemma get_in k (v : V) d :
  NoDup (Dict.keys d) -> In (k, v) d -> Dict.get String.eqb k d = Some v.
Proof.
  induction d as [|[k' v'] d IH]; simpl; intros Hnd Hin; [tauto|].
  inversion Hnd as [|? ? Hnotin Hnd']; subst.
  destruct Hin as [Heq|Hin].
  - inversion Heq; subst. now rewrite String.eqb_refl.
  - destruct (String.eqb_spec k' k) as [->|Hne].
    + exfalso. apply Hnotin. apply (in_map fst) in Hin. exact Hin.
    + auto.
Qed.

Lemma in_get k (v : V) d :
  Dict.get String.eqb k d = Some v -> In (k, v) d.
Proof.
  induction d as [|[k' v'] d IH]; simpl; [discriminate|].
  destruct (String.eqb_spec k' k) as [->|Hne].
  - intros H; inversion H; now left.
  - intros H; right; auto.
Qed.

End DictFacts.

(** ** Grouping *)

Lemma pair_eqb_spec (a b : string * string) : pair_eqb a b = true <-> a = b.
Proof.
  destruct a as [a1 a2], b as [b1 b2]. unfold pair_eqb. simpl.
  rewrite andb_true_iff, !String.eqb_eq. split.
  - intros [-> ->]. reflexivity.
  - intros H. inversion H. auto.
Qed.

Section GroupFacts.
Context {K A : Type} (eqb : K -> K -> bool).
Hypothesis eqb_spec : forall a b, eqb a b = true <-> a = b.

Lemma eqb_same a : eqb a a = true.
Proof. now apply eqb_spec. Qed.

Lemma get_append_to (k k' : K) (x : A) d :
  Dict.get eqb k' (Dict.append_to eqb k x d)
  = if eqb k k'
    then Some (match Dict.get eqb k d with Some xs => xs ++ [x] | None => [x] end)
    else Dict.get eqb k' d.
Proof.
  induction d as [|[k0 xs0] d IH]; simpl.
  - destruct (eqb k k'); reflexivity.
  - destruct (eqb k0 k) eqn:E0; simpl.
    + apply eqb_spec in E0; subst k0.
      destruct (eqb k k'); reflexivity.
    + destruct (eqb k0 k') eqn:E1.
      * apply eqb_spec in E1; subst k0.
        destruct (eqb k k') eqn:E2; [|reflexivity].
        apply eqb_spec in E2; subst k'. rewrite eqb_same in E0. discriminate.
      * exact IH.
Qed.

Lemma keys_append_to (k : K) (x : A) d :
  Dict.keys (Dict.append_to eqb k x d) = Dict.keys d
  \/ (~ In k (Dict.keys d) /\ Dict.keys (Dict.append_to eqb k x d) = Dict.keys d ++ [k]).
Proof.
  induction d as [|[k0 xs0] d IH]; simpl.
  - right. split; [tauto | reflexivity].
  - destruct (eqb k0 k) eqn:E0; simpl.
    + now left.
    + destruct IH as [IH | [Hn IH]].
      * left. now rewrite IH.
      * right. split.
        -- intros [H|H]; [|tauto]. subst k0. rewrite eqb_same in E0. discriminate.
        -- now rewrite IH.
Qed.

Lemma nodup_append_to (k : K) (x : A) d :
  NoDup (Dict.keys d) -> NoDup (Dict.keys (Dict.append_to eqb k x d)).
Proof.
  intros Hnd. destruct (keys_append_to k x d) as [-> | [Hn ->]]; [exact Hnd|].
  apply NoDup_app; [exact Hnd | repeat constructor; simpl; tauto |].
  intros y Hy [<-|[]]. tauto.
Qed.

Lemma get_group_from (k : K) (items : list (K * A)) : forall d : list (K * list A),
  Dict.get eqb k (group_from eqb d items)
  = match Dict.get eqb k d, select_key eqb k items with
    | None, [] => None
    | None, sel => Some sel
    | Some xs, sel => Some (xs ++ sel)
    end.
Proof.
  unfold group_from, select_key.
  induction items as [|[k0 x0] items IH]; intros d; simpl.
  - destruct (Dict.get eqb k d); [now rewrite app_nil_r | reflexivity].
  - rewrite IH, get_append_to.
    destruct (eqb k0 k) eqn:E0; simpl.
    + apply eqb_spec in E0; subst k0.
      destruct (Dict.get eqb k d); [now rewrite <- app_assoc | reflexivity].
    + reflexivity.
Qed.

Lemma nodup_group_from (items : list (K * A)) : forall d : list (K * list A),
  NoDup (Dict.keys d) -> NoDup (Dict.keys (group_from eqb d items)).
Proof.
  unfold group_from.
  induction items as [|[k0 x0] items IH]; intros d Hnd; simpl; [exact Hnd|].
  apply IH, nodup_append_to, Hnd.
Qed.

Lemma get_in_gen (k : K) (xs : list A) d :
  NoDup (Dict.keys d) -> In (k, xs) d -> Dict.get eqb k d = Some xs.
Proof.
  induction d as [|[k' v'] d IH]; simpl; intros Hnd Hin; [tauto|].
  inversion Hnd as [|? ? Hnotin Hnd']; subst.
  destruct Hin as [Heq|Hin].
  - inversion Heq; subst. now rewrite eqb_same.
  - destruct (eqb k' k) eqn:E.
    + apply eqb_spec in E; subst k'.
      exfalso. apply Hnotin. apply (in_map fst) in Hin. exact Hin.
    + auto.
Qed.

Lemma in_get_gen (k : K) (xs : list A) d :
  Dict.get eqb k d = Some xs -> In (k, xs) d.
Proof.
  induction d as [|[k' v'] d IH]; simpl; [discriminate|].
  destruct (eqb k' k) eqn:E.
  - apply eqb_spec in E; subst k'. intros H; inversion H; now left.
  - intros H; right; auto.
Qed.

(** Every group holds exactly the values of its key. *)
Lemma group_entries (k : K) (xs : list A) items :
  In (k, xs) (Dict.group eqb items) <-> (xs = select_key eqb k items /\ xs <> []).
Proof.
  change (Dict.group eqb items) with (group_from eqb [] items).
  assert (Hget := get_group_from k items []). simpl in Hget.
  assert (Hnd : NoDup (Dict.keys (group_from eqb [] items))).
  { apply (nodup_group_from items []). constructor. }
  split.
  - intros Hin. apply (get_in_gen _ _ _ Hnd) in Hin. rewrite Hin in Hget.
    destruct (select_key eqb k items); [discriminate|].
    inversion Hget; subst. split; [reflexivity | discriminate].
  - intros [-> Hne]. apply in_get_gen. rewrite Hget.
    destruct (select_key eqb k items); [congruence | reflexivity].
Qed.

End GroupFacts.

(** ** The constraint checker *)

Section ConstraintFacts.

Lemma no_group_above_one_iff {K : Type} (eqb : K -> K -> bool)
      (eqb_spec : forall a b, eqb a b = true <-> a = b) (items : list (K * string)) :
  no_group_above_one (Dict.group eqb items) = true
  <-> forall k, List.length (select_key eqb k items) <= 1.
Proof.
  unfold no_group_above_one. rewrite forallb_forall. split.
  - intros H k. destruct (select_key eqb k items) as [|x sel] eqn:E; [simpl; lia|].
    assert (Hin : In (k, x :: sel) (Dict.group eqb items)).
    { apply (group_entries eqb eqb_spec). rewrite E. split; [reflexivity | discriminate]. }
    apply H in Hin. simpl in Hin. apply negb_true_iff, Nat.ltb_ge in Hin.
    simpl. lia.
  - intros H [k xs] Hin. apply (group_entries eqb eqb_spec) in Hin as [-> _].
    simpl. apply negb_true_iff, Nat.ltb_ge, H.
Qed.

Lemma conflicts_of_nil mk schedule :
  no_group_above_one schedule = true -> conflicts_of mk schedule = [].
Proof.
  unfold no_group_above_one, conflicts_of. intros H.
  induction schedule as [|g schedule IH]; simpl in *; [reflexivity|].
  apply andb_true_iff in H as [Hg Hrest].
  apply negb_true_iff in Hg. rewrite Hg. auto.
Qed.

Lemma select_key_app {K A : Type} (eqb : K -> K -> bool) k (l1 l2 : list (K * A)) :
  select_key eqb k (l1 ++ l2) = select_key eqb k l1 ++ select_key eqb k l2.
Proof. unfold select_key. now rewrite filter_app, map_app. Qed.

(** The variables kept by [get_conflicts] are among those kept by
    [no_student_conflict]. *)
Lemma section_items_fewer keep assignment lectures k :
  List.length (select_key pair_eqb k (section_items keep assignment lectures))
  <= List.length (select_key pair_eqb k (section_items (fun _ => true) assignment lectures)).
Proof.
  unfold section_items.
  induction assignment as [|item a IH]; simpl; [lia|].
  rewrite !select_key_app, !length_app.
  destruct (Dict.get String.eqb (fst item) (var_to_section lectures)) as [s|]; [|simpl; lia].
  destruct (keep s); simpl; lia.
Qed.

(** An assignment that passes [check_all_constraints] has no conflict
    to report. *)
Lemma check_all_no_conflicts assignment lectures :
  check_all_constraints assignment lectures = true ->
  get_conflicts assignment lectures = [].
Proof.
  unfold check_all_constraints, get_conflicts.
  rewrite !andb_true_iff. intros [[Hi Hr] Hs].
  rewrite (conflicts_of_nil _ _ Hi), (conflicts_of_nil _ _ Hr). simpl.
  apply conflicts_of_nil.
  unfold no_student_conflict, section_schedule in Hs. unfold section_schedule_truthy.
  rewrite (no_group_above_one_iff pair_eqb pair_eqb_spec) in *.
  intros k. specialize (Hs k).
  pose proof (section_items_fewer (fun s => negb (String.eqb s "")) assignment lectures k).
  lia.
Qed.

Lemma check_all_empty lectures : check_all_constraints [] lectures = true.
Proof. reflexivity. Qed.

(** Any single value is consistent with the empty assignment. *)
Lemma is_consistent_empty var_name value lectures :
  is_consistent var_name value [] lectures = true.
Proof.
  unfold is_consistent, check_all_constraints. simpl.
  unfold no_student_conflict, section_schedule, section_items. simpl.
  destruct (Dict.get String.eqb var_name (var_to_section lectures)); reflexivity.
Qed.

End ConstraintFacts.

(** ** The search *)

Section SolverFacts.
Variable W : World.
Variable lectures : list Lecture.
Variable domains : Domains.

Lemma unassigned_spec a v :
  In v (unassigned_variables lectures a)
  <-> In v (map get_variable_name lectures) /\ Dict.mem String.eqb v a = false.
Proof.
  unfold unassigned_variables. rewrite filter_In, negb_true_iff. tauto.
Qed.

(** The MRV loop started from a candidate [b] keeps a candidate whose
    count is the least seen. *)
Lemma mrv_fold a l : forall m b,
  m = remaining_values lectures domains a b ->
  exists b',
    fold_left (mrv_step lectures domains a) l (Some m, Some b)
    = (Some (remaining_values lectures domains a b'), Some b') /\
    In b' (b :: l) /\
    remaining_values lectures domains a b' <= m /\
    forall u, In u l ->
      remaining_values lectures domains a b' <= remaining_values lectures domains a u.
Proof.
  induction l as [|x l IH]; intros m b Hm; simpl.
  - exists b. subst m.
    split; [reflexivity|]. split; [now left|]. split; [lia|]. intros u [].
  - unfold mrv_step at 2. simpl.
    destruct (remaining_values lectures domains a x <? m) eqn:E.
    + apply Nat.ltb_lt in E.
      destruct (IH (remaining_values lectures domains a x) x eq_refl)
        as (b' & Hf & Hin & Hle & Hmin).
      exists b'. rewrite Hf.
      split; [reflexivity|]. split; [now right|]. split; [lia|].
      intros u [<-|Hu]; auto.
    + apply Nat.ltb_ge in E.
      destruct (IH m b Hm) as (b' & Hf & Hin & Hle & Hmin).
      exists b'. rewrite Hf.
      split; [reflexivity|]. split; [|split; [exact Hle|]].
      * destruct Hin as [Hin|Hin]; [now left | right; now right].
      * intros u [<-|Hu]; auto. lia.
Qed.

(** [_select_unassigned_variable] fails only without unassigned
    variable, and otherwise returns one with the least count. *)
Lemma select_spec a :
  match _select_unassigned_variable lectures domains a with
  | None => unassigned_variables lectures a = []
  | Some v =>
      In v (unassigned_variables lectures a) /\
      forall u, In u (unassigned_variables lectures a) ->
        remaining_values lectures domains a v <= remaining_values lectures domains a u
  end.
Proof.
  unfold _select_unassigned_variable.
  destruct (unassigned_variables lectures a) as [|x l] eqn:E; [reflexivity|].
  simpl. unfold mrv_step at 2. simpl.
  destruct (mrv_fold a l (remaining_values lectures domains a x) x eq_refl)
    as (b' & Hf & Hin & Hle & Hmin).
  rewrite Hf. simpl. split; [exact Hin|].
  intros u [<-|Hu]; auto.
Qed.

Lemma filter_all_true {A : Type} (p : A -> bool) (l : list A) :
  (forall x, p x = true) -> filter p l = l.
Proof.
  intros Hp. induction l as [|x l IH]; simpl; [reflexivity|].
  now rewrite Hp, IH.
Qed.

Lemma filter_length_le {A : Type} (p q : A -> bool) (l : list A) :
  (forall x, q x = true -> p x = true) ->
  List.length (filter q l) <= List.length (filter p l).
Proof.
  intros Hpq. induction l as [|x l IH]; simpl; [lia|].
  destruct (q x) eqn:Eq.
  - rewrite (Hpq x Eq). simpl. lia.
  - destruct (p x); simpl; lia.
Qed.

Lemma filter_length_lt {A : Type} (p q : A -> bool) (l : list A) (y : A) :
  (forall x, q x = true -> p x = true) ->
  In y l -> p y = true -> q y = false ->
  List.length (filter q l) < List.length (filter p l).
Proof.
  intros Hpq. induction l as [|x l IH]; simpl; [tauto|].
  intros [->|Hin] Hp Hq.
  - rewrite Hp, Hq. simpl.
    pose proof (filter_length_le p q l Hpq). lia.
  - specialize (IH Hin Hp Hq).
    destruct (q x) eqn:Eq.
    + rewrite (Hpq x Eq). simpl. lia.
    + destruct (p x); simpl; lia.
Qed.

(** Assigning an unassigned variable leaves fewer unassigned ones. *)
Lemma unassigned_decreases a v value :
  In v (unassigned_variables lectures a) ->
  List.length (unassigned_variables lectures (Dict.set String.eqb v value a))
  < List.length (unassigned_variables lectures a).
Proof.
  intros Hin. apply unassigned_spec in Hin as [Hn Hm].
  unfold unassigned_variables. apply (filter_length_lt _ _ _ v).
  - intros x. rewrite mem_set, !negb_true_iff. intros H.
    apply orb_false_iff in H. tauto.
  - exact Hn.
  - now rewrite Hm.
  - now rewrite mem_set, String.eqb_refl.
Qed.

Lemma well_formed_empty : well_formed lectures domains [].
Proof.
  split; [reflexivity|]. split; [constructor|]. intros k v [].
Qed.

(** The commit of a consistent value of the domain keeps the
    assignment well formed. *)
Lemma well_formed_set a v value :
  well_formed lectures domains a ->
  In v (unassigned_variables lectures a) ->
  In value (domain_of domains v) ->
  is_consistent v value a lectures = true ->
  well_formed lectures domains (Dict.set String.eqb v value a).
Proof.
  intros (Hc & Hnd & Hin) Hv Hval Hcons.
  apply unassigned_spec in Hv as [Hn Hm].
  split; [exact Hcons|].
  rewrite (set_fresh _ _ _ Hm). split.
  - unfold Dict.keys. rewrite map_app. simpl.
    apply NoDup_app; [exact Hnd | repeat constructor; simpl; tauto |].
    intros y Hy [<-|[]]. apply mem_false_not_in in Hm. tauto.
  - intros k x Hkx. apply in_app_or in Hkx as [Hkx | [Heq|[]]]; [now apply Hin|].
    inversion Heq; subst. tauto.
Qed.

(** The loop over the values: it returns, and on failure the assignment
    is the one the loop was entered with. *)
Lemma try_values_spec recurse var_name a t values :
  Dict.mem String.eqb var_name a = false ->
  (forall value st1,
      In value values ->
      is_consistent var_name value a lectures = true ->
      assignment st1 = Dict.set String.eqb var_name value a ->
      start_time st1 = Some t ->
      exists r st',
        recurse st1 = (Ret r, st') /\
        backtrack_post lectures domains (Dict.set String.eqb var_name value a) t r st') ->
  forall st,
    assignment st = a -> start_time st = Some t ->
    exists r st',
      try_values lectures recurse var_name values st = (Ret r, st') /\
      backtrack_post lectures domains a t r st'.
Proof.
  intros Hm. induction values as [|value rest IH]; intros Hrec st Ha Ht; simpl.
  - exists None, st. split; [reflexivity|]. split; assumption.
  - assert (Hrest : forall value0 st1,
               In value0 rest ->
               is_consistent var_name value0 a lectures = true ->
               assignment st1 = Dict.set String.eqb var_name value0 a ->
               start_time st1 = Some t ->
               exists r st',
                 recurse st1 = (Ret r, st') /\
                 backtrack_post lectures domains
                                (Dict.set String.eqb var_name value0 a) t r st').
    { intros v0 st1 Hv0. apply Hrec. now right. }
    rewrite Ha. destruct (is_consistent var_name value a lectures) eqn:Hc.
    + destruct (Hrec value
                     (with_assignment (Dict.set String.eqb var_name value a) st))
        as (r & st2 & Hr & Hp); auto; [now left|].
      rewrite Hr. destruct r as [result|].
      * exists (Some result), st2. split; [reflexivity|]. exact Hp.
      * destruct Hp as [Ht2 Ha2]. rewrite Ha2.
        rewrite mem_set, String.eqb_refl. simpl.
        apply (IH Hrest); simpl; [|exact Ht2].
        apply del_set_fresh, Hm.
    + apply (IH Hrest); assumption.
Qed.

(** [_backtrack] returns when the recursion budget exceeds the number
    of unassigned variables; a returned assignment is complete and well
    formed, and after a failure the assignment is as it was on entry. *)
Lemma backtrack_spec timeout : forall fuel st t,
  List.length (unassigned_variables lectures (assignment st)) < fuel ->
  start_time st = Some t ->
  well_formed lectures domains (assignment st) ->
  exists r st',
    _backtrack W lectures domains fuel timeout st = (Ret r, st') /\
    backtrack_post lectures domains (assignment st) t r st'.
Proof.
  induction fuel as [|fuel IH]; intros st t Hfuel Ht Hwf; [lia|].
  simpl. rewrite Ht.
  destruct (negb (Qle_bool (clock W (clock_reads st) - t) (inject_Z timeout))).
  - eexists None, _. split; [reflexivity|]. split; reflexivity.
  - match goal with
    | |- context [if ?c then print ?m ?s else ?s] =>
        set (st1 := if c then print m s else s);
        assert (Ha1 : assignment st1 = assignment st)
          by (subst st1; destruct c; reflexivity);
        assert (Ht1 : start_time st1 = Some t)
          by (subst st1; destruct c; reflexivity)
    end.
    clearbody st1. rewrite Ha1.
    destruct (List.length (assignment st) =? List.length lectures) eqn:Elen.
    + apply Nat.eqb_eq in Elen.
      exists (Some (assignment st)), st1. split; [reflexivity|].
      split; [exact Ht1|]. split; [now rewrite Ha1 | auto].
    + pose proof (select_spec (assignment st)) as Hsel.
      destruct (_select_unassigned_variable lectures domains (assignment st))
        as [var_name|].
      * destruct Hsel as [Hin _].
        pose proof Hin as Hin'. apply unassigned_spec in Hin' as [_ Hm].
        apply (try_values_spec _ _ _ t); auto.
        intros value st2 Hv Hc Ha2 Ht2.
        rewrite <- Ha2. apply IH; auto.
        -- rewrite Ha2. pose proof (unassigned_decreases _ _ value Hin). lia.
        -- rewrite Ha2. apply well_formed_set; auto.
           simpl in Hv.
           apply (Permutation_in _ (Permutation_sym (shuffle_perm W _ _))) in Hv.
           exact Hv.
      * exists None, st1. split; [reflexivity|]. split; assumption.
Qed.

(** [solve] returns; a returned assignment is complete and well formed,
    and after a failure the assignment of the solver is empty. *)
Lemma solve_spec timeout st0 :
  exists r st',
    solve W lectures domains timeout st0 = (Ret r, st') /\
    match r with
    | None => assignment st' = []
    | Some result =>
        result = assignment st' /\
        well_formed lectures domains result /\
        List.length result = List.length lectures
    end.
Proof.
  unfold solve. unfold time_time at 1. cbv beta iota zeta.
  match goal with
  | |- context [_backtrack W lectures domains ?f timeout ?s] =>
      destruct (backtrack_spec timeout f s (clock W (clock_reads st0)))
        as (r & st' & Hb & Ht & Hp)
  end.
  - simpl. unfold unassigned_variables.
    rewrite filter_all_true by reflexivity. rewrite length_map. lia.
  - reflexivity.
  - apply well_formed_empty.
  - rewrite Hb. unfold report, time_time. cbv beta iota zeta.
    eexists r, _. split; [reflexivity|].
    simpl. destruct r; exact Hp.
Qed.

(** A well formed assignment as long as the list of lectures holds
    every lecture. *)
Lemma complete_covers a :
  well_formed lectures domains a ->
  List.length a = List.length lectures ->
  forall l, In l lectures ->
    exists v, Dict.get String.eqb (get_variable_name l) a = Some v /\
              In v (domain_of domains (get_variable_name l)).
Proof.
  intros (_ & Hnd & Hin) Hlen l Hl.
  assert (Hincl : incl (map get_variable_name lectures) (Dict.keys a)).
  { apply NoDup_length_incl; [exact Hnd | |].
    - unfold Dict.keys. rewrite !length_map. lia.
    - intros k Hk. apply in_map_iff in Hk as ([k' v] & <- & Hkv).
      simpl. now apply (Hin k' v). }
  assert (Hk : In (get_variable_name l) (Dict.keys a)) by (apply Hincl, in_map, Hl).
  apply in_map_iff in Hk as ([k v] & Hkeq & Hkv). simpl in Hkeq. subst k.
  exists v. split; [now apply get_in | now apply (Hin _ v)].
Qed.

End SolverFacts.

(** ** Results on [solve] *)

(** C1. Soundness of the search: an assignment returned by [solve] is
    complete (as long as the list of lectures, with a value of its domain
    for every lecture) and [get_conflicts] reports nothing on it, in none
    of the three categories: instructor, room, section. *)
Theorem solve_sound W lectures domains timeout st0 a st :
  solve W lectures domains timeout st0 = (Ret (Some a), st) ->
  get_conflicts a lectures = [] /\
  (conflicts_of InstructorConflict (instructor_schedule a) = [] /\
   conflicts_of RoomConflict (room_schedule a) = [] /\
   conflicts_of SectionConflict (section_schedule_truthy a lectures) = []) /\
  List.length a = List.length lectures /\
  forall l, In l lectures ->
    exists v, Dict.get String.eqb (get_variable_name l) a = Some v /\
              In v (domain_of domains (get_variable_name l)).
Proof.
  intros Hsolve.
  destruct (solve_spec W lectures domains timeout st0) as (r & st' & Hs & Hp).
  rewrite Hsolve in Hs. inversion Hs; subst r st'. clear Hs.
  destruct Hp as (_ & Hwf & Hlen).
  assert (Hnone : get_conflicts a lectures = []).
  { apply check_all_no_conflicts. apply Hwf. }
  split; [exact Hnone|]. split.
  - unfold get_conflicts in Hnone.
    apply app_eq_nil in Hnone as [H1 H23]. apply app_eq_nil in H23 as [H2 H3]. auto.
  - split; [exact Hlen|]. now apply complete_covers.
Qed.

Lemma solve_sound_witness :
  get_conflicts easy_solution clash_lectures = [] /\
  (conflicts_of InstructorConflict (instructor_schedule easy_solution) = [] /\
   conflicts_of RoomConflict (room_schedule easy_solution) = [] /\
   conflicts_of SectionConflict (section_schedule_truthy easy_solution clash_lectures) = []) /\
  List.length easy_solution = List.length clash_lectures /\
  forall l, In l clash_lectures ->
    exists v, Dict.get String.eqb (get_variable_name l) easy_solution = Some v /\
              In v (domain_of easy_domains (get_variable_name l)).
Proof.
  apply (solve_sound still_world clash_lectures easy_domains 300 new_solver easy_solution
           (snd (solve still_world clash_lectures easy_domains 300 new_solver))).
  vm_compute. reflexivity.
Defined.

(** C10. Rollback on failure: [solve] always returns, and whenever it
    returns failure, by exhaustion or by a time-out at any depth, the
    assignment of the solver is empty again. *)
Theorem failed_solve_rolls_back W lectures domains timeout st0 :
  (exists r st', solve W lectures domains timeout st0 = (Ret r, st')) /\
  forall st', solve W lectures domains timeout st0 = (Ret None, st') ->
              assignment st' = [].
Proof.
  destruct (solve_spec W lectures domains timeout st0) as (r & st1 & Hs & Hp).
  split; [now exists r, st1|].
  intros st' H. rewrite H in Hs. inversion Hs; subst r st1. exact Hp.
Qed.

Lemma failed_solve_rolls_back_witness :
  timed_out (snd (solve jump_world clash_lectures easy_domains 300 new_solver)) = true /\
  iterations (snd (solve jump_world clash_lectures easy_domains 300 new_solver)) = 2 /\
  assignment (snd (solve jump_world clash_lectures easy_domains 300 new_solver)) = [].
Proof.
  split; [vm_compute; reflexivity|]. split; [vm_compute; reflexivity|].
  apply (proj2 (failed_solve_rolls_back jump_world clash_lectures easy_domains 300 new_solver)).
  vm_compute. reflexivity.
Defined.

(** C4, as stated, fails: no reading of the returned value tells a
    timed-out call from an exhausted one. The two calls below fail with
    the same value [None], one after the time-out message, the other
    without it. *)
Lemma failure_kind_not_in_result : ~ failure_kind_in_result.
Proof.
  intros [classify H].
  assert (Hexhausted := H still_world clash_lectures clash_domains 300%Z).
  assert (Htimeout := H slow_world clash_lectures clash_domains 300%Z).
  replace (solve still_world clash_lectures clash_domains 300 new_solver)
    with (Ret None,
          mkState [] 2 (Some 0%Q) 4 2
                  [MsgStart 2 300; MsgNoSolutionFound; MsgSummary 0%Q 2])
    in Hexhausted by (vm_compute; reflexivity).
  replace (solve slow_world clash_lectures clash_domains 300 new_solver)
    with (Ret None,
          mkState [] 1 (Some 0%Q) 3 0
                  [MsgStart 2 300; MsgTimeout; MsgNoSolutionFound;
                   MsgSummary (inject_Z 2000) 1])
    in Htimeout by (vm_compute; reflexivity).
  simpl in Hexhausted, Htimeout.
  rewrite Hexhausted in Htimeout by discriminate.
  assert (Hfalse : false = true) by (apply Htimeout; discriminate).
  discriminate.
Qed.

(** C4, amended. Whenever [solve] does not return an assignment, what it
    returns is [None]: one and the same value after a time-out and after
    an exhausted search, without any size of a partial assignment; and the
    assignment kept by the solver is empty by then. *)
Theorem solve_failure_is_none W lectures domains timeout st0 :
  (forall a, fst (solve W lectures domains timeout st0) <> Ret (Some a)) ->
  fst (solve W lectures domains timeout st0) = Ret None /\
  assignment (snd (solve W lectures domains timeout st0)) = [].
Proof.
  intros Hfail.
  destruct (solve_spec W lectures domains timeout st0) as (r & st' & Hs & Hp).
  rewrite Hs in *. simpl in *. destruct r as [a|].
  - exfalso. now apply (Hfail a).
  - auto.
Qed.

Lemma solve_failure_is_none_witness :
  (fst (solve still_world clash_lectures clash_domains 300 new_solver) = Ret None /\
   assignment (snd (solve still_world clash_lectures clash_domains 300 new_solver)) = []) /\
  (fst (solve slow_world clash_lectures clash_domains 300 new_solver) = Ret None /\
   assignment (snd (solve slow_world clash_lectures clash_domains 300 new_solver)) = []).
Proof.
  split.
  - apply (solve_failure_is_none still_world clash_lectures clash_domains 300 new_solver).
    intros a. vm_compute. discriminate.
  - apply (solve_failure_is_none slow_world clash_lectures clash_domains 300 new_solver).
    intros a. vm_compute. discriminate.
Defined.

(** C5, as stated, fails: a call with a negative time-out enters the
    search, makes one step and returns [None], the result of a failed
    search; a call without any variable makes one step too and returns the
    empty assignment. Neither is rejected. *)
Lemma malformed_not_rejected :
  (malformed clash_lectures (-1) /\
   ~ rejected_eagerly (solve still_world clash_lectures easy_domains (-1) new_solver) /\
   solve still_world clash_lectures easy_domains (-1) new_solver
   = (Ret None,
      mkState [] 1 (Some 0%Q) 3 0
              [MsgStart 2 (-1); MsgTimeout; MsgNoSolutionFound; MsgSummary 0%Q 1])) /\
  (malformed [] 300 /\
   ~ rejected_eagerly (solve still_world [] [] 300 new_solver) /\
   solve still_world [] [] 300 new_solver
   = (Ret (Some []),
      mkState [] 1 (Some 0%Q) 3 0
              [MsgStart 0 300; MsgNoSolutionFound; MsgSummary 0%Q 1])).
Proof.
  split; (split; [|split]).
  - left. lia.
  - intros [[e He] _]. vm_compute in He. discriminate.
  - vm_compute. reflexivity.
  - now right.
  - intros [[e He] _]. vm_compute in He. discriminate.
  - vm_compute. reflexivity.
Qed.

(** ** The first step of a search *)

Section FirstStep.
Variable W : World.
Variable lectures : list Lecture.
Variable domains : Domains.

(** The first step of the search, from the state set up by [solve]. *)
Lemma backtrack_first_step fuel timeout t0 reads shf out :
  _backtrack W lectures domains (S fuel) timeout (mkState [] 0 (Some t0) reads shf out)
  = if negb (Qle_bool (clock W reads - t0) (inject_Z timeout))
    then (Ret None, mkState [] 1 (Some t0) (S reads) shf (out ++ [MsgTimeout]))
    else if 0 =? List.length lectures
         then (Ret (Some []), mkState [] 1 (Some t0) (S reads) shf out)
         else match _select_unassigned_variable lectures domains [] with
              | None => (Ret None, mkState [] 1 (Some t0) (S reads) shf out)
              | Some var_name =>
                  try_values lectures (_backtrack W lectures domains fuel timeout)
                             var_name (shuffle W shf (domain_of domains var_name))
                             (mkState [] 1 (Some t0) (S reads) (S shf) out)
              end.
Proof. reflexivity. Qed.

Lemma timed_out_app st m :
  timed_out (print m st) = timed_out st || is_timeout_msg m.
Proof.
  unfold timed_out, print. simpl. rewrite existsb_app. simpl. now rewrite orb_false_r.
Qed.

(** C5, amended. [solve] checks nothing before it searches. With a
    negative time-out, and a clock that has not run backwards between
    its first two readings, the time check of the first step fires:
    [solve] returns [None] after that single step, as a search that timed
    out. Without any variable, when that time check passes, [solve]
    returns the empty assignment after a single step. *)
Theorem malformed_is_searched timeout st0 :
  let t0 := clock W (clock_reads st0) in
  let t1 := clock W (S (clock_reads st0)) in
  ((timeout < 0)%Z -> (t0 <= t1)%Q ->
   exists st', solve W lectures domains timeout st0 = (Ret None, st') /\
               iterations st' = 1 /\ assignment st' = [] /\ timed_out st' = true) /\
  (lectures = [] -> (t1 - t0 <= inject_Z timeout)%Q ->
   exists st', solve W lectures domains timeout st0 = (Ret (Some []), st') /\
               iterations st' = 1 /\ timed_out st' = timed_out st0).
Proof.
  intros t0 t1. split.
  - intros Hneg Hclock.
    unfold solve. unfold time_time at 1. cbv beta iota zeta.
    cbn [clock_reads shuffles output print assignment iterations start_time].
    rewrite backtrack_first_step. fold t0 t1.
    assert (Hq : Qle_bool (t1 - t0) (inject_Z timeout) = false).
    { destruct (Qle_bool (t1 - t0) (inject_Z timeout)) eqn:E; [|reflexivity].
      apply Qle_bool_iff in E.
      assert (inject_Z timeout < 0)%Q by (unfold Qlt; simpl; lia).
      lra. }
    rewrite Hq. cbn [negb]. unfold report, time_time. cbv beta iota zeta.
    eexists. split; [reflexivity|]. cbn [iterations assignment print].
    split; [reflexivity|]. split; [reflexivity|].
    rewrite !timed_out_app. unfold timed_out. cbn [output].
    rewrite !existsb_app. simpl. now rewrite !orb_true_r.
  - intros Hl Hclock.
    unfold solve. unfold time_time at 1. cbv beta iota zeta.
    cbn [clock_reads shuffles output print assignment iterations start_time].
    rewrite backtrack_first_step. fold t0 t1.
    apply Qle_bool_iff in Hclock. rewrite Hclock, Hl. cbn [negb List.length Nat.eqb].
    unfold report, time_time. cbv beta iota zeta.
    eexists. split; [reflexivity|]. cbn [iterations assignment print].
    split; [reflexivity|].
    rewrite !timed_out_app. unfold timed_out. cbn [output].
    rewrite !existsb_app. simpl. now rewrite !orb_false_r.
Qed.

(** With nothing assigned every value of the domain remains. *)
Lemma remaining_empty var_name :
  remaining_values lectures domains [] var_name
  = List.length (domain_of domains var_name).
Proof.
  unfold remaining_values. rewrite filter_all_true; [reflexivity|].
  intros value. apply is_consistent_empty.
Qed.

(** With nothing assigned and a lecture without value, the variable
    selected has an empty domain. *)
Lemma select_empty_domain l :
  In l lectures -> domain_of domains (get_variable_name l) = [] ->
  exists v, _select_unassigned_variable lectures domains [] = Some v /\
            In v (map get_variable_name lectures) /\
            domain_of domains v = [].
Proof.
  intros Hl Hdom.
  assert (Hu : In (get_variable_name l) (unassigned_variables lectures [])).
  { apply unassigned_spec. split; [now apply in_map | reflexivity]. }
  pose proof (select_spec lectures domains []) as Hsel.
  destruct (_select_unassigned_variable lectures domains []) as [v|].
  - destruct Hsel as [Hin Hmin]. exists v. split; [reflexivity|].
    split; [now apply unassigned_spec in Hin|].
    specialize (Hmin _ Hu). rewrite !remaining_empty, Hdom in Hmin. simpl in Hmin.
    apply length_zero_iff_nil. lia.
  - rewrite Hsel in Hu. destruct Hu.
Qed.

(** C3. Empty-domain short-circuit: when some lecture has an empty
    domain, or none in the mapping, [solve] returns failure after a
    single step of [_backtrack], three readings of the clock in all and
    no assignment made. When the time check of that step passes, no
    time-out is reported (the search is exhausted): the variable selected
    first has an empty domain, and the shuffled list of its values, the
    values to try, is empty. *)
Theorem empty_domain_short_circuit timeout st0 l :
  In l lectures ->
  domain_of domains (get_variable_name l) = [] ->
  exists st',
    solve W lectures domains timeout st0 = (Ret None, st') /\
    assignment st' = [] /\
    iterations st' = 1 /\
    clock_reads st' = 3 + clock_reads st0 /\
    ((clock W (S (clock_reads st0)) - clock W (clock_reads st0) <= inject_Z timeout)%Q ->
     timed_out st' = timed_out st0 /\
     exists v, _select_unassigned_variable lectures domains [] = Some v /\
               domain_of domains v = [] /\
               shuffle W (shuffles st0) (domain_of domains v) = []).
Proof.
  intros Hl Hdom.
  destruct (select_empty_domain l Hl Hdom) as (v & Hsel & _ & Hv).
  assert (Hsh : shuffle W (shuffles st0) (domain_of domains v) = []).
  { rewrite Hv. apply Permutation_nil, shuffle_perm. }
  assert (Hlen : (0 =? List.length lectures) = false).
  { apply Nat.eqb_neq. intros H. symmetry in H.
    apply length_zero_iff_nil in H. rewrite H in Hl. destruct Hl. }
  unfold solve. unfold time_time at 1. cbv beta iota zeta.
  cbn [clock_reads shuffles output print assignment iterations start_time].
  rewrite backtrack_first_step, Hlen, Hsel, Hsh.
  destruct (Qle_bool (clock W (S (clock_reads st0)) - clock W (clock_reads st0))
                     (inject_Z timeout)) eqn:E; cbn [negb try_values].
  - unfold report, time_time. cbv beta iota zeta.
    eexists. split; [reflexivity|]. cbn [iterations assignment print clock_reads].
    repeat (split; [reflexivity|]).
    intros _. split.
    + rewrite !timed_out_app. unfold timed_out. cbn [output].
      rewrite !existsb_app. simpl. now rewrite !orb_false_r.
    + exists v. auto.
  - unfold report, time_time. cbv beta iota zeta.
    eexists. split; [reflexivity|]. cbn [iterations assignment print clock_reads].
    repeat (split; [reflexivity|]).
    intros H. apply Qle_bool_iff in H. congruence.
Qed.

End FirstStep.

Lemma malformed_is_searched_witness :
  (exists st', solve still_world clash_lectures easy_domains (-1) new_solver = (Ret None, st') /\
               iterations st' = 1 /\ assignment st' = [] /\ timed_out st' = true) /\
  (exists st', solve still_world [] easy_domains 300 new_solver = (Ret (Some []), st') /\
               iterations st' = 1 /\ timed_out st' = timed_out new_solver).
Proof.
  split.
  - apply (proj1 (malformed_is_searched still_world clash_lectures easy_domains (-1) new_solver)).
    + lia.
    + vm_compute. discriminate.
  - apply (proj2 (malformed_is_searched still_world [] easy_domains 300 new_solver)).
    + reflexivity.
    + vm_compute. discriminate.
Defined.

Lemma empty_domain_short_circuit_witness :
  exists st',
    solve still_world clash_lectures starved_domains 300 new_solver = (Ret None, st') /\
    assignment st' = [] /\
    iterations st' = 1 /\
    clock_reads st' = 3 + clock_reads new_solver /\
    ((clock still_world (S (clock_reads new_solver)) - clock still_world (clock_reads new_solver)
      <= inject_Z 300)%Q ->
     timed_out st' = timed_out new_solver /\
     exists v, _select_unassigned_variable clash_lectures starved_domains [] = Some v /\
               domain_of starved_domains v = [] /\
               shuffle still_world (shuffles new_solver) (domain_of starved_domains v) = []).
Proof.
  apply (empty_domain_short_circuit still_world clash_lectures starved_domains 300 new_solver
           (mkLecture "B" "S1" 1)).
  - right. left. reflexivity.
  - reflexivity.
Defined.

(** ** The domain generator *)

Section BuilderFacts.
Variable L : DataLoader.

Lemma get_set {V : Type} k k' (v : V) d :
  Dict.get String.eqb k' (Dict.set String.eqb k v d)
  = if String.eqb k k' then Some v else Dict.get String.eqb k' d.
Proof.
  induction d as [|[k0 v0] d IH]; simpl.
  - reflexivity.
  - destruct (String.eqb_spec k0 k) as [->|Hne]; simpl.
    + destruct (String.eqb k k'); reflexivity.
    + destruct (String.eqb_spec k0 k') as [->|Hne'].
      * destruct (String.eqb_spec k k'); [congruence | reflexivity].
      * exact IH.
Qed.

Lemma mem_in (x : string) (l : list string) : PyStr.mem x l = true <-> In x l.
Proof.
  unfold PyStr.mem. rewrite existsb_exists. split.
  - intros (y & Hy & E). apply String.eqb_eq in E. now subst.
  - intros H. exists x. split; [exact H | apply String.eqb_refl].
Qed.

(** The values built by the three nested loops. *)
Lemma in_domain_values qualified available_rooms slots v :
  In v (domain_values L qualified available_rooms slots) ->
  In (timeslot_of v) slots /\
  In (room_of v) available_rooms /\
  In (instructor_of v) qualified /\
  exists day,
    timeslot_day L (timeslot_of v) = Some day /\
    unavailable_on (get_instructor_unavailable_day L (instructor_of v)) day = false.
Proof.
  unfold domain_values. intros H.
  apply in_flat_map in H as (ts & Hts & H).
  destruct (timeslot_day L ts) as [day|] eqn:Eday; [|destruct H].
  apply in_flat_map in H as (room & Hroom & H).
  apply in_flat_map in H as (ins & Hins & H).
  destruct (unavailable_on (get_instructor_unavailable_day L ins) day) eqn:Eun;
    [destruct H|].
  destruct H as [<-|[]]. simpl.
  repeat split; auto. exists day. auto.
Qed.

Lemma in_rooms_by_type room_type room :
  In room (get_rooms_by_type L room_type) ->
  exists r, In r (rooms L) /\ RoomID r = room /\ RoomType r = room_type.
Proof.
  unfold get_rooms_by_type. intros H.
  apply in_map_iff in H as (r & Hid & Hr).
  apply filter_In in Hr as [Hr Ht]. apply String.eqb_eq in Ht.
  exists r. auto.
Qed.

Lemma in_qualified course instructor :
  In instructor (get_qualified_instructors L course) <-> qualified_for L course instructor.
Proof.
  unfold get_qualified_instructors, qualified_for.
  rewrite in_map_iff. split.
  - intros (r & Hid & Hr). apply filter_In in Hr as [Hr Hq].
    apply mem_in in Hq. exists r. auto.
  - intros (r & Hr & Hid & Hq). exists r. split; [exact Hid|].
    apply filter_In. split; [exact Hr | now apply mem_in].
Qed.

Lemma unavailable_on_spec instructor day :
  unavailable_on (get_instructor_unavailable_day L instructor) day = true
  <-> marked_unavailable L instructor day.
Proof.
  unfold unavailable_on, marked_unavailable.
  destruct (get_instructor_unavailable_day L instructor) as [u|].
  - rewrite andb_true_iff, negb_true_iff, String.eqb_neq, String.eqb_eq. split.
    + intros [Hne Heq]. exists u. auto.
    + intros (u' & Hu & Hne & Heq). inversion Hu; subst u'. auto.
  - split; [discriminate | intros (u & Hu & _); discriminate].
Qed.

(** Every value of the domain generated for a lecture passes the three
    unary filters. *)
Lemma lecture_domain_filtered lecture domain v :
  lecture_domain L lecture = Some domain ->
  In v domain ->
  satisfies_unary_filters L lecture v.
Proof.
  unfold lecture_domain. intros Hdom Hv.
  destruct (get_course_info L (course_id lecture)) as [info|] eqn:Einfo; [|discriminate].
  destruct (get_qualified_instructors L (course_id lecture)) as [|q qs] eqn:Eq;
    [discriminate|].
  inversion Hdom; subst domain. clear Hdom.
  apply in_domain_values in Hv as (_ & Hroom & Hins & day & Hday & Hav).
  split; [|split].
  - apply in_rooms_by_type in Hroom as (r & Hr & Hid & Ht).
    exists info, r. repeat split; auto.
  - apply in_qualified. now rewrite Eq.
  - exists day. split; [exact Hday|]. split.
    + intros Hm. apply unavailable_on_spec in Hm. congruence.
    + intros Hne. unfold unavailable_on, is_available_on_day in *.
      destruct (get_instructor_unavailable_day L (instructor_of v)) as [u|];
        [|reflexivity].
      destruct (String.eqb u day) eqn:Eud; [|reflexivity].
      apply String.eqb_eq in Eud. rewrite Eud in Hav.
      apply String.eqb_neq in Hne. rewrite Hne in Hav. discriminate.
Qed.

(** The entries of the mapping come from the mapping at the start or
    were generated for a lecture of that key. *)
Lemma build_domains_get k domain lectures : forall domains0,
  Dict.get String.eqb k (build_domains L lectures domains0) = Some domain ->
  Dict.get String.eqb k domains0 = Some domain \/
  exists lecture,
    In lecture lectures /\ get_variable_name lecture = k /\
    lecture_domain L lecture = Some domain.
Proof.
  unfold build_domains.
  induction lectures as [|lecture lectures IH]; intros domains0 H; simpl in H.
  - now left.
  - apply IH in H as [H | (l' & Hin & Hk & Hd)].
    + destruct (lecture_domain L lecture) as [dom|] eqn:E.
      * rewrite get_set in H.
        destruct (String.eqb_spec (get_variable_name lecture) k) as [Hk|Hk].
        -- inversion H; subst dom. right. exists lecture. simpl. auto.
        -- now left.
      * now left.
    + right. exists l'. simpl. auto.
Qed.

(** The keys of the mapping: those at the start, and those of the
    lectures that reach the end of their turn of the loop. *)
Lemma build_domains_mem k lectures : forall domains0,
  Dict.mem String.eqb k (build_domains L lectures domains0) = true <->
  Dict.mem String.eqb k domains0 = true \/
  exists lecture,
    In lecture lectures /\ get_variable_name lecture = k /\
    lecture_domain L lecture <> None.
Proof.
  unfold build_domains.
  induction lectures as [|lecture lectures IH]; intros domains0; simpl.
  - split; [now left | intros [H | (l & [] & _)]; exact H].
  - rewrite IH. clear IH. split.
    + intros [H | (l' & Hin & Hk & Hd)].
      * destruct (lecture_domain L lecture) as [dom|] eqn:E; [|now left].
        rewrite mem_set in H. apply orb_true_iff in H as [H|H]; [|now left].
        apply String.eqb_eq in H. right. exists lecture.
        repeat split; auto. congruence.
      * right. exists l'. auto.
    + intros [H | (l' & [<-|Hin] & Hk & Hd)].
      * left. destruct (lecture_domain L lecture); [|exact H].
        rewrite mem_set, H. apply orb_true_r.
      * left. destruct (lecture_domain L lecture); [|congruence].
        rewrite mem_set, Hk, String.eqb_refl. reflexivity.
      * right. exists l'. auto.
Qed.

(** Every lecture created has its course in the table. *)
Lemma created_course_found section_ids lecture :
  In lecture (build_lectures_for_sections L section_ids) ->
  get_course_info L (course_id lecture) <> None.
Proof.
  unfold build_lectures_for_sections. intros H.
  apply in_flat_map in H as (section & _ & H).
  apply in_flat_map in H as (course & _ & H).
  unfold lectures_of_course in H.
  destruct (get_course_info L course) as [info|] eqn:E; [|destruct H].
  apply in_map_iff in H as (n & <- & _). simpl. congruence.
Qed.

(** C2. Completeness of the unary filters: every value of the domain
    that [build_domains] generates for a lecture has a room of the type
    the course requires, an instructor qualified for the course and not
    marked unavailable on the weekday of the timeslot; and every entry of
    the mapping built by a new builder is the domain generated for a
    lecture of that key. *)
Theorem domain_values_pass_unary_filters lectures :
  (forall lecture domain v,
      In lecture lectures ->
      lecture_domain L lecture = Some domain ->
      In v domain ->
      satisfies_unary_filters L lecture v) /\
  (forall k domain v,
      Dict.get String.eqb k (build_domains L lectures []) = Some domain ->
      In v domain ->
      exists lecture,
        In lecture lectures /\ get_variable_name lecture = k /\
        satisfies_unary_filters L lecture v).
Proof.
  split.
  - intros lecture domain v _. apply lecture_domain_filtered.
  - intros k domain v Hget Hv.
    apply build_domains_get in Hget as [Hget | (lecture & Hin & Hk & Hd)];
      [discriminate|].
    exists lecture. split; [exact Hin|]. split; [exact Hk|].
    now apply (lecture_domain_filtered lecture domain).
Qed.

(** C6, amended. The mapping built for the lectures created from the
    sections holds exactly the keys of the created lectures whose course
    has a qualified instructor. A lecture whose course has none is
    created all the same (the creation does not look at the
    instructors), and its turn of the loop stores nothing. *)
Theorem build_domains_keys section_ids k :
  (Dict.mem String.eqb k
            (build_domains L (build_lectures_for_sections L section_ids) []) = true
   <-> exists lecture,
       In lecture (build_lectures_for_sections L section_ids) /\
       get_variable_name lecture = k /\
       get_qualified_instructors L (course_id lecture) <> []) /\
  (forall others,
      build_lectures_for_sections
        (mkLoader (courses L) others (rooms L) (timeslots L) (sections L)) section_ids
      = build_lectures_for_sections L section_ids) /\
  (forall lecture,
      get_qualified_instructors L (course_id lecture) = [] ->
      lecture_domain L lecture = None).
Proof.
  split; [|split].
  - rewrite build_domains_mem. split.
    + intros [H | (lecture & Hin & Hk & Hd)]; [discriminate|].
      exists lecture. split; [exact Hin|]. split; [exact Hk|].
      intros Hq. apply Hd. unfold lecture_domain. rewrite Hq.
      now destruct (get_course_info L (course_id lecture)).
    + intros (lecture & Hin & Hk & Hq). right.
      exists lecture. split; [exact Hin|]. split; [exact Hk|].
      pose proof (created_course_found _ _ Hin) as Hc.
      unfold lecture_domain.
      destruct (get_course_info L (course_id lecture)); [|congruence].
      destruct (get_qualified_instructors L (course_id lecture)); [congruence|discriminate].
  - reflexivity.
  - intros lecture Hq. unfold lecture_domain. rewrite Hq.
    now destruct (get_course_info L (course_id lecture)).
Qed.

End BuilderFacts.

Lemma domain_values_pass_unary_filters_witness :
  satisfies_unary_filters demo_loader (mkLecture "PHY113" "S1" 1) ("TS0", "R101", "PROF02") /\
  exists lecture,
    In lecture demo_lectures /\ get_variable_name lecture = "S1_AID312_L2" /\
    satisfies_unary_filters demo_loader lecture ("TS4", "L1", "PROF01").
Proof.
  split.
  - apply (proj1 (domain_values_pass_unary_filters demo_loader demo_lectures)
             (mkLecture "PHY113" "S1" 1)
             (domain_of demo_domains "S1_PHY113_L1")).
    + vm_compute. tauto.
    + vm_compute. reflexivity.
    + vm_compute. tauto.
  - apply (proj2 (domain_values_pass_unary_filters demo_loader demo_lectures)
             "S1_AID312_L2" (domain_of demo_domains "S1_AID312_L2")).
    + vm_compute. reflexivity.
    + vm_compute. tauto.
Defined.

(** C6, as stated, fails: the course LRA101 has no qualified instructor;
    its lecture is created, and the mapping has no entry for its key,
    where the claim expects the key bound to an empty domain. *)
Lemma starved_lecture_has_no_entry :
  In (mkLecture "LRA101" "S1" 1) (build_lectures_for_sections demo_loader ["S1"]) /\
  get_variable_name (mkLecture "LRA101" "S1" 1) = "S1_LRA101_L1" /\
  get_qualified_instructors demo_loader "LRA101" = [] /\
  Dict.get String.eqb "S1_LRA101_L1"
           (build_domains demo_loader (build_lectures_for_sections demo_loader ["S1"]) [])
  <> Some [] /\
  Dict.mem String.eqb "S1_LRA101_L1"
           (build_domains demo_loader (build_lectures_for_sections demo_loader ["S1"]) [])
  = false.
Proof.
  split; [vm_compute; tauto|].
  split; [reflexivity|]. split; [reflexivity|].
  split; [vm_compute; discriminate | vm_compute; reflexivity].
Qed.

Lemma build_domains_keys_witness :
  Dict.mem String.eqb "S1_PHY113_L1"
           (build_domains demo_loader (build_lectures_for_sections demo_loader ["S1"]) []) = true /\
  lecture_domain demo_loader (mkLecture "LRA101" "S1" 1) = None.
Proof.
  split.
  - apply (proj1 (build_domains_keys demo_loader ["S1"] "S1_PHY113_L1")).
    exists (mkLecture "PHY113" "S1" 1).
    split; [vm_compute; tauto|]. split; [reflexivity | vm_compute; discriminate].
  - apply (proj2 (proj2 (build_domains_keys demo_loader ["S1"] "S1_PHY113_L1"))).
    reflexivity.
Defined.

(** ** The quality scorer *)

(** C9, on the code. On a Monday of six timeslots TS6..TS11, sessions at
    TS6 and TS8 leave one position free and cost 10, while sessions at TS6
    and TS11 leave four positions free and cost nothing: the slots are
    sorted as strings, TS11 goes before TS6, and the negative difference of
    positions is dropped. The same happens in the week of twenty timeslots
    on Tuesday (TS8..TS11): the free TS9 between TS8 and TS10 costs
    nothing, and neither do the free TS9 and TS10 between TS8 and TS11,
    while the free TS5 between TS4 and TS6 on Monday costs 10. *)
Theorem gap_penalty_not_monotone :
  (idle_positions six_slot_loader narrow_gap clash_lectures = 1 /\
   idle_positions six_slot_loader wide_gap clash_lectures = 4 /\
   _calculate_gap_penalty six_slot_loader default_weights narrow_gap clash_lectures = Some 10%Z /\
   _calculate_gap_penalty six_slot_loader default_weights wide_gap clash_lectures = Some 0%Z) /\
  (idle_positions demo_loader tuesday_gap clash_lectures = 1 /\
   idle_positions demo_loader tuesday_wide_gap clash_lectures = 2 /\
   idle_positions demo_loader monday_gap clash_lectures = 1 /\
   _calculate_gap_penalty demo_loader default_weights tuesday_gap clash_lectures = Some 0%Z /\
   _calculate_gap_penalty demo_loader default_weights tuesday_wide_gap clash_lectures
   = Some 0%Z /\
   _calculate_gap_penalty demo_loader default_weights monday_gap clash_lectures = Some 10%Z) /\
  PyStr.sorted ["TS6"; "TS11"] = ["TS11"; "TS6"].
Proof. repeat split; vm_compute; reflexivity. Qed.

(** C8, on the code. Section S1 and its instructor P1 go from R101 at TS0
    to R102 at TS1, next door (distance 0); section S2 is in L1 at TS1.
    The scan of the whole assignment leaves L1 as the room at TS1, so both
    the view of S1 and the view of P1 are charged the distance 3 between
    R101 and L1, 48 in all, where the rooms of their own sessions give no
    penalty. The assignment is complete and free of conflicts. *)
Theorem room_distance_uses_foreign_room :
  check_all_constraints next_door campus_lectures = true /\
  List.length next_door = List.length campus_lectures /\
  _calculate_room_distance_penalty demo_loader default_weights next_door campus_lectures
  = Some 48%Z /\
  room_distance_penalty_own demo_loader default_weights next_door campus_lectures
  = Some 0%Z /\
  room_at next_door "TS1" = Some "L1" /\
  own_room_at next_door ["S1_A_L1"; "S1_B_L1"] "TS1" = Some "R102" /\
  _calculate_room_distance "R101" "R102" = Some 0%Z /\
  _calculate_room_distance "R101" "L1" = Some 3%Z.
Proof. repeat split; vm_compute; reflexivity. Qed.

Section BalanceFacts.
Local Open Scope R_scope.

Lemma std_dev_one_day : std_dev_of [2%nat] = 0.
Proof.
  unfold std_dev_of, variance_of, mean_of, sum_R. simpl.
  replace ((0 + (1 + 1 - (0 + (1 + 1)) / 1) * (1 + 1 - (0 + (1 + 1)) / 1)) / 1)
    with 0 by field.
  apply sqrt_0.
Qed.

Lemma std_dev_one_day_of_five : std_dev_of [2%nat; 0%nat; 0%nat; 0%nat; 0%nat] = 4 / 5.
Proof.
  unfold std_dev_of, variance_of, mean_of, sum_R. simpl.
  match goal with
  | |- sqrt ?v = _ => replace v with ((4 / 5) * (4 / 5)) by field
  end.
  apply sqrt_square. lra.
Qed.

(** C7, on the code. With both sessions of a section on Sunday, the
    deviation is taken over the single count 2 and is 0: the bonus is
    25, the largest there is. Over the five weekdays, the counts
    2, 0, 0, 0, 0 have the deviation 4/5, and the bonus of the claim
    is 21. *)
Theorem balance_bonus_skips_free_days :
  section_day_counts demo_loader one_day clash_lectures = [("S1", [("Sunday", 2%nat)])] /\
  week_counts demo_loader [("Sunday", 2%nat)] = [2%nat; 0%nat; 0%nat; 0%nat; 0%nat] /\
  _calculate_balance_bonus demo_loader default_weights one_day clash_lectures = 25 /\
  balance_bonus_over_week demo_loader default_weights one_day clash_lectures = 21.
Proof.
  assert (Hc : section_day_counts demo_loader one_day clash_lectures
               = [("S1", [("Sunday", 2%nat)])]) by (vm_compute; reflexivity).
  assert (Hw : week_counts demo_loader [("Sunday", 2%nat)]
               = [2%nat; 0%nat; 0%nat; 0%nat; 0%nat]) by (vm_compute; reflexivity).
  split; [exact Hc|]. split; [exact Hw|]. split.
  - unfold _calculate_balance_bonus. rewrite Hc. cbn [fold_left snd map].
    unfold balance_of_counts. rewrite std_dev_one_day.
    rewrite Rmax_right by lra. simpl. lra.
  - unfold balance_bonus_over_week. rewrite Hc. cbn [fold_left snd]. rewrite Hw.
    unfold balance_of_counts. rewrite std_dev_one_day_of_five.
    rewrite Rmax_right by lra. simpl. lra.
Qed.

End BalanceFacts.

(* ================================================================== *)
(** * Further properties *)

(** ** What the hard constraints mean *)

Section PairwiseFacts.

Lemma select_key_keyed keyf (a : Assignment) k :
  select_key pair_eqb k (keyed_items keyf a)
  = map fst (filter (fun item => match keyf item with
                                 | Some k' => pair_eqb k' k
                                 | None => false
                                 end) a).
Proof.
  unfold keyed_items. induction a as [|item a IH]; simpl; [reflexivity|].
  rewrite select_key_app, IH. unfold select_key at 1.
  destruct (keyf item) as [k'|]; simpl; [|reflexivity].
  destruct (pair_eqb k' k); reflexivity.
Qed.

Lemma nodup_keys_filter {V : Type} (p : string * V -> bool) (a : list (string * V)) :
  NoDup (Dict.keys a) -> NoDup (Dict.keys (filter p a)).
Proof.
  unfold Dict.keys. induction a as [|item a IH]; simpl; intros Hnd; [constructor|].
  inversion Hnd as [|? ? Hnotin Hnd']; subst.
  destruct (p item); simpl; auto.
  constructor; auto.
  intros Hin. apply Hnotin. apply in_map_iff in Hin as (x & Hx & Hf).
  apply filter_In in Hf as [Hf _]. apply in_map_iff. exists x. auto.
Qed.

Lemma at_most_one {A : Type} (l : list A) :
  NoDup l -> (List.length l <= 1 <-> forall x y, In x l -> In y l -> x = y).
Proof.
  intros Hnd. split.
  - destruct l as [|x [|y l]]; simpl; intros Hlen; try lia.
    intros a b [<-|[]] [<-|[]]. reflexivity.
  - intros Heq. destruct l as [|x [|y l]]; simpl; try lia.
    exfalso. inversion Hnd as [|? ? Hnotin _]; subst.
    apply Hnotin. rewrite (Heq x y); simpl; auto.
Qed.

(** A grouping has no group above one exactly when no two variables of
    the assignment have the same key. *)
Lemma no_clash_iff keyf (a : Assignment) :
  NoDup (Dict.keys a) ->
  (no_group_above_one (Dict.group pair_eqb (keyed_items keyf a)) = true
   <-> forall i1 i2 k, In i1 a -> In i2 a ->
                       keyf i1 = Some k -> keyf i2 = Some k -> fst i1 = fst i2).
Proof.
  intros Hnd. rewrite (no_group_above_one_iff pair_eqb pair_eqb_spec). split.
  - intros H i1 i2 k H1 H2 K1 K2.
    specialize (H k). rewrite select_key_keyed in H.
    apply (proj1 (at_most_one _ (nodup_keys_filter _ a Hnd)) H).
    + apply in_map. apply filter_In. split; [exact H1|].
      rewrite K1. now apply pair_eqb_spec.
    + apply in_map. apply filter_In. split; [exact H2|].
      rewrite K2. now apply pair_eqb_spec.
  - intros H k. rewrite select_key_keyed.
    apply at_most_one; [apply (nodup_keys_filter _ a Hnd)|].
    intros x y Hx Hy.
    apply in_map_iff in Hx as (i1 & <- & H1). apply in_map_iff in Hy as (i2 & <- & H2).
    apply filter_In in H1 as [H1 K1]. apply filter_In in H2 as [H2 K2].
    destruct (keyf i1) as [k1|] eqn:E1; [|discriminate].
    destruct (keyf i2) as [k2|] eqn:E2; [|discriminate].
    apply pair_eqb_spec in K1, K2. subst k1 k2.
    apply (H i1 i2 k); auto.
Qed.

Lemma keyed_items_total (key : string * Value -> string * string) (a : Assignment) :
  keyed_items (fun item => Some (key item)) a = map (fun item => (key item, fst item)) a.
Proof.
  unfold keyed_items. induction a as [|item a IH]; simpl; [reflexivity | now rewrite IH].
Qed.

Lemma section_items_keyed keep a lectures :
  section_items keep a lectures = keyed_items (section_key keep lectures) a.
Proof.
  unfold section_items, keyed_items, section_key.
  induction a as [|item a IH]; simpl; [reflexivity|]. rewrite IH.
  destruct (Dict.get String.eqb (fst item) (var_to_section lectures)) as [s|]; [|reflexivity].
  destruct (keep s); reflexivity.
Qed.

(** [var_to_section] on a name held by no lecture of the list keeps the
    entry of the dictionary it started from. *)
Lemma var_to_section_from_other lectures k : forall d : list (string * string),
  ~ In k (map get_variable_name lectures) ->
  Dict.get String.eqb k
           (fold_left (fun d lecture =>
                         Dict.set String.eqb (get_variable_name lecture)
                                  (section_id lecture) d) lectures d)
  = Dict.get String.eqb k d.
Proof.
  induction lectures as [|l lectures IH]; intros d Hn; simpl; [reflexivity|].
  rewrite IH by (intros H; apply Hn; now right).
  rewrite get_set. destruct (String.eqb_spec (get_variable_name l) k) as [E|E];
    [|reflexivity].
  exfalso. apply Hn. now left.
Qed.

Lemma var_to_section_from lectures k s : forall d : list (string * string),
  Dict.get String.eqb k
           (fold_left (fun d lecture =>
                         Dict.set String.eqb (get_variable_name lecture)
                                  (section_id lecture) d) lectures d) = Some s ->
  Dict.get String.eqb k d = Some s \/
  exists l, In l lectures /\ get_variable_name l = k /\ section_id l = s.
Proof.
  induction lectures as [|l lectures IH]; intros d H; simpl in H; [now left|].
  apply IH in H as [H | (l' & Hin & Hk & Hs)].
  - rewrite get_set in H.
    destruct (String.eqb_spec (get_variable_name l) k) as [E|E]; [|now left].
    inversion H. right. exists l. simpl. auto.
  - right. exists l'. simpl. auto.
Qed.

(** The section recorded for a variable is the section of a lecture of
    that name. *)
Lemma var_to_section_sound lectures k s :
  Dict.get String.eqb k (var_to_section lectures) = Some s ->
  exists l, In l lectures /\ get_variable_name l = k /\ section_id l = s.
Proof.
  intros H. apply var_to_section_from in H as [H|H]; [discriminate | exact H].
Qed.

(** With one lecture per name, the section recorded for the name of a
    lecture is its own. *)
Lemma var_to_section_complete lectures l :
  NoDup (map get_variable_name lectures) ->
  In l lectures ->
  Dict.get String.eqb (get_variable_name l) (var_to_section lectures)
  = Some (section_id l).
Proof.
  unfold var_to_section. generalize (@nil (string * string)) as d.
  induction lectures as [|l0 lectures IH]; intros d Hnd Hin; [destruct Hin|].
  simpl in Hnd. inversion Hnd as [|? ? Hnotin Hnd']; subst.
  simpl. destruct Hin as [->|Hin].
  - rewrite var_to_section_from_other by exact Hnotin.
    rewrite get_set, String.eqb_refl. reflexivity.
  - now apply IH.
Qed.

Lemma check_all_pairwise (a : Assignment) lectures :
  NoDup (Dict.keys a) ->
  NoDup (map get_variable_name lectures) ->
  (check_all_constraints a lectures = true
   <-> (forall k1 v1 k2 v2, In (k1, v1) a -> In (k2, v2) a -> k1 <> k2 ->
                            ~ same_instructor_and_time v1 v2) /\
       (forall k1 v1 k2 v2, In (k1, v1) a -> In (k2, v2) a -> k1 <> k2 ->
                            ~ same_room_and_time v1 v2) /\
       (forall l1 v1 l2 v2,
           In l1 lectures -> In l2 lectures ->
           In (get_variable_name l1, v1) a -> In (get_variable_name l2, v2) a ->
           get_variable_name l1 <> get_variable_name l2 ->
           section_id l1 = section_id l2 ->
           timeslot_of v1 <> timeslot_of v2)).
Proof.
  intros Hnd Hnames.
  unfold check_all_constraints, no_instructor_conflict, no_room_conflict,
    no_student_conflict, instructor_schedule, room_schedule, section_schedule.
  rewrite <- (keyed_items_total (fun item => (instructor_of (snd item), timeslot_of (snd item)))).
  rewrite <- (keyed_items_total (fun item => (room_of (snd item), timeslot_of (snd item)))).
  rewrite section_items_keyed.
  rewrite !andb_true_iff, !(no_clash_iff _ a Hnd).
  unfold same_instructor_and_time, same_room_and_time.
  split.
  - intros [[Hi Hr] Hs]. split; [|split].
    + intros k1 v1 k2 v2 H1 H2 Hne [Ei Et]. apply Hne.
      apply (Hi (k1, v1) (k2, v2) (instructor_of v1, timeslot_of v1)); simpl; auto.
      now rewrite Ei, Et.
    + intros k1 v1 k2 v2 H1 H2 Hne [Er Et]. apply Hne.
      apply (Hr (k1, v1) (k2, v2) (room_of v1, timeslot_of v1)); simpl; auto.
      now rewrite Er, Et.
    + intros l1 v1 l2 v2 Hl1 Hl2 H1 H2 Hne Esec Et. apply Hne.
      apply (Hs (get_variable_name l1, v1) (get_variable_name l2, v2)
                (section_id l1, timeslot_of v1)); auto; unfold section_key; simpl.
      * now rewrite (var_to_section_complete _ _ Hnames Hl1).
      * rewrite (var_to_section_complete _ _ Hnames Hl2). now rewrite Esec, Et.
  - intros (Hi & Hr & Hs). split; [split|].
    + intros [k1 v1] [k2 v2] k H1 H2 K1 K2. simpl in *.
      destruct (string_dec k1 k2) as [E|Hne]; [exact E|]. exfalso.
      apply (Hi k1 v1 k2 v2 H1 H2 Hne).
      inversion K1; subst k. inversion K2. auto.
    + intros [k1 v1] [k2 v2] k H1 H2 K1 K2. simpl in *.
      destruct (string_dec k1 k2) as [E|Hne]; [exact E|]. exfalso.
      apply (Hr k1 v1 k2 v2 H1 H2 Hne).
      inversion K1; subst k. inversion K2. auto.
    + intros [k1 v1] [k2 v2] k H1 H2 K1 K2. unfold section_key in *. simpl in *.
      destruct (Dict.get String.eqb k1 (var_to_section lectures)) as [s1|] eqn:E1;
        [|discriminate].
      destruct (Dict.get String.eqb k2 (var_to_section lectures)) as [s2|] eqn:E2;
        [|discriminate].
      inversion K1; subst k. inversion K2; subst s2.
      apply var_to_section_sound in E1 as (l1 & Hl1 & N1 & S1).
      apply var_to_section_sound in E2 as (l2 & Hl2 & N2 & S2).
      subst k1 k2.
      destruct (string_dec (get_variable_name l1) (get_variable_name l2)) as [E|Hne];
        [exact E|]. exfalso.
      apply (Hs l1 v1 l2 v2 Hl1 Hl2 H1 H2 Hne); congruence.
Qed.

(** X1. Meaning of the three hard constraints. For an assignment with
    one entry per variable and lectures with pairwise different names,
    [check_all_constraints] holds exactly when no two different variables
    have the same instructor at the same timeslot, none have the same room
    at the same timeslot, and no two different lectures of one section are
    at the same timeslot. *)
Theorem check_all_constraints_pairwise (a : Assignment) lectures :
  NoDup (Dict.keys a) ->
  NoDup (map get_variable_name lectures) ->
  (check_all_constraints a lectures = true
   <-> (forall k1 v1 k2 v2, In (k1, v1) a -> In (k2, v2) a -> k1 <> k2 ->
                            ~ same_instructor_and_time v1 v2) /\
       (forall k1 v1 k2 v2, In (k1, v1) a -> In (k2, v2) a -> k1 <> k2 ->
                            ~ same_room_and_time v1 v2) /\
       (forall l1 v1 l2 v2,
           In l1 lectures -> In l2 lectures ->
           In (get_variable_name l1, v1) a -> In (get_variable_name l2, v2) a ->
           get_variable_name l1 <> get_variable_name l2 ->
           section_id l1 = section_id l2 ->
           timeslot_of v1 <> timeslot_of v2)).
Proof. apply check_all_pairwise. Qed.

End PairwiseFacts.

(** ** The search is exhaustive *)

(** An assignment made of entries of a conflict-free assignment is
    conflict-free. *)
Lemma check_all_constraints_sub (a s : Assignment) lectures :
  NoDup (Dict.keys a) -> NoDup (Dict.keys s) -> incl a s ->
  check_all_constraints s lectures = true ->
  check_all_constraints a lectures = true.
Proof.
  intros Ha Hs Hincl.
  unfold check_all_constraints, no_instructor_conflict, no_room_conflict,
    no_student_conflict, instructor_schedule, room_schedule, section_schedule.
  rewrite <- !(keyed_items_total (fun item => (instructor_of (snd item), timeslot_of (snd item)))).
  rewrite <- !(keyed_items_total (fun item => (room_of (snd item), timeslot_of (snd item)))).
  rewrite !section_items_keyed.
  rewrite !andb_true_iff, !(no_clash_iff _ a Ha), !(no_clash_iff _ s Hs).
  intros [[Hi Hr] Hst].
  split; [split|]; intros i1 i2 k H1 H2; [apply Hi | apply Hr | apply Hst]; auto.
Qed.

Section Exhaustive.
Variable W : World.
Variable lectures : list Lecture.
Variable domains : Domains.

Lemma value_eq_dec (x y : Value) : {x = y} + {x <> y}.
Proof. repeat decide equality. Qed.

(** The value that a solution gives to an unassigned variable is
    consistent with every part of the solution assigned so far. *)
Lemma solution_value_consistent a s var_name x :
  NoDup (Dict.keys a) ->
  is_solution lectures domains s ->
  incl a s ->
  Dict.mem String.eqb var_name a = false ->
  In (var_name, x) s ->
  is_consistent var_name x a lectures = true /\
  incl (Dict.set String.eqb var_name x a) s.
Proof.
  intros Ha [(Hc & Hs & _) _] Hincl Hm Hx.
  assert (Hincl' : incl (Dict.set String.eqb var_name x a) s).
  { rewrite (set_fresh _ _ _ Hm). intros i Hi.
    apply in_app_or in Hi as [Hi | [<-|[]]]; auto. }
  split; [|exact Hincl'].
  unfold is_consistent. apply (check_all_constraints_sub _ s); auto.
  rewrite (set_fresh _ _ _ Hm). unfold Dict.keys. rewrite map_app. simpl.
  apply NoDup_app; [exact Ha | repeat constructor; simpl; tauto |].
  intros y Hy [<-|[]]. apply mem_false_not_in in Hm. tauto.
Qed.

(** The loop over the values finds an assignment when the recursive call
    does so for one of the values. *)
Lemma try_values_finds recurse var_name a t x values :
  Dict.mem String.eqb var_name a = false ->
  is_consistent var_name x a lectures = true ->
  (forall value st1,
      In value values ->
      is_consistent var_name value a lectures = true ->
      assignment st1 = Dict.set String.eqb var_name value a ->
      start_time st1 = Some t ->
      exists r st',
        recurse st1 = (Ret r, st') /\
        backtrack_post lectures domains (Dict.set String.eqb var_name value a) t r st' /\
        (value = x -> r <> None)) ->
  In x values ->
  forall st,
    assignment st = a -> start_time st = Some t ->
    exists result st',
      try_values lectures recurse var_name values st = (Ret (Some result), st').
Proof.
  intros Hm Hcx. induction values as [|value rest IH]; intros Hrec Hin st Ha Ht;
    [destruct Hin|].
  assert (Hrest : forall value0 st1,
             In value0 rest ->
             is_consistent var_name value0 a lectures = true ->
             assignment st1 = Dict.set String.eqb var_name value0 a ->
             start_time st1 = Some t ->
             exists r st',
               recurse st1 = (Ret r, st') /\
               backtrack_post lectures domains
                              (Dict.set String.eqb var_name value0 a) t r st' /\
               (value0 = x -> r <> None)).
  { intros v0 st1 Hv0. apply Hrec. now right. }
  simpl. rewrite Ha.
  destruct (is_consistent var_name value a lectures) eqn:Hc.
  - destruct (Hrec value (with_assignment (Dict.set String.eqb var_name value a) st))
      as (r & st2 & Hr & Hp & Hx); auto; [now left|].
    rewrite Hr. destruct r as [result|]; [now exists result, st2|].
    destruct Hp as [Ht2 Ha2]. rewrite Ha2, mem_set, String.eqb_refl. simpl.
    apply (IH Hrest); simpl; auto.
    + destruct Hin as [E|Hin]; [|exact Hin]. exfalso. now apply Hx.
    + apply del_set_fresh, Hm.
  - apply (IH Hrest); auto.
    destruct Hin as [E|Hin]; [|exact Hin]. congruence.
Qed.

(** When no reading of the clock exceeds the budget, [_backtrack] finds
    an assignment from every partial assignment that is part of a
    solution. *)
Lemma backtrack_finds timeout s t :
  is_solution lectures domains s ->
  (forall k, (clock W k - t <= inject_Z timeout)%Q) ->
  forall fuel st,
    List.length (unassigned_variables lectures (assignment st)) < fuel ->
    start_time st = Some t ->
    well_formed lectures domains (assignment st) ->
    incl (assignment st) s ->
    exists result st',
      _backtrack W lectures domains fuel timeout st = (Ret (Some result), st').
Proof.
  intros Hsol Hclock.
  induction fuel as [|fuel IH]; intros st Hfuel Ht Hwf Hincl; [lia|].
  simpl. rewrite Ht.
  rewrite (proj2 (Qle_bool_iff _ _) (Hclock (clock_reads st))). cbn [negb].
  match goal with
  | |- context [if ?c then print ?m ?s else ?s] =>
      set (st1 := if c then print m s else s);
      assert (Ha1 : assignment st1 = assignment st)
        by (subst st1; destruct c; reflexivity);
      assert (Ht1 : start_time st1 = Some t)
        by (subst st1; destruct c; reflexivity)
  end.
  clearbody st1. rewrite Ha1.
  destruct (List.length (assignment st) =? List.length lectures) eqn:Elen;
    [now eexists _, _|].
  apply Nat.eqb_neq in Elen.
  pose proof (select_spec lectures domains (assignment st)) as Hsel.
  destruct Hsol as [Hswf Hslen].
  destruct (_select_unassigned_variable lectures domains (assignment st)) as [var_name|].
  - destruct Hsel as [Hin _].
    pose proof Hin as Hin'. apply unassigned_spec in Hin' as [Hname Hm].
    apply in_map_iff in Hname as (l & Hl & Hll).
    destruct (complete_covers lectures domains s Hswf Hslen l Hll) as (x & Hget & Hdom).
    rewrite Hl in Hget, Hdom. apply in_get in Hget.
    destruct Hwf as (Hc & Hnd & Hval).
    destruct (solution_value_consistent (assignment st) s var_name x Hnd
                (conj Hswf Hslen) Hincl Hm Hget) as [Hcx Hinclx].
    apply (try_values_finds _ _ (assignment st) t x); auto.
    + intros value st2 Hv Hcv Ha2 Ht2.
      assert (Hwf2 : well_formed lectures domains (assignment st2)).
      { rewrite Ha2.
        apply well_formed_set;
          [exact (conj Hc (conj Hnd Hval)) | exact Hin | | exact Hcv].
        simpl in Hv.
        apply (Permutation_in _ (Permutation_sym (shuffle_perm W _ _))) in Hv.
        exact Hv. }
      assert (Hf2 : List.length (unassigned_variables lectures (assignment st2)) < fuel).
      { rewrite Ha2. pose proof (unassigned_decreases lectures _ _ value Hin). lia. }
      destruct (backtrack_spec W lectures domains timeout fuel st2 t Hf2 Ht2 Hwf2)
        as (r & st' & Hr & Hp).
      exists r, st'. rewrite <- Ha2. split; [exact Hr|]. split; [exact Hp|].
      intros -> Hnone.
      destruct (IH st2 Hf2 Ht2 Hwf2) as (result & st'' & Hfind).
      * now rewrite Ha2.
      * rewrite Hr in Hfind. subst r. discriminate.
    + simpl. apply (Permutation_in _ (shuffle_perm W _ _)). exact Hdom.
  - exfalso. apply Elen.
    destruct Hwf as (_ & Hnd & Hval). destruct Hswf as (_ & Hsnd & Hsval).
    assert (Hnames : NoDup (map get_variable_name lectures)).
    { apply (@NoDup_incl_NoDup _ (Dict.keys s)); [exact Hsnd | |].
      - unfold Dict.keys. rewrite !length_map. lia.
      - intros k Hk. apply in_map_iff in Hk as ([k' v] & <- & Hkv).
        simpl. now apply (Hsval k' v). }
    assert (Hall : incl (map get_variable_name lectures) (Dict.keys (assignment st))).
    { intros k Hk.
      destruct (Dict.mem String.eqb k (assignment st)) eqn:Em.
      - now apply mem_true_in.
      - assert (Hu : In k (unassigned_variables lectures (assignment st)))
          by (apply unassigned_spec; auto).
        rewrite Hsel in Hu. destruct Hu. }
    assert (Hback : incl (Dict.keys (assignment st)) (map get_variable_name lectures)).
    { intros k Hk. apply in_map_iff in Hk as ([k' v] & <- & Hkv).
      simpl. now apply (Hval k' v). }
    pose proof (NoDup_incl_length Hnames Hall) as L1.
    pose proof (NoDup_incl_length Hnd Hback) as L2.
    unfold Dict.keys in L1, L2. rewrite !length_map in L1, L2. lia.
Qed.

(** X2. The search is exhaustive: when no reading of the clock exceeds
    the budget and a complete conflict-free assignment with values of the
    domains exists, [solve] returns an assignment; so a failure of [solve]
    without time-out shows that the problem has no solution. *)
Theorem solve_finds_a_solution timeout st0 s :
  (forall k, (clock W k - clock W (clock_reads st0) <= inject_Z timeout)%Q) ->
  is_solution lectures domains s ->
  exists result st',
    solve W lectures domains timeout st0 = (Ret (Some result), st') /\
    is_solution lectures domains result /\
    get_conflicts result lectures = [].
Proof.
  intros Hclock Hsol.
  destruct (solve_spec W lectures domains timeout st0) as (r & st' & Hs & Hp).
  destruct r as [result|].
  - exists result, st'. destruct Hp as (_ & Hwf & Hlen).
    split; [exact Hs|]. split; [now split|].
    apply check_all_no_conflicts, Hwf.
  - exfalso. revert Hs. unfold solve. unfold time_time at 1. cbv beta iota zeta.
    match goal with
    | |- context [_backtrack W lectures domains ?f timeout ?entry] =>
        destruct (backtrack_finds timeout s (clock W (clock_reads st0)) Hsol Hclock f entry)
          as (result & st1 & Hb)
    end.
    + simpl. unfold unassigned_variables.
      rewrite filter_all_true by reflexivity. rewrite length_map. lia.
    + reflexivity.
    + apply well_formed_empty.
    + intros i [].
    + rewrite Hb. unfold report, time_time. cbv beta iota zeta. discriminate.
Qed.

End Exhaustive.

(** ** Variable names and the selection of a variable *)

Section SelectionFacts.
Variable W : World.
Variable lectures : list Lecture.
Variable domains : Domains.

(** X3. Two lectures with the same variable name make the problem
    unsolvable for the search: whatever the domains, the clock and the
    shuffles, [solve] returns [None]. *)
Theorem colliding_names_never_solved timeout st0 :
  ~ NoDup (map get_variable_name lectures) ->
  exists st', solve W lectures domains timeout st0 = (Ret None, st').
Proof.
  intros Hdup.
  destruct (solve_spec W lectures domains timeout st0) as (r & st' & Hs & Hp).
  destruct r as [result|]; [|now exists st'].
  exfalso. apply Hdup.
  destruct Hp as (_ & (_ & Hnd & Hval) & Hlen).
  apply (@NoDup_incl_NoDup _ (Dict.keys result)); [exact Hnd | |].
  - unfold Dict.keys. rewrite !length_map. lia.
  - intros k Hk. apply in_map_iff in Hk as ([k' v] & <- & Hkv).
    simpl. now apply (Hval k' v).
Qed.

(** The MRV loop keeps the first candidate whose count is the least. *)
Lemma mrv_fold_first a l : forall m b,
  m = remaining_values lectures domains a b ->
  exists b',
    snd (fold_left (mrv_step lectures domains a) l (Some m, Some b)) = Some b' /\
    ((b' = b /\ forall u, In u l -> m <= remaining_values lectures domains a u) \/
     (exists before after,
         l = before ++ b' :: after /\
         remaining_values lectures domains a b' < m /\
         (forall u, In u before ->
                    remaining_values lectures domains a b'
                    < remaining_values lectures domains a u) /\
         (forall u, In u after ->
                    remaining_values lectures domains a b'
                    <= remaining_values lectures domains a u))).
Proof.
  induction l as [|x l IH]; intros m b Hm; simpl.
  - exists b. split; [reflexivity|]. left. split; [reflexivity | intros u []].
  - unfold mrv_step at 2. simpl.
    destruct (remaining_values lectures domains a x <? m) eqn:E.
    + apply Nat.ltb_lt in E.
      destruct (IH (remaining_values lectures domains a x) x eq_refl)
        as (b' & Hf & [[-> Hmin] | (before & after & -> & Hlt & Hb & Ha)]).
      * exists x. split; [exact Hf|]. right. exists [], l.
        split; [reflexivity|]. split; [exact E|]. split; [intros u [] | exact Hmin].
      * exists b'. split; [exact Hf|]. right. exists (x :: before), after.
        split; [reflexivity|]. split; [lia|]. split; [|exact Ha].
        intros u [<-|Hu]; [exact Hlt | now apply Hb].
    + apply Nat.ltb_ge in E.
      destruct (IH m b Hm)
        as (b' & Hf & [[-> Hmin] | (before & after & -> & Hlt & Hb & Ha)]).
      * exists b. split; [exact Hf|]. left. split; [reflexivity|].
        intros u [<-|Hu]; [exact E | now apply Hmin].
      * exists b'. split; [exact Hf|]. right. exists (x :: before), after.
        split; [reflexivity|]. split; [exact Hlt|]. split; [|exact Ha].
        intros u [<-|Hu]; [lia | now apply Hb].
Qed.

(** X4. Variable selection: the variable returned is, in the order of the
    lectures, the first unassigned variable with the least number of
    values still consistent: every unassigned variable before it has
    strictly more of them, every one after it at least as many. Nothing is
    returned only when every variable is assigned. *)
Theorem select_first_most_constrained a :
  match _select_unassigned_variable lectures domains a with
  | None => unassigned_variables lectures a = []
  | Some v =>
      exists before after,
        unassigned_variables lectures a = before ++ v :: after /\
        (forall u, In u before ->
                   remaining_values lectures domains a v
                   < remaining_values lectures domains a u) /\
        (forall u, In u after ->
                   remaining_values lectures domains a v
                   <= remaining_values lectures domains a u)
  end.
Proof.
  unfold _select_unassigned_variable.
  destruct (unassigned_variables lectures a) as [|x l]; [reflexivity|].
  simpl. unfold mrv_step at 2. simpl.
  destruct (mrv_fold_first a l (remaining_values lectures domains a x) x eq_refl)
    as (b' & Hf & [[-> Hmin] | (before & after & -> & Hlt & Hb & Ha)]).
  - rewrite Hf. exists [], l. split; [reflexivity|]. split; [intros u [] | exact Hmin].
  - rewrite Hf. exists (x :: before), after. split; [reflexivity|]. split; [|exact Ha].
    intros u [<-|Hu]; [exact Hlt | now apply Hb].
Qed.

End SelectionFacts.

(** ** More on the domain generator *)

Section MoreBuilderFacts.
Variable L : DataLoader.

Lemma timeslot_day_listed ts day :
  timeslot_day L ts = Some day -> In ts (map TimeSlotID (timeslots L)).
Proof.
  unfold timeslot_day. intros H.
  destruct (find (fun r => String.eqb (TimeSlotID r) ts) (timeslots L)) as [r|] eqn:E;
    [|discriminate].
  apply find_some in E as [Hin Heq]. apply String.eqb_eq in Heq.
  apply in_map_iff. exists r. auto.
Qed.

(** X5. The domain generated for a lecture is exactly the set of the
    values that pass the three unary filters: no feasible combination of a
    listed timeslot, a room of the required type and a qualified instructor
    available that day is left out. *)
Theorem lecture_domain_exact lecture domain v :
  lecture_domain L lecture = Some domain ->
  (In v domain <-> satisfies_unary_filters L lecture v).
Proof.
  intros Hdom. split; [now apply lecture_domain_filtered|].
  intros (Hroom & Hq & day & Hday & Hnm & _).
  unfold lecture_domain in Hdom.
  destruct Hroom as (info & r & Hinfo & Hr & Hid & Htype). rewrite Hinfo in Hdom.
  apply in_qualified in Hq.
  destruct (get_qualified_instructors L (course_id lecture)) as [|q qs] eqn:Eq;
    [discriminate|].
  inversion Hdom; subst domain. clear Hdom.
  destruct v as [[ts room] ins]. unfold timeslot_of, room_of, instructor_of in *.
  simpl in *.
  unfold domain_values. apply in_flat_map. exists ts.
  split; [now apply (timeslot_day_listed ts day)|].
  rewrite Hday. apply in_flat_map. exists room. split.
  - unfold get_rooms_by_type. apply in_map_iff. exists r. split; [exact Hid|].
    apply filter_In. split; [exact Hr|]. apply String.eqb_eq.
    rewrite Htype. reflexivity.
  - apply in_flat_map. exists ins. split; [exact Hq|].
    destruct (unavailable_on (get_instructor_unavailable_day L ins) day) eqn:Eu.
    + exfalso. apply Hnm. now apply unavailable_on_spec.
    + now left.
Qed.

Lemma lectures_per_week_range credits :
  (1 <= _calculate_lectures_per_week credits <= 3)%Z.
Proof.
  unfold _calculate_lectures_per_week.
  repeat match goal with |- context [(?a =? ?b)%Z] => destruct (a =? b)%Z end; lia.
Qed.

Lemma in_range1 n k : In n (range1 k) <-> (1 <= n <= k)%Z.
Proof.
  unfold range1. rewrite in_map_iff. split.
  - intros (i & <- & Hi). apply in_seq in Hi. lia.
  - intros H. exists (Z.to_nat n). split; [lia|]. apply in_seq. lia.
Qed.

(** X6. The lectures created for the sections: a lecture is created
    exactly when its section was asked for, its course is listed for the
    section and found in the course table, and its number lies between 1
    and the number of weekly lectures of the course, itself between 1
    and 3. A course missing from the table gives no lecture. *)
Theorem created_lectures_exact section_ids lecture :
  In lecture (build_lectures_for_sections L section_ids)
  <-> In (section_id lecture) section_ids /\
      In (course_id lecture) (get_section_courses L (section_id lecture)) /\
      exists info,
        get_course_info L (course_id lecture) = Some info /\
        (1 <= lecture_number lecture <= _calculate_lectures_per_week (Credits info))%Z /\
        (_calculate_lectures_per_week (Credits info) <= 3)%Z.
Proof.
  unfold build_lectures_for_sections. rewrite in_flat_map. split.
  - intros (section & Hs & H). apply in_flat_map in H as (course & Hc & H).
    unfold lectures_of_course in H.
    destruct (get_course_info L course) as [info|] eqn:E; [|destruct H].
    apply in_map_iff in H as (n & <- & Hn). simpl. apply in_range1 in Hn.
    split; [exact Hs|]. split; [exact Hc|]. exists info. split; [exact E|].
    pose proof (lectures_per_week_range (Credits info)). lia.
  - intros (Hs & Hc & info & E & Hn & _).
    exists (section_id lecture). split; [exact Hs|].
    apply in_flat_map. exists (course_id lecture). split; [exact Hc|].
    unfold lectures_of_course. rewrite E. apply in_map_iff.
    exists (lecture_number lecture). split; [now destruct lecture|].
    apply in_range1. lia.
Qed.

End MoreBuilderFacts.

(** ** Variable names *)

Section NameFacts.

Lemma of_Z_inj n n' : PyStr.of_Z n = PyStr.of_Z n' -> n = n'.
Proof.
  unfold PyStr.of_Z. intros H.
  apply DecimalZ.to_int_inj.
  assert (Hnn : forall z, Z.to_int z <> Decimal.Pos Decimal.Nil /\
                          Z.to_int z <> Decimal.Neg Decimal.Nil).
  { intros [|p|p]; simpl; split; try discriminate; intros E; inversion E as [E'];
      now apply DecimalPos.Unsigned.to_uint_nonnil in E'. }
  assert (Hs : Some (Z.to_int n) = Some (Z.to_int n')).
  { rewrite <- (NilZero.isi (Z.to_int n)), <- (NilZero.isi (Z.to_int n'));
      try apply Hnn. now rewrite H. }
  now inversion Hs.
Qed.

(** Two strings without the character [c], each followed by [c] and a
    rest, are equal only part by part. *)
Lemma split_at_char c a : forall b x y,
  has_char c a = false -> has_char c b = false ->
  (a ++ String c x)%string = (b ++ String c y)%string ->
  a = b /\ x = y.
Proof.
  induction a as [|ca a IH]; intros [|cb b] x y Ha Hb H; simpl in *.
  - inversion H. auto.
  - inversion H; subst cb. rewrite Ascii.eqb_refl in Hb. discriminate.
  - inversion H; subst ca. rewrite Ascii.eqb_refl in Ha. discriminate.
  - inversion H; subst cb.
    apply orb_false_iff in Ha as [_ Ha]. apply orb_false_iff in Hb as [_ Hb].
    destruct (IH b x y Ha Hb) as [-> ->]; auto.
Qed.

Lemma get_variable_name_inj_on l1 l2 :
  has_char "_" (section_id l1) = false -> has_char "_" (course_id l1) = false ->
  has_char "_" (section_id l2) = false -> has_char "_" (course_id l2) = false ->
  get_variable_name l1 = get_variable_name l2 ->
  l1 = l2.
Proof.
  destruct l1 as [c1 s1 n1], l2 as [c2 s2 n2]. unfold get_variable_name. simpl.
  intros Hs1 Hc1 Hs2 Hc2 H.
  change ("_" ++ c1 ++ "_L" ++ PyStr.of_Z n1)%string
    with (String "_" (c1 ++ String "_" (String "L" (PyStr.of_Z n1))))%string in H.
  change ("_" ++ c2 ++ "_L" ++ PyStr.of_Z n2)%string
    with (String "_" (c2 ++ String "_" (String "L" (PyStr.of_Z n2))))%string in H.
  apply split_at_char in H as [-> H]; auto.
  apply split_at_char in H as [-> H]; auto.
  inversion H as [Hn]. apply of_Z_inj in Hn. now subst.
Qed.

(** X7. Variable names identify lectures as long as no section id and no
    course id contains an underscore: two such lectures with the same
    variable name are the same lecture. *)
Theorem get_variable_name_inj l1 l2 :
  has_char "_" (section_id l1) = false -> has_char "_" (course_id l1) = false ->
  has_char "_" (section_id l2) = false -> has_char "_" (course_id l2) = false ->
  get_variable_name l1 = get_variable_name l2 ->
  l1 = l2.
Proof. apply get_variable_name_inj_on. Qed.

(** Underscores in the ids do let two different lectures share a name. *)
Example variable_name_collision :
  get_variable_name (mkLecture "B" "S1_A" 1) = get_variable_name (mkLecture "A_B" "S1" 1).
Proof. reflexivity. Qed.

End NameFacts.

(** ** More on the quality scorer *)

Section ScorerFacts.
Variable L : DataLoader.
Variable weights : Weights.

Lemma in_insert_sorted x y l : In y (PyStr.insert_sorted x l) <-> y = x \/ In y l.
Proof.
  induction l as [|z l IH]; simpl.
  - intuition.
  - destruct (String.ltb x z); simpl; rewrite ?IH; intuition.
Qed.

Lemma in_sorted_from x l : forall acc,
  In x (fold_left (fun acc y => PyStr.insert_sorted y acc) l acc) <-> In x l \/ In x acc.
Proof.
  induction l as [|y l IH]; intros acc; simpl.
  - tauto.
  - rewrite IH, in_insert_sorted. intuition.
Qed.

(** [sorted] keeps the elements. *)
Lemma in_sorted x l : In x (PyStr.sorted l) <-> In x l.
Proof. unfold PyStr.sorted. rewrite in_sorted_from. simpl. tauto. Qed.

Lemma length_insert_sorted x l : List.length (PyStr.insert_sorted x l) = S (List.length l).
Proof.
  induction l as [|z l IH]; simpl; [reflexivity|].
  destruct (String.ltb x z); simpl; [reflexivity | now rewrite IH].
Qed.

Lemma length_sorted_from l : forall acc,
  List.length (fold_left (fun acc y => PyStr.insert_sorted y acc) l acc)
  = List.length l + List.length acc.
Proof.
  induction l as [|y l IH]; intros acc; simpl; [reflexivity|].
  rewrite IH, length_insert_sorted. lia.
Qed.

Lemma length_sorted l : List.length (PyStr.sorted l) = List.length l.
Proof. unfold PyStr.sorted. rewrite length_sorted_from. simpl. lia. Qed.

Lemma in_adjacent_pairs {A : Type} (p : A * A) (l : list A) :
  In p (adjacent_pairs l) -> In (fst p) l /\ In (snd p) l.
Proof.
  unfold adjacent_pairs. destruct p as [x y]. intros H. simpl. split.
  - now apply in_combine_l in H.
  - apply in_combine_r in H. destruct l; [destruct H | now right].
Qed.

(** Every element of a list of two or more is in one of its pairs of
    neighbours. *)
Lemma adjacent_pairs_cover {A : Type} (x : A) (l : list A) :
  2 <= List.length l -> In x l ->
  exists p, In p (adjacent_pairs l) /\ (fst p = x \/ snd p = x).
Proof.
  unfold adjacent_pairs. induction l as [|a [|b l] IH]; simpl; intros Hlen Hin; try lia.
  destruct Hin as [E|Hin].
  - exists (a, b). split; [now left | now left].
  - destruct l as [|c l].
    + destruct Hin as [E|[]]. exists (a, b). split; [now left | now right].
    + destruct IH as (p & Hp & Hx); [simpl; lia | exact Hin |].
      exists p. split; [now right | exact Hx].
Qed.

Lemma index_in x l : PyStr.index x l <> None <-> In x l.
Proof.
  induction l as [|y l IH]; simpl; [tauto|].
  destruct (String.eqb_spec y x) as [->|Hne].
  - split; [now left | discriminate].
  - destruct (PyStr.index x l); simpl in *.
    + split; [intros _; right; now apply IH | discriminate].
    + split; [congruence | intros [E|H]; [congruence | now apply IH in H]].
Qed.

Lemma add_each_defined {A : Type} (f : A -> option Z) l : forall penalty,
  (forall x, In x l -> f x <> None) -> add_each f l penalty <> None.
Proof.
  induction l as [|x l IH]; intros penalty H; simpl; [discriminate|].
  destruct (f x) as [p|] eqn:E; [|exfalso; apply (H x); [now left | exact E]].
  apply IH. intros y Hy. apply H. now right.
Qed.

Lemma add_each_raises {A : Type} (f : A -> option Z) l x : forall penalty,
  In x l -> f x = None -> add_each f l penalty = None.
Proof.
  induction l as [|y l IH]; intros penalty Hin Hx; [destruct Hin|]. simpl.
  destruct Hin as [->|Hin]; [now rewrite Hx|].
  destruct (f y); [now apply IH | reflexivity].
Qed.

Lemma add_each_grows {A : Type} (f : A -> option Z) l : forall penalty r,
  (forall x p, In x l -> f x = Some p -> (0 <= p)%Z) ->
  add_each f l penalty = Some r -> (penalty <= r)%Z.
Proof.
  induction l as [|x l IH]; intros penalty r H Hr; simpl in Hr.
  - inversion Hr. lia.
  - destruct (f x) as [p|] eqn:E; [|discriminate].
    apply IH in Hr; [|intros y q Hy; apply H; now right].
    pose proof (H x p (or_introl eq_refl) E). lia.
Qed.

(** The timeslots of a group are timeslots of the assignment, on the day
    of the group. *)
Lemma section_group_slots a lectures k slots ts :
  In (k, slots) (_group_by_section_and_day L a lectures) -> In ts slots ->
  timeslot_day L ts = Some (snd k) /\ exists item, In item a /\ timeslot_of (snd item) = ts.
Proof.
  unfold _group_by_section_and_day. intros Hg Hts.
  apply (group_entries pair_eqb pair_eqb_spec) in Hg as [-> _].
  unfold select_key in Hts. apply in_map_iff in Hts as ([k' ts'] & Heq & Hf).
  simpl in Heq. subst ts'. apply filter_In in Hf as [Hf Hk].
  simpl in Hk. apply pair_eqb_spec in Hk. subst k'.
  apply in_flat_map in Hf as (item & Hitem & Hf).
  destruct (lecture_named lectures (fst item)); [|destruct Hf].
  destruct (timeslot_day L (timeslot_of (snd item))) as [day|] eqn:Ed; [|destruct Hf].
  destruct Hf as [Hf|[]]. inversion Hf; subst. simpl. split; [exact Ed|].
  exists item. auto.
Qed.

Lemma instructor_group_slots a k slots ts :
  In (k, slots) (_group_by_instructor_and_day L a) -> In ts slots ->
  exists item, In item a /\ timeslot_of (snd item) = ts.
Proof.
  unfold _group_by_instructor_and_day. intros Hg Hts.
  apply (group_entries pair_eqb pair_eqb_spec) in Hg as [-> _].
  unfold select_key in Hts. apply in_map_iff in Hts as ([k' ts'] & Heq & Hf).
  simpl in Heq. subst ts'. apply filter_In in Hf as [Hf _].
  apply in_flat_map in Hf as (item & Hitem & Hf).
  destruct (timeslot_day L (timeslot_of (snd item))) as [day|] eqn:Ed; [|destruct Hf].
  destruct Hf as [Hf|[]]. inversion Hf; subst. exists item. auto.
Qed.

Lemma day_slot_listed ts day :
  timeslot_day L ts = Some day -> In ts (get_available_timeslots_for_day L day).
Proof.
  unfold timeslot_day, get_available_timeslots_for_day. intros H.
  destruct (find (fun r => String.eqb (TimeSlotID r) ts) (timeslots L)) as [r|] eqn:E;
    [|discriminate].
  apply find_some in E as [Hin Heq]. apply String.eqb_eq in Heq.
  inversion H as [Hd]. apply in_map_iff. exists r. split; [exact Heq|].
  apply filter_In. split; [exact Hin | apply String.eqb_refl].
Qed.

(** X8. The gap penalty is defined on every assignment: the lookups
    [day_slots.index] never fail, since a slot is grouped under the day of
    its own row of the timeslot table. With a weight that is not negative
    the penalty is not negative. *)
Theorem gap_penalty_defined a lectures :
  exists penalty,
    _calculate_gap_penalty L weights a lectures = Some penalty /\
    ((0 <= no_gaps weights)%Z -> (0 <= penalty)%Z).
Proof.
  assert (Hpair : forall g p,
             In g (_group_by_section_and_day L a lectures) ->
             In p (adjacent_pairs (PyStr.sorted (snd g))) ->
             gap_of_pair weights (get_available_timeslots_for_day L (snd (fst g))) p
             <> None).
  { intros [k slots] p Hg Hp. simpl in *.
    apply in_adjacent_pairs in Hp as [H1 H2].
    apply (proj1 (in_sorted _ _)) in H1.
    apply (proj1 (in_sorted _ _)) in H2.
    destruct (section_group_slots _ _ _ _ _ Hg H1) as [D1 _].
    destruct (section_group_slots _ _ _ _ _ Hg H2) as [D2 _].
    apply day_slot_listed, index_in in D1. apply day_slot_listed, index_in in D2.
    unfold gap_of_pair.
    destruct (PyStr.index (fst p) _); [|congruence].
    destruct (PyStr.index (snd p) _); [discriminate | congruence]. }
  assert (Hgroup : forall g, In g (_group_by_section_and_day L a lectures) ->
                             gap_of_group L weights g <> None).
  { intros g Hg. unfold gap_of_group.
    destruct (1 <? List.length (PyStr.sorted (snd g))); [|discriminate].
    apply add_each_defined. intros p Hp. now apply Hpair. }
  unfold _calculate_gap_penalty.
  destruct (add_each (gap_of_group L weights) (_group_by_section_and_day L a lectures) 0%Z)
    as [penalty|] eqn:E.
  - exists penalty. split; [reflexivity|]. intros Hw.
    apply (add_each_grows _ _ _ _) in E; [exact E|].
    intros g p _ Hp. unfold gap_of_group in Hp.
    destruct (1 <? List.length (PyStr.sorted (snd g))); [|inversion Hp; lia].
    apply (add_each_grows _ _ _ _) in Hp; [exact Hp|].
    intros q r _ Hq. unfold gap_of_pair in Hq.
    destruct (PyStr.index (fst q) _); [|discriminate].
    destruct (PyStr.index (snd q) _) as [n|]; [|discriminate].
    inversion Hq. destruct (0 <? n - z - 1)%Z eqn:Eg; [|lia].
    apply Z.ltb_lt in Eg. nia.
  - exfalso. revert E. apply add_each_defined. exact Hgroup.
Qed.

Lemma truthy_str_head s : truthy_str (Some s) = true -> PyStr.head s <> None.
Proof. destruct s; simpl; [discriminate | discriminate]. Qed.

(** The distance of two rooms with non-empty names is defined and not
    negative. *)
Lemma room_distance_defined r1 r2 :
  PyStr.head r1 <> None -> PyStr.head r2 <> None ->
  exists d, _calculate_room_distance r1 r2 = Some d /\ (0 <= d)%Z.
Proof.
  intros H1 H2. unfold _calculate_room_distance.
  destruct (String.eqb r1 r2); [exists 0%Z; split; [reflexivity | lia]|].
  destruct (PyStr.head r1) as [c1|]; [|congruence].
  destruct (PyStr.head r2) as [c2|]; [|congruence].
  destruct (Ascii.eqb c1 c2); [|exists 3%Z; split; [reflexivity | lia]].
  destruct (PyStr.int (PyStr.tail r1)) as [n1|]; [|exists 1%Z; split; [reflexivity | lia]].
  destruct (PyStr.int (PyStr.tail r2)) as [n2|]; [|exists 1%Z; split; [reflexivity | lia]].
  eexists. split; [reflexivity|]. apply Z.div_pos; lia.
Qed.

Lemma distance_of_pair_defined a p :
  In (fst p) all_slots -> In (snd p) all_slots ->
  exists d, distance_of_pair weights a p = Some d /\
            ((0 <= consecutive_rooms weights)%Z -> (0 <= d)%Z).
Proof.
  intros H1 H2. apply index_in in H1, H2. unfold distance_of_pair.
  destruct (PyStr.index (fst p) all_slots) as [i|]; [|congruence].
  destruct (PyStr.index (snd p) all_slots) as [j|]; [|congruence].
  destruct (j =? i + 1)%Z; [|exists 0%Z; split; [reflexivity | lia]].
  destruct (truthy_str (room_at a (fst p))) eqn:T1;
    [|exists 0%Z; split; [reflexivity | lia]].
  destruct (truthy_str (room_at a (snd p))) eqn:T2;
    [|exists 0%Z; split; [reflexivity | lia]].
  simpl.
  destruct (room_at a (fst p)) as [r1|]; [|discriminate].
  destruct (room_at a (snd p)) as [r2|]; [|discriminate].
  destruct (room_distance_defined r1 r2) as (d & Hd & Hpos);
    [now apply truthy_str_head | now apply truthy_str_head |].
  rewrite Hd. eexists. split; [reflexivity|]. intros Hw.
  destruct (2 <? d)%Z; [nia | lia].
Qed.

Lemma check_consecutive_defined (slots : list string) a :
  (forall ts, In ts slots -> In ts all_slots) ->
  exists d, _check_consecutive_room_distance weights slots a = Some d /\
            ((0 <= consecutive_rooms weights)%Z -> (0 <= d)%Z).
Proof.
  intros Hall. unfold _check_consecutive_room_distance.
  destruct (List.length slots <? 2); [exists 0%Z; split; [reflexivity | lia]|].
  assert (Hp : forall p, In p (adjacent_pairs (PyStr.sorted slots)) ->
                         exists d, distance_of_pair weights a p = Some d /\
                                   ((0 <= consecutive_rooms weights)%Z -> (0 <= d)%Z)).
  { intros p Hp.
    apply in_adjacent_pairs in Hp as [H1 H2].
    apply (proj1 (in_sorted _ _)) in H1.
    apply (proj1 (in_sorted _ _)) in H2.
    apply distance_of_pair_defined; auto. }
  destruct (add_each (distance_of_pair weights a) (adjacent_pairs (PyStr.sorted slots)) 0%Z)
    as [d|] eqn:E.
  - exists d. split; [reflexivity|]. intros Hw.
    apply (add_each_grows _ _ _ _) in E; [exact E|].
    intros p q Hin Hq. destruct (Hp p Hin) as (d' & Hd' & Hpos).
    rewrite Hq in Hd'. inversion Hd'. subst. auto.
  - exfalso. revert E. apply add_each_defined.
    intros p Hin. destruct (Hp p Hin) as (d' & Hd' & _). congruence.
Qed.

(** X9. The room-distance penalty is defined on every assignment whose
    timeslots are all among TS0..TS19, the only ones [all_slots.index]
    knows; with a weight that is not negative it is not negative. *)
Theorem room_distance_penalty_defined a lectures :
  (forall item, In item a -> In (timeslot_of (snd item)) all_slots) ->
  exists penalty,
    _calculate_room_distance_penalty L weights a lectures = Some penalty /\
    ((0 <= consecutive_rooms weights)%Z -> (0 <= penalty)%Z).
Proof.
  intros Hall. unfold _calculate_room_distance_penalty.
  assert (Hs : forall g, In g (_group_by_section_and_day L a lectures) ->
                         exists d, _check_consecutive_room_distance weights (snd g) a = Some d /\
                                   ((0 <= consecutive_rooms weights)%Z -> (0 <= d)%Z)).
  { intros [k slots] Hg. apply check_consecutive_defined. intros ts Hts.
    destruct (section_group_slots _ _ _ _ _ Hg Hts) as [_ (item & Hi & <-)]. auto. }
  assert (Hi : forall g, In g (_group_by_instructor_and_day L a) ->
                         exists d, _check_consecutive_room_distance weights (snd g) a = Some d /\
                                   ((0 <= consecutive_rooms weights)%Z -> (0 <= d)%Z)).
  { intros [k slots] Hg. apply check_consecutive_defined. intros ts Hts.
    destruct (instructor_group_slots _ _ _ _ Hg Hts) as (item & Hi & <-). auto. }
  destruct (add_each (fun g => _check_consecutive_room_distance weights (snd g) a)
                     (_group_by_section_and_day L a lectures) 0%Z) as [p1|] eqn:E1.
  - destruct (add_each (fun g => _check_consecutive_room_distance weights (snd g) a)
                       (_group_by_instructor_and_day L a) p1) as [p2|] eqn:E2.
    + exists p2. split; [reflexivity|]. intros Hw.
      apply (add_each_grows _ _ _ _) in E1;
        [|intros g q Hg Hq; destruct (Hs g Hg) as (d & Hd & Hpos);
          rewrite Hq in Hd; inversion Hd; subst; auto].
      apply (add_each_grows _ _ _ _) in E2;
        [|intros g q Hg Hq; destruct (Hi g Hg) as (d & Hd & Hpos);
          rewrite Hq in Hd; inversion Hd; subst; auto].
      lia.
    + exfalso. revert E2. apply add_each_defined.
      intros g Hg. destruct (Hi g Hg) as (d & Hd & _). congruence.
  - exfalso. revert E1. apply add_each_defined.
    intros g Hg. destruct (Hs g Hg) as (d & Hd & _). congruence.
Qed.

(** X10. Outside TS0..TS19 the score is not defined: when a section has
    two or more sessions on one day and one of them is at a timeslot that
    is not among TS0..TS19, [all_slots.index] raises, and with it the
    room-distance penalty and [calculate_quality_score]. *)
Theorem score_raises_outside_all_slots a lectures k slots ts :
  In (k, slots) (_group_by_section_and_day L a lectures) ->
  2 <= List.length slots ->
  In ts slots ->
  ~ In ts all_slots ->
  _calculate_room_distance_penalty L weights a lectures = None /\
  calculate_quality_score L weights a lectures = None.
Proof.
  intros Hg Hlen Hts Hout.
  assert (Hcheck : _check_consecutive_room_distance weights slots a = None).
  { unfold _check_consecutive_room_distance.
    destruct (List.length slots <? 2) eqn:E; [apply Nat.ltb_lt in E; lia|].
    destruct (adjacent_pairs_cover ts (PyStr.sorted slots)) as (p & Hp & Hx).
    - now rewrite length_sorted.
    - now apply in_sorted.
    - apply (add_each_raises _ _ p); [exact Hp|].
      unfold distance_of_pair.
      assert (Hnone : PyStr.index ts all_slots = None).
      { destruct (PyStr.index ts all_slots) eqn:Ei; [|reflexivity].
        exfalso. apply Hout. apply index_in. congruence. }
      destruct Hx as [<-|<-].
      + now rewrite Hnone.
      + rewrite Hnone. now destruct (PyStr.index (fst p) all_slots). }
  assert (Hpen : _calculate_room_distance_penalty L weights a lectures = None).
  { unfold _calculate_room_distance_penalty.
    rewrite (add_each_raises _ _ (k, slots) 0%Z Hg Hcheck). reflexivity. }
  split; [exact Hpen|].
  unfold calculate_quality_score. rewrite Hpen.
  now destruct (_calculate_gap_penalty L weights a lectures).
Qed.

(** X11. The distance of two rooms does not depend on their order, is 0
    for one and the same room, and is never negative. *)
Theorem room_distance_symmetric r1 r2 :
  _calculate_room_distance r1 r2 = _calculate_room_distance r2 r1 /\
  _calculate_room_distance r1 r1 = Some 0%Z /\
  (forall d, _calculate_room_distance r1 r2 = Some d -> (0 <= d)%Z).
Proof.
  split; [|split].
  - unfold _calculate_room_distance. rewrite (String.eqb_sym r2 r1).
    destruct (String.eqb r1 r2); [reflexivity|].
    destruct (PyStr.head r1) as [c1|], (PyStr.head r2) as [c2|]; try reflexivity.
    rewrite (Ascii.eqb_sym c2 c1). destruct (Ascii.eqb c1 c2); [|reflexivity].
    destruct (PyStr.int (PyStr.tail r1)) as [n1|], (PyStr.int (PyStr.tail r2)) as [n2|];
      try reflexivity.
    do 2 f_equal. replace (n2 - n1)%Z with (- (n1 - n2))%Z by lia. now rewrite Z.abs_opp.
  - unfold _calculate_room_distance. now rewrite String.eqb_refl.
  - intros d Hd. unfold _calculate_room_distance in Hd.
    destruct (String.eqb r1 r2); [inversion Hd; lia|].
    destruct (PyStr.head r1) as [c1|], (PyStr.head r2) as [c2|]; try discriminate.
    destruct (Ascii.eqb c1 c2); [|inversion Hd; lia].
    destruct (PyStr.int (PyStr.tail r1)) as [n1|], (PyStr.int (PyStr.tail r2)) as [n2|];
      inversion Hd; try lia.
    apply Z.div_pos; lia.
Qed.

End ScorerFacts.

Section PreferenceFacts.
Variable weights : Weights.

Lemma time_preference_from (a : Assignment) : forall penalty,
  fold_left (fun penalty (item : string * Value) =>
               let timeslot := timeslot_of (snd item) in
               let penalty :=
                 if PyStr.mem timeslot early_slots
                 then (penalty + avoid_early weights)%Z else penalty in
               if PyStr.mem timeslot late_slots
               then (penalty + avoid_late weights)%Z else penalty)
            a penalty
  = (penalty
     + avoid_early weights
       * Z.of_nat (List.length
                     (filter (fun item => PyStr.mem (timeslot_of (snd item)) early_slots) a))
     + avoid_late weights
       * Z.of_nat (List.length
                     (filter (fun item => PyStr.mem (timeslot_of (snd item)) late_slots) a)))%Z.
Proof.
  induction a as [|item a IH]; intros penalty; [simpl; lia|].
  cbn [fold_left filter]. rewrite IH.
  destruct (PyStr.mem (timeslot_of (snd item)) early_slots),
           (PyStr.mem (timeslot_of (snd item)) late_slots);
    cbn [List.length]; lia.
Qed.

Lemma early_not_late ts :
  PyStr.mem ts early_slots = true -> PyStr.mem ts late_slots = false.
Proof.
  intros H. apply mem_in in H. unfold early_slots in H. simpl in H.
  destruct H as [<-|[<-|[<-|[<-|[<-|[]]]]]]; reflexivity.
Qed.

(** X12. The time-preference penalty is the early weight times the
    number of sessions in an early slot plus the late weight times the
    number of sessions in a late slot; no slot is both, so a session is
    charged once at most. *)
Theorem time_preference_penalty_counts (a : Assignment) :
  let early := filter (fun item => PyStr.mem (timeslot_of (snd item)) early_slots) a in
  let late := filter (fun item => PyStr.mem (timeslot_of (snd item)) late_slots) a in
  _calculate_time_preference_penalty weights a
  = (avoid_early weights * Z.of_nat (List.length early)
     + avoid_late weights * Z.of_nat (List.length late))%Z /\
  List.length early + List.length late <= List.length a.
Proof.
  intros early late. subst early late. split.
  - unfold _calculate_time_preference_penalty. rewrite time_preference_from. lia.
  - induction a as [|item a IH]; [simpl; lia|].
    cbn [filter].
    destruct (PyStr.mem (timeslot_of (snd item)) early_slots) eqn:E.
    + rewrite (early_not_late _ E). cbn [List.length]. lia.
    + destruct (PyStr.mem (timeslot_of (snd item)) late_slots); cbn [List.length]; lia.
Qed.

End PreferenceFacts.

Section BalanceBounds.
Variable L : DataLoader.
Variable weights : Weights.
Local Open Scope R_scope.

Lemma balance_of_counts_bounds values :
  0 <= IZR (balanced_days weights) ->
  0 <= balance_of_counts weights values <= 5 * IZR (balanced_days weights).
Proof.
  intros Hw. unfold balance_of_counts, std_dev_of.
  pose proof (sqrt_pos (variance_of values)) as Hs.
  pose proof (Rmax_l 0 (5 - sqrt (variance_of values))) as Hl.
  assert (Hu : Rmax 0 (5 - sqrt (variance_of values)) <= 5) by (apply Rmax_lub; lra).
  split; nra.
Qed.

Lemma balance_fold_bounds schedules : forall bonus n,
  0 <= IZR (balanced_days weights) ->
  0 <= bonus <= 5 * IZR (balanced_days weights) * INR n ->
  0 <= fold_left (fun bonus (sc : string * list (string * nat)) =>
                    match snd sc with
                    | [] => bonus
                    | day_counts => bonus + balance_of_counts weights (map snd day_counts)
                    end)
                 schedules bonus
  <= 5 * IZR (balanced_days weights) * INR (n + List.length schedules).
Proof.
  induction schedules as [|sc schedules IH]; intros bonus n Hw Hb;
    cbn [fold_left List.length].
  - now rewrite Nat.add_0_r.
  - rewrite <- Nat.add_succ_comm.
    apply IH; [exact Hw|]. rewrite S_INR.
    destruct (snd sc) as [|dc dcs].
    + nra.
    + pose proof (balance_of_counts_bounds (map snd (dc :: dcs)) Hw). nra.
Qed.

(** X13. With a weight that is not negative, the balance bonus lies
    between 0 and five times the weight for every section that has a
    session: 25 for a section with the default weight. *)
Theorem balance_bonus_bounds a lectures :
  0 <= IZR (balanced_days weights) ->
  0 <= _calculate_balance_bonus L weights a lectures
  <= 5 * IZR (balanced_days weights)
     * INR (List.length (section_day_counts L a lectures)).
Proof.
  intros Hw. unfold _calculate_balance_bonus.
  apply (balance_fold_bounds _ 0 0%nat Hw). simpl. lra.
Qed.

End BalanceBounds.

(** ** Statistics, lookups and the whole run *)

Section StatisticsFacts.

Lemma count_one_nil k : count_one k [] = [(k, 1)].
Proof. unfold count_one. simpl. now rewrite String.eqb_refl. Qed.

Lemma count_one_cons k k' n d :
  count_one k ((k', n) :: d)
  = if String.eqb k' k then (k', S n) :: d else (k', n) :: count_one k d.
Proof.
  unfold count_one, Dict.mem. simpl.
  destruct (String.eqb k' k) eqn:E; simpl; [now rewrite E|].
  destruct (Dict.get String.eqb k d) eqn:G; simpl; now rewrite E.
Qed.

Lemma get_count_one k k' d :
  Dict.get String.eqb k' (count_one k d)
  = if String.eqb k k'
    then Some (S (match Dict.get String.eqb k d with Some n => n | None => 0 end))
    else Dict.get String.eqb k' d.
Proof.
  induction d as [|[k0 n0] d IH].
  - rewrite count_one_nil. simpl. now destruct (String.eqb k k').
  - rewrite count_one_cons. simpl.
    destruct (String.eqb_spec k0 k) as [->|Hne]; simpl.
    + now destruct (String.eqb k k').
    + rewrite IH. destruct (String.eqb_spec k0 k') as [->|Hne'];
        [|reflexivity].
      destruct (String.eqb_spec k k'); [congruence | reflexivity].
Qed.

Lemma sum_count_one k d :
  list_sum (map snd (count_one k d)) = S (list_sum (map snd d)).
Proof.
  induction d as [|[k0 n0] d IH].
  - rewrite count_one_nil. reflexivity.
  - rewrite count_one_cons. destruct (String.eqb k0 k); simpl; [lia|].
    rewrite IH. lia.
Qed.

Lemma statistics_fold (a : Assignment) : forall d1 d2 d3,
  fold_left statistics_step a (d1, d2, d3)
  = (usage_from timeslot_of a d1, usage_from instructor_of a d2, usage_from room_of a d3).
Proof.
  unfold usage_from. induction a as [|item a IH]; intros d1 d2 d3; simpl;
    [reflexivity | apply IH].
Qed.

Lemma get_usage_from field x (a : Assignment) : forall d,
  Dict.get String.eqb x (usage_from field a d)
  = match Dict.get String.eqb x d, occurrences field x a with
    | None, 0 => None
    | None, n => Some n
    | Some m, n => Some (m + n)
    end.
Proof.
  unfold usage_from, occurrences.
  induction a as [|item a IH]; intros d; simpl.
  - destruct (Dict.get String.eqb x d); [now rewrite Nat.add_0_r | reflexivity].
  - rewrite IH, get_count_one.
    destruct (String.eqb (field (snd item)) x) eqn:E; simpl.
    + apply String.eqb_eq in E. rewrite E.
      destruct (Dict.get String.eqb x d); f_equal; lia.
    + reflexivity.
Qed.

Lemma sum_usage_from field (a : Assignment) : forall d,
  list_sum (map snd (usage_from field a d)) = list_sum (map snd d) + List.length a.
Proof.
  unfold usage_from. induction a as [|item a IH]; intros d; simpl; [lia|].
  rewrite IH, sum_count_one. lia.
Qed.

(** X14. Statistics of a solution. They are returned for a non-empty
    assignment only. The total is the number of entries; every one of the
    three dictionaries holds, for each timeslot, instructor or room that
    occurs, the number of entries with it, and nothing for the others; so
    the counts of each dictionary add up to the total. *)
Theorem solution_statistics_count a :
  (get_solution_statistics a = None <-> a = []) /\
  forall stats,
    get_solution_statistics a = Some stats ->
    total_assigned stats = List.length a /\
    (forall field usage,
        (field, usage) = (timeslot_of, timeslot_usage stats) \/
        (field, usage) = (instructor_of, instructor_load stats) \/
        (field, usage) = (room_of, room_usage stats) ->
        list_sum (map snd usage) = List.length a /\
        forall x, Dict.get String.eqb x usage
                  = match occurrences field x a with 0 => None | n => Some n end).
Proof.
  split; [destruct a; simpl; [tauto | rewrite statistics_fold; split; discriminate]|].
  intros stats H.
  assert (Hs : stats = mkStatistics (List.length a) (usage_from timeslot_of a [])
                                    (usage_from instructor_of a [])
                                    (usage_from room_of a [])).
  { unfold get_solution_statistics in H. destruct a as [|item a']; [discriminate|].
    rewrite statistics_fold in H. now inversion H. }
  clear H. subst stats.
  cbn [total_assigned timeslot_usage instructor_load room_usage].
  split; [reflexivity|].
  intros field usage [E|[E|E]]; injection E as -> ->; split;
    try (rewrite sum_usage_from; reflexivity);
    intros x; rewrite get_usage_from; reflexivity.
Qed.

(** X15. [get_lecture_by_name] returns a lecture of the list with the
    name asked for, and nothing exactly when no lecture has that name;
    with pairwise different names it gives back every lecture from its own
    name. *)
Theorem get_lecture_by_name_spec lectures :
  (forall var_name l,
      get_lecture_by_name lectures var_name = Some l ->
      In l lectures /\ get_variable_name l = var_name) /\
  (forall var_name,
      get_lecture_by_name lectures var_name = None
      <-> ~ In var_name (map get_variable_name lectures)) /\
  (NoDup (map get_variable_name lectures) ->
   forall l, In l lectures ->
             get_lecture_by_name lectures (get_variable_name l) = Some l).
Proof.
  unfold get_lecture_by_name. split; [|split].
  - intros k l H. apply find_some in H as [Hin E]. apply String.eqb_eq in E. auto.
  - intros k. split.
    + intros H Hin. apply in_map_iff in Hin as (l & <- & Hl).
      apply (find_none _ _ H) in Hl. now rewrite String.eqb_refl in Hl.
    + intros Hn.
      destruct (find (fun lecture => String.eqb (get_variable_name lecture) k) lectures)
        as [l|] eqn:E; [|reflexivity].
      apply find_some in E as [Hin E]. apply String.eqb_eq in E.
      exfalso. apply Hn. rewrite <- E. now apply in_map.
  - induction lectures as [|l0 lectures IH]; intros Hnd l Hin; [destruct Hin|].
    simpl in Hnd. inversion Hnd as [|? ? Hnotin Hnd']; subst. simpl.
    destruct Hin as [->|Hin]; [now rewrite String.eqb_refl|].
    destruct (String.eqb_spec (get_variable_name l0) (get_variable_name l)) as [E|E].
    + exfalso. apply Hnotin. rewrite E. now apply in_map.
    + now apply IH.
Qed.

End StatisticsFacts.

Section RunFacts.
Variable L : DataLoader.
Variable W : World.

Lemma nodup_map_inj {A B : Type} (f : A -> B) (l : list A) x y :
  NoDup (map f l) -> In x l -> In y l -> f x = f y -> x = y.
Proof.
  induction l as [|z l IH]; simpl; intros Hnd Hx Hy E; [destruct Hx|].
  inversion Hnd as [|? ? Hnotin Hnd']; subst.
  destruct Hx as [->|Hx], Hy as [->|Hy]; auto.
  - exfalso. apply Hnotin. rewrite E. now apply in_map.
  - exfalso. apply Hnotin. rewrite <- E. now apply in_map.
Qed.

(** X16. The whole run. When [run] returns [True], the search has
    returned a non-empty assignment without conflict, in which every
    lecture created for the sections has a value, and this value passes
    the three unary filters for that lecture: a room of the type its
    course requires, an instructor qualified for its course and not marked
    unavailable on the day of the timeslot. *)
Theorem run_success_is_valid section_ids timeout :
  run L W section_ids timeout = Some true ->
  let lectures := build_lectures_for_sections L section_ids in
  exists solution st,
    solve W lectures (build_domains L lectures []) timeout new_solver
    = (Ret (Some solution), st) /\
    solution <> [] /\
    get_conflicts solution lectures = [] /\
    forall lecture, In lecture lectures ->
      exists v, Dict.get String.eqb (get_variable_name lecture) solution = Some v /\
                satisfies_unary_filters L lecture v.
Proof.
  intros Hrun lectures. unfold run in Hrun. fold lectures in Hrun.
  destruct (solve_spec W lectures (build_domains L lectures []) timeout new_solver)
    as (r & st & Hs & Hp).
  rewrite Hs in Hrun. simpl in Hrun.
  destruct r as [[|item rest]|]; try discriminate.
  destruct Hp as (_ & Hwf & Hlen).
  exists (item :: rest), st. split; [exact Hs|]. split; [discriminate|].
  split; [apply check_all_no_conflicts, Hwf|].
  intros lecture Hin.
  destruct (complete_covers _ _ _ Hwf Hlen lecture Hin) as (v & Hget & Hdom).
  exists v. split; [exact Hget|].
  assert (Hnames : NoDup (map get_variable_name lectures)).
  { destruct Hwf as (_ & Hnd & Hval).
    apply (@NoDup_incl_NoDup _ (Dict.keys (item :: rest))); [exact Hnd | |].
    - unfold Dict.keys. rewrite !length_map. lia.
    - intros k Hk. apply in_map_iff in Hk as ([k' v'] & <- & Hkv).
      simpl. now apply (Hval k' v'). }
  unfold domain_of in Hdom.
  destruct (Dict.get String.eqb (get_variable_name lecture) (build_domains L lectures []))
    as [domain|] eqn:Ed; [|destruct Hdom].
  apply build_domains_get in Ed as [Ed | (lecture' & Hin' & Hk & Hd)]; [discriminate|].
  assert (lecture' = lecture)
    by (apply (nodup_map_inj get_variable_name lectures); auto).
  subst lecture'. now apply (lecture_domain_filtered L lecture domain).
Qed.

(** X17. Without any lecture to schedule (no section asked for, or
    sections that give no lecture), [run] returns [False]: the empty
    assignment returned by the search counts as no solution. *)
Theorem run_without_lectures_fails section_ids timeout :
  build_lectures_for_sections L section_ids = [] ->
  run L W section_ids timeout = Some false.
Proof.
  unfold run. intros Hnone. rewrite Hnone.
  destruct (solve_spec W [] (build_domains L [] []) timeout new_solver)
    as (r & st & Hs & Hp).
  rewrite Hs. simpl.
  destruct r as [[|item rest]|]; try reflexivity.
  destruct Hp as (_ & _ & Hlen). discriminate.
Qed.

End RunFacts.

Section ConflictReportFacts.

Lemma conflicts_of_nil_iff mk schedule :
  conflicts_of mk schedule = [] <-> no_group_above_one schedule = true.
Proof.
  split; [|apply conflicts_of_nil].
  unfold conflicts_of, no_group_above_one.
  induction schedule as [|g schedule IH]; simpl; [reflexivity|].
  destruct (1 <? List.length (snd g)); simpl; [discriminate | exact IH].
Qed.

Lemma section_items_named keep1 keep2 a lectures :
  (forall l, In l lectures -> keep1 (section_id l) = keep2 (section_id l)) ->
  section_items keep1 a lectures = section_items keep2 a lectures.
Proof.
  intros H. unfold section_items.
  induction a as [|item a IH]; simpl; [reflexivity|]. rewrite IH. f_equal.
  destruct (Dict.get String.eqb (fst item) (var_to_section lectures)) as [s|] eqn:E;
    [|reflexivity].
  apply var_to_section_sound in E as (l & Hl & _ & <-). now rewrite (H l Hl).
Qed.

(** X18. The conflict report agrees with the check: when no lecture has
    an empty section id, [get_conflicts] is empty exactly when
    [check_all_constraints] holds. *)
Theorem get_conflicts_empty_iff a lectures :
  (forall l, In l lectures -> section_id l <> "") ->
  (get_conflicts a lectures = [] <-> check_all_constraints a lectures = true).
Proof.
  intros Hsec. split; [|apply check_all_no_conflicts].
  unfold get_conflicts, check_all_constraints. intros H.
  apply app_eq_nil in H as [H1 H23]. apply app_eq_nil in H23 as [H2 H3].
  apply conflicts_of_nil_iff in H1, H2, H3.
  unfold no_instructor_conflict, no_room_conflict, no_student_conflict.
  rewrite H1, H2. simpl.
  unfold section_schedule. unfold section_schedule_truthy in H3.
  rewrite (section_items_named (fun _ => true) (fun s => negb (String.eqb s ""))); [exact H3|].
  intros l Hl. symmetry. apply negb_true_iff. apply String.eqb_neq. now apply Hsec.
Qed.

End ConflictReportFacts.

(** ** More on the search *)

Section MoreSolverFacts.
Variable W : World.
Variable lectures : list Lecture.
Variable domains : Domains.

(** X19. No double booking in a returned assignment: two different
    lectures never have the same instructor at the same timeslot, nor the
    same room at the same timeslot, and two different lectures of one
    section are never at the same timeslot. *)
Theorem solve_no_double_booking timeout st0 a st l1 l2 v1 v2 :
  solve W lectures domains timeout st0 = (Ret (Some a), st) ->
  In l1 lectures -> In l2 lectures -> l1 <> l2 ->
  Dict.get String.eqb (get_variable_name l1) a = Some v1 ->
  Dict.get String.eqb (get_variable_name l2) a = Some v2 ->
  ~ same_instructor_and_time v1 v2 /\
  ~ same_room_and_time v1 v2 /\
  (section_id l1 = section_id l2 -> timeslot_of v1 <> timeslot_of v2).
Proof.
  intros Hsolve Hl1 Hl2 Hne G1 G2.
  destruct (solve_spec W lectures domains timeout st0) as (r & st' & Hs & Hp).
  rewrite Hsolve in Hs. inversion Hs; subst r st'. clear Hs.
  destruct Hp as (_ & (Hc & Hnd & Hval) & Hlen).
  assert (Hnames : NoDup (map get_variable_name lectures)).
  { apply (@NoDup_incl_NoDup _ (Dict.keys a)); [exact Hnd | |].
    - unfold Dict.keys. rewrite !length_map. lia.
    - intros k Hk. apply in_map_iff in Hk as ([k' v'] & <- & Hkv).
      simpl. now apply (Hval k' v'). }
  assert (Hk : get_variable_name l1 <> get_variable_name l2).
  { intros E. apply Hne. now apply (nodup_map_inj get_variable_name lectures). }
  apply in_get in G1, G2.
  apply (check_all_pairwise a lectures Hnd Hnames) in Hc as (Hi & Hr & Hsec).
  split; [now apply (Hi _ _ _ _ G1 G2)|].
  split; [now apply (Hr _ _ _ _ G1 G2)|].
  intros Esec. now apply (Hsec l1 v1 l2 v2).
Qed.

(** The counters of two states, the second reached from the first: as
    many clock readings as steps, and at most as many shuffles. *)
Lemma try_values_counts recurse var_name values :
  (forall st r st',
      recurse st = (r, st') ->
      clock_reads st' + iterations st = clock_reads st + iterations st' /\
      iterations st <= iterations st' /\
      shuffles st <= shuffles st' /\
      shuffles st' + iterations st <= shuffles st + iterations st') ->
  forall st r st',
    try_values lectures recurse var_name values st = (r, st') ->
    clock_reads st' + iterations st = clock_reads st + iterations st' /\
    iterations st <= iterations st' /\
    shuffles st <= shuffles st' /\
    shuffles st' + iterations st <= shuffles st + iterations st'.
Proof.
  intros Hrec. induction values as [|value rest IH]; intros st r st' H; simpl in H.
  - inversion H; subst. lia.
  - destruct (is_consistent var_name value (assignment st) lectures);
      [|exact (IH _ _ _ H)].
    destruct (recurse (with_assignment
                         (Dict.set String.eqb var_name value (assignment st)) st))
      as [r1 st2] eqn:E.
    apply Hrec in E. simpl in E.
    destruct r1 as [[result|]|e|].
    + inversion H; subst. exact E.
    + destruct (Dict.mem String.eqb var_name (assignment st2)).
      * apply IH in H. simpl in H. lia.
      * inversion H; subst. exact E.
    + inversion H; subst. exact E.
    + inversion H; subst. exact E.
Qed.

Lemma backtrack_counts timeout : forall fuel st r st',
  _backtrack W lectures domains fuel timeout st = (r, st') ->
  clock_reads st' + iterations st = clock_reads st + iterations st' /\
  iterations st <= iterations st' /\
  shuffles st <= shuffles st' /\
  shuffles st' + iterations st <= shuffles st + iterations st' /\
  (0 < fuel -> iterations st < iterations st').
Proof.
  induction fuel as [|fuel IH]; intros st r st' H.
  - simpl in H. inversion H; subst. lia.
  - simpl in H.
    destruct (start_time st) as [t|]; [|inversion H; subst; simpl; lia].
    destruct (negb (Qle_bool (clock W (clock_reads st) - t) (inject_Z timeout)));
      [inversion H; subst; simpl; lia|].
    match type of H with
    | context [if ?c then print ?m ?s else ?s] =>
        set (st1 := if c then print m s else s) in H;
        assert (H1 : clock_reads st1 = S (clock_reads st) /\
                     iterations st1 = S (iterations st) /\
                     shuffles st1 = shuffles st /\
                     assignment st1 = assignment st)
          by (subst st1; destruct c; simpl; auto)
    end.
    clearbody st1. destruct H1 as (C1 & I1 & S1 & A1).
    destruct (List.length (assignment st1) =? List.length lectures);
      [inversion H; subst; lia|].
    destruct (_select_unassigned_variable lectures domains (assignment st1));
      [|inversion H; subst; lia].
    apply (try_values_counts (_backtrack W lectures domains fuel timeout)) in H.
    + simpl in H. lia.
    + intros s1 r1 s2 E. apply IH in E. tauto.
Qed.

(** X20. The clock is read once at every step of the search: after
    [solve], the number of clock readings made is the number of steps plus
    two (the start time and the time of the summary); at least one step is
    made, and at most one shuffle at each step. *)
Theorem solve_reads_clock_every_step timeout st0 :
  let st' := snd (solve W lectures domains timeout st0) in
  clock_reads st' = clock_reads st0 + iterations st' + 2 /\
  1 <= iterations st' /\
  shuffles st0 <= shuffles st' <= shuffles st0 + iterations st'.
Proof.
  destruct (solve_spec W lectures domains timeout st0) as (r & st1 & Hs & _).
  rewrite Hs. cbn [snd].
  unfold solve in Hs. unfold time_time at 1 in Hs. cbv beta iota zeta in Hs.
  match type of Hs with
  | context [_backtrack W lectures domains ?f timeout ?entry] =>
      destruct (_backtrack W lectures domains f timeout entry) as [r0 st2] eqn:E
  end.
  apply backtrack_counts in E. simpl in E.
  destruct r0 as [r0|e|]; unfold report, time_time in Hs; cbv beta iota zeta in Hs;
    try discriminate.
  inversion Hs; subst. simpl. lia.
Qed.

End MoreSolverFacts.

(** ** Time-outs *)

Section TimeoutFacts.
Variable W : World.
Variable lectures : list Lecture.
Variable domains : Domains.
Variable timeout : Z.
Hypothesis Hclock : monotone_clock W.

Lemma timeouts_print m st :
  timeouts (print m st) = timeouts st + (if is_timeout_msg m then 1 else 0).
Proof.
  unfold timeouts, print. simpl. rewrite filter_app, length_app. simpl.
  now destruct (is_timeout_msg m).
Qed.

(** Once the budget is exceeded, every later reading exceeds it. *)
Lemma late_reading st t :
  late W timeout st -> start_time st = Some t ->
  Qle_bool (clock W (clock_reads st) - t) (inject_Z timeout) = false.
Proof.
  intros (t' & k & Ht & Hk & Hlate) Hst. rewrite Hst in Ht. inversion Ht; subst t'.
  destruct (Qle_bool (clock W (clock_reads st) - t) (inject_Z timeout)) eqn:E;
    [|reflexivity].
  apply Qle_bool_iff in E.
  assert (Hm : (clock W k <= clock W (clock_reads st))%Q) by (apply Hclock; lia).
  assert (Hk' : Qle_bool (clock W k - t) (inject_Z timeout) = true)
    by (apply Qle_bool_iff; lra).
  congruence.
Qed.

Lemma backtrack_late : forall fuel st r st',
  late W timeout st ->
  _backtrack W lectures domains fuel timeout st = (r, st') ->
  not_found r /\ late W timeout st'.
Proof.
  intros [|fuel] st r st' Hlate H; simpl in H.
  - inversion H; subst. split; [intros a; discriminate | exact Hlate].
  - pose proof Hlate as (t & k & Ht & Hk & Hq). rewrite Ht in H.
    rewrite (late_reading st t Hlate Ht) in H. simpl in H.
    inversion H; subst. split; [intros a; discriminate|].
    exists t, k. simpl. repeat split; auto.
Qed.

Lemma try_values_late recurse var_name values :
  (forall st r st', late W timeout st -> recurse st = (r, st') ->
                    not_found r /\ late W timeout st') ->
  forall st r st',
    late W timeout st ->
    try_values lectures recurse var_name values st = (r, st') ->
    not_found r /\ late W timeout st'.
Proof.
  intros Hrec. induction values as [|value rest IH]; intros st r st' Hlate H; simpl in H.
  - inversion H; subst. split; [intros a; discriminate | exact Hlate].
  - destruct (is_consistent var_name value (assignment st) lectures);
      [|exact (IH _ _ _ Hlate H)].
    destruct (recurse (with_assignment
                         (Dict.set String.eqb var_name value (assignment st)) st))
      as [r1 st2] eqn:E.
    apply Hrec in E; [|exact Hlate]. destruct E as [Hnf Hlate2].
    destruct r1 as [[result|]|e|].
    + exfalso. now apply (Hnf result).
    + destruct (Dict.mem String.eqb var_name (assignment st2)).
      * apply (IH _ _ _) in H; [exact H | exact Hlate2].
      * inversion H; subst. split; [intros a; discriminate | exact Hlate2].
    + inversion H; subst. split; [intros a; discriminate | exact Hlate2].
    + inversion H; subst. split; [intros a; discriminate | exact Hlate2].
Qed.

Lemma try_values_timeouts recurse var_name values :
  (forall st r st', late W timeout st -> recurse st = (r, st') ->
                    not_found r /\ late W timeout st') ->
  (forall st r st', recurse st = (r, st') ->
                    timeouts st' = timeouts st \/ (not_found r /\ late W timeout st')) ->
  forall st r st',
    try_values lectures recurse var_name values st = (r, st') ->
    timeouts st' = timeouts st \/ (not_found r /\ late W timeout st').
Proof.
  intros Hlate Hrec. induction values as [|value rest IH]; intros st r st' H; simpl in H.
  - inversion H; subst. now left.
  - destruct (is_consistent var_name value (assignment st) lectures);
      [|exact (IH _ _ _ H)].
    destruct (recurse (with_assignment
                         (Dict.set String.eqb var_name value (assignment st)) st))
      as [r1 st2] eqn:E.
    apply Hrec in E. destruct E as [Hsame | [Hnf Hlate2]].
    + change (timeouts (with_assignment
                          (Dict.set String.eqb var_name value (assignment st)) st))
        with (timeouts st) in Hsame.
      destruct r1 as [[result|]|e|]; try (inversion H; subst; now left).
      destruct (Dict.mem String.eqb var_name (assignment st2));
        [|inversion H; subst; now left].
      apply IH in H. destruct H as [H|H]; [left | now right].
      rewrite H. exact Hsame.
    + right. destruct r1 as [[result|]|e|].
      * exfalso. now apply (Hnf result).
      * destruct (Dict.mem String.eqb var_name (assignment st2)).
        -- apply (try_values_late recurse var_name rest Hlate) in H; [exact H|].
           exact Hlate2.
        -- inversion H; subst. split; [intros a; discriminate | exact Hlate2].
      * inversion H; subst. split; [intros a; discriminate | exact Hlate2].
      * inversion H; subst. split; [intros a; discriminate | exact Hlate2].
Qed.

Lemma backtrack_timeouts : forall fuel st r st',
  _backtrack W lectures domains fuel timeout st = (r, st') ->
  timeouts st' = timeouts st \/ (not_found r /\ late W timeout st').
Proof.
  induction fuel as [|fuel IH]; intros st r st' H.
  - simpl in H. inversion H; subst. now left.
  - simpl in H.
    destruct (start_time st) as [t|] eqn:Ht; [|inversion H; subst; now left].
    destruct (Qle_bool (clock W (clock_reads st) - t) (inject_Z timeout)) eqn:Eq;
      simpl in H.
    + match type of H with
      | context [if ?c then print ?m ?s else ?s] =>
          set (st1 := if c then print m s else s) in H;
          assert (H1 : timeouts st1 = timeouts st)
            by (subst st1; destruct c; [rewrite timeouts_print|]; simpl;
                unfold timeouts; simpl; lia)
      end.
      clearbody st1.
      destruct (List.length (assignment st1) =? List.length lectures);
        [inversion H; subst; now left|].
      destruct (_select_unassigned_variable lectures domains (assignment st1));
        [|inversion H; subst; now left].
      apply (try_values_timeouts (_backtrack W lectures domains fuel timeout)) in H.
      * destruct H as [H|H]; [left | now right].
        rewrite H. unfold _order_domain_values. simpl. exact H1.
      * intros s1 r1 s2 Hl E. now apply (backtrack_late fuel s1).
      * exact IH.
    + inversion H; subst. right. split; [intros a; discriminate|].
      exists t, (clock_reads st). simpl. repeat split; auto.
Qed.

(** X21. Time-out means failure. With a clock that never runs backwards,
    a call of [solve] that returns an assignment has printed no time-out
    message; so whenever a time-out is reported, at any depth, the result
    is [None]. *)
Theorem timeout_means_failure st0 :
  (forall a st', solve W lectures domains timeout st0 = (Ret (Some a), st') ->
                 timeouts st' = timeouts st0) /\
  (timeouts (snd (solve W lectures domains timeout st0)) <> timeouts st0 ->
   fst (solve W lectures domains timeout st0) = Ret None).
Proof.
  assert (Hfound : forall a st', solve W lectures domains timeout st0 = (Ret (Some a), st') ->
                                 timeouts st' = timeouts st0).
  { intros a st' Hs.
    unfold solve in Hs. unfold time_time at 1 in Hs. cbv beta iota zeta in Hs.
    match type of Hs with
    | context [_backtrack W lectures domains ?f timeout ?entry] =>
        destruct (_backtrack W lectures domains f timeout entry) as [r0 st2] eqn:E
    end.
    apply backtrack_timeouts in E.
    destruct r0 as [r0|e|]; unfold report, time_time in Hs; cbv beta iota zeta in Hs;
      try discriminate.
    inversion Hs; subst. clear Hs.
    destruct E as [E | [Hnf _]]; [|exfalso; now apply (Hnf a)].
    rewrite !timeouts_print.
    unfold timeouts in *. unfold print in E. cbn [output] in *.
    rewrite filter_app, length_app in E. simpl in E.
    destruct a; simpl; lia. }
  split; [exact Hfound|].
  intros Hdiff.
  destruct (solve_spec W lectures domains timeout st0) as (r & st1 & Hs & _).
  rewrite Hs in *. simpl in *.
  destruct r as [a|]; [|reflexivity].
  exfalso. apply Hdiff. now apply (Hfound a).
Qed.

End TimeoutFacts.

(** ** More on lectures and domains *)

Section MappingFacts.
Variable L : DataLoader.

(** A lecture whose turn stores nothing, or whose name is another one,
    leaves the entry of a key as it is. *)
Lemma build_domains_other k lectures : forall domains0,
  (forall l, In l lectures -> get_variable_name l = k -> lecture_domain L l = None) ->
  Dict.get String.eqb k (build_domains L lectures domains0)
  = Dict.get String.eqb k domains0.
Proof.
  unfold build_domains.
  induction lectures as [|l lectures IH]; intros domains0 H; simpl; [reflexivity|].
  rewrite IH by (intros l' Hl'; apply H; now right).
  destruct (lecture_domain L l) as [domain|] eqn:E; [|reflexivity].
  rewrite get_set.
  destruct (String.eqb_spec (get_variable_name l) k) as [Ek|Ek]; [|reflexivity].
  rewrite (H l (or_introl eq_refl) Ek) in E. discriminate.
Qed.

Lemma build_domains_cons l lectures domains0 :
  build_domains L (l :: lectures) domains0
  = build_domains L lectures
      (match lecture_domain L l with
       | None => domains0
       | Some domain => Dict.set String.eqb (get_variable_name l) domain domains0
       end).
Proof. reflexivity. Qed.

(** X22. Lookup in the mapping built. With pairwise different variable
    names, the mapping binds the name of every lecture to the domain
    generated for that very lecture, and has no entry for a lecture whose
    turn stored nothing; entries that were in the mapping before, under
    other names, are kept as they were. *)
Theorem build_domains_lookup lectures domains0 :
  NoDup (map get_variable_name lectures) ->
  (forall l, In l lectures ->
             Dict.get String.eqb (get_variable_name l) (build_domains L lectures domains0)
             = match lecture_domain L l with
               | Some domain => Some domain
               | None => Dict.get String.eqb (get_variable_name l) domains0
               end) /\
  (forall k, ~ In k (map get_variable_name lectures) ->
             Dict.get String.eqb k (build_domains L lectures domains0)
             = Dict.get String.eqb k domains0).
Proof.
  intros Hnd. split.
  - revert domains0. induction lectures as [|l0 lectures IH]; intros domains0 l Hin;
      [destruct Hin|].
    simpl in Hnd. inversion Hnd as [|? ? Hnotin Hnd']; subst.
    destruct Hin as [->|Hin].
    + rewrite build_domains_cons, build_domains_other.
      * destruct (lecture_domain L l) as [domain|]; [|reflexivity].
        now rewrite get_set, String.eqb_refl.
      * intros l' Hl' E. exfalso. apply Hnotin. rewrite <- E. now apply in_map.
    + rewrite build_domains_cons, (IH Hnd' _ l Hin).
      destruct (lecture_domain L l) as [domain|]; [reflexivity|].
      destruct (lecture_domain L l0) as [domain0|]; [|reflexivity].
      rewrite get_set.
      destruct (String.eqb_spec (get_variable_name l0) (get_variable_name l)) as [E|E];
        [|reflexivity].
      exfalso. apply Hnotin. rewrite E. now apply in_map.
  - intros k Hk. apply build_domains_other.
    intros l Hl E. exfalso. apply Hk. rewrite <- E. now apply in_map.
Qed.

Lemma nodup_flat_map {A B : Type} (f : A -> list B) (l : list A) :
  NoDup l ->
  (forall x, In x l -> NoDup (f x)) ->
  (forall x y z, In x l -> In y l -> x <> y -> In z (f x) -> ~ In z (f y)) ->
  NoDup (flat_map f l).
Proof.
  induction l as [|x l IH]; intros Hnd Hf Hdis; simpl; [constructor|].
  inversion Hnd as [|? ? Hnotin Hnd']; subst.
  apply NoDup_app.
  - apply Hf. now left.
  - apply IH; auto.
    + intros y Hy. apply Hf. now right.
    + intros y1 y2 z H1 H2. apply Hdis; now right.
  - intros z Hz Hzl. apply in_flat_map in Hzl as (y & Hy & Hzy).
    apply (Hdis x y z); auto; [now left | now right | congruence].
Qed.

Lemma nodup_map_on {A B : Type} (f : A -> B) (l : list A) :
  NoDup l ->
  (forall x y, In x l -> In y l -> f x = f y -> x = y) ->
  NoDup (map f l).
Proof.
  induction l as [|x l IH]; intros Hnd Hinj; simpl; [constructor|].
  inversion Hnd as [|? ? Hnotin Hnd']; subst. constructor.
  - intros Hin. apply in_map_iff in Hin as (y & E & Hy).
    apply Hnotin. rewrite (Hinj x y); auto; [now left | now right].
  - apply IH; auto. intros y1 y2 H1 H2. apply Hinj; now right.
Qed.

Lemma lectures_of_course_spec section course l :
  In l (lectures_of_course L section course) ->
  section_id l = section /\ course_id l = course.
Proof.
  unfold lectures_of_course.
  destruct (get_course_info L course); [|intros []].
  intros H. apply in_map_iff in H as (n & <- & _). auto.
Qed.

Lemma nodup_lectures_of_course section course :
  NoDup (lectures_of_course L section course).
Proof.
  unfold lectures_of_course.
  destruct (get_course_info L course) as [info|]; [|constructor].
  apply nodup_map_on.
  - unfold range1. apply nodup_map_on; [apply seq_NoDup|].
    intros x y _ _. apply Nat2Z.inj.
  - intros x y _ _ E. now inversion E.
Qed.

(** X23. The lectures created have pairwise different variable names,
    as the search needs, when the sections asked for are pairwise
    different, no section lists a course twice, and no section or course
    id among them contains an underscore. *)
Theorem created_names_distinct section_ids :
  NoDup section_ids ->
  (forall s, In s section_ids ->
             has_char "_" s = false /\
             NoDup (get_section_courses L s) /\
             forall c, In c (get_section_courses L s) -> has_char "_" c = false) ->
  NoDup (map get_variable_name (build_lectures_for_sections L section_ids)).
Proof.
  intros Hnd Hs.
  assert (Hmem : forall l, In l (build_lectures_for_sections L section_ids) ->
                           In (section_id l) section_ids /\
                           In (course_id l) (get_section_courses L (section_id l))).
  { intros l Hl. unfold build_lectures_for_sections in Hl.
    apply in_flat_map in Hl as (s & Hin & Hl). apply in_flat_map in Hl as (c & Hc & Hl).
    apply lectures_of_course_spec in Hl as [-> ->]. auto. }
  apply nodup_map_on.
  - unfold build_lectures_for_sections. apply nodup_flat_map; [exact Hnd | |].
    + intros s Hin. apply nodup_flat_map; [apply (Hs s Hin) | |].
      * intros c _. apply nodup_lectures_of_course.
      * intros c1 c2 l _ _ Hne H1 H2.
        apply lectures_of_course_spec in H1 as [_ E1], H2 as [_ E2]. congruence.
    + intros s1 s2 l _ _ Hne H1 H2.
      apply in_flat_map in H1 as (c1 & _ & H1), H2 as (c2 & _ & H2).
      apply lectures_of_course_spec in H1 as [E1 _], H2 as [E2 _]. congruence.
  - intros l1 l2 H1 H2.
    destruct (Hmem l1 H1) as [S1 C1], (Hmem l2 H2) as [S2 C2].
    destruct (Hs _ S1) as (U1 & _ & V1), (Hs _ S2) as (U2 & _ & V2).
    apply get_variable_name_inj_on; auto.
Qed.

End MappingFacts.

Section ConsistencyFacts.

(** X24. The consistency test of the search. For a conflict-free partial
    assignment and a variable not yet assigned, a value is consistent
    exactly when it clashes with no value already assigned: not the same
    instructor at the same timeslot, not the same room at the same
    timeslot, and not the same timeslot as another lecture of the same
    section. *)
Theorem is_consistent_spec a lectures var_name value :
  NoDup (Dict.keys a) ->
  NoDup (map get_variable_name lectures) ->
  Dict.mem String.eqb var_name a = false ->
  check_all_constraints a lectures = true ->
  (is_consistent var_name value a lectures = true
   <-> forall k v, In (k, v) a ->
         ~ same_instructor_and_time value v /\
         ~ same_room_and_time value v /\
         (forall l l', In l lectures -> In l' lectures ->
                       get_variable_name l = var_name -> get_variable_name l' = k ->
                       section_id l = section_id l' ->
                       timeslot_of value <> timeslot_of v)).
Proof.
  intros Hnd Hnames Hm Hc.
  assert (Hfresh : ~ In var_name (Dict.keys a)) by (now apply mem_false_not_in).
  assert (Hnd' : NoDup (Dict.keys (a ++ [(var_name, value)]))).
  { unfold Dict.keys. rewrite map_app. simpl.
    apply NoDup_app; [exact Hnd | repeat constructor; simpl; tauto |].
    intros y Hy [<-|[]]. tauto. }
  assert (Hkey : forall k v, In (k, v) a -> k <> var_name).
  { intros k v Hin E. apply Hfresh. subst k. apply (in_map fst) in Hin. exact Hin. }
  unfold is_consistent. rewrite (set_fresh _ _ _ Hm).
  rewrite (check_all_pairwise _ lectures Hnd' Hnames).
  apply (check_all_pairwise a lectures Hnd Hnames) in Hc as (Hi & Hr & Hs).
  unfold same_instructor_and_time, same_room_and_time in *.
  split.
  - intros (Hi' & Hr' & Hs') k v Hin.
    assert (Hin' : In (k, v) (a ++ [(var_name, value)])) by (apply in_or_app; now left).
    assert (Hnew : In (var_name, value) (a ++ [(var_name, value)]))
      by (apply in_or_app; right; now left).
    pose proof (Hkey k v Hin) as Hne.
    split; [apply (Hi' var_name value k v); auto|].
    split; [apply (Hr' var_name value k v); auto|].
    intros l l' Hl Hl' <- <- Esec. now apply (Hs' l value l' v).
  - intros H. split; [|split].
    + intros k1 v1 k2 v2 H1 H2 Hne.
      apply in_app_or in H1 as [H1|[E1|[]]], H2 as [H2|[E2|[]]].
      * now apply (Hi k1 v1 k2 v2).
      * inversion E2; subst. destruct (H k1 v1 H1) as (Hx & _ & _).
        intros [A B]. apply Hx. split; congruence.
      * inversion E1; subst. now destruct (H k2 v2 H2) as (Hx & _ & _).
      * inversion E1; inversion E2; subst. congruence.
    + intros k1 v1 k2 v2 H1 H2 Hne.
      apply in_app_or in H1 as [H1|[E1|[]]], H2 as [H2|[E2|[]]].
      * now apply (Hr k1 v1 k2 v2).
      * inversion E2; subst. destruct (H k1 v1 H1) as (_ & Hx & _).
        intros [A B]. apply Hx. split; congruence.
      * inversion E1; subst. now destruct (H k2 v2 H2) as (_ & Hx & _).
      * inversion E1; inversion E2; subst. congruence.
    + intros l1 v1 l2 v2 Hl1 Hl2 H1 H2 Hne Esec.
      apply in_app_or in H1 as [H1|[E1|[]]], H2 as [H2|[E2|[]]].
      * now apply (Hs l1 v1 l2 v2).
      * inversion E2; subst. destruct (H _ v1 H1) as (_ & _ & Hx).
        intros Et. apply (Hx l2 l1); auto.
      * inversion E1; subst. destruct (H _ v2 H2) as (_ & _ & Hx).
        now apply (Hx l1 l2).
      * inversion E1; inversion E2; subst. congruence.
Qed.

End ConsistencyFacts.

(** ** Instances of the further properties *)

Lemma distinct_sound l : distinct l = true -> NoDup l.
Proof.
  induction l as [|x l IH]; simpl; intros H; [constructor|].
  apply andb_true_iff in H as [Hx Hl]. constructor; [|now apply IH].
  intros Hin. apply mem_in in Hin. rewrite Hin in Hx. discriminate.
Qed.

Lemma print_quality_report_defined L weights a lectures gap room :
  _calculate_gap_penalty L weights a lectures = Some gap ->
  _calculate_room_distance_penalty L weights a lectures = Some room ->
  print_quality_report L weights a lectures = Some tt.
Proof.
  intros Hg Hr. unfold print_quality_report, calculate_quality_score.
  now rewrite Hg, Hr.
Qed.

Lemma check_all_constraints_pairwise_witness :
  check_all_constraints easy_solution clash_lectures = true
  <-> (forall k1 v1 k2 v2, In (k1, v1) easy_solution -> In (k2, v2) easy_solution ->
                           k1 <> k2 -> ~ same_instructor_and_time v1 v2) /\
      (forall k1 v1 k2 v2, In (k1, v1) easy_solution -> In (k2, v2) easy_solution ->
                           k1 <> k2 -> ~ same_room_and_time v1 v2) /\
      (forall l1 v1 l2 v2,
          In l1 clash_lectures -> In l2 clash_lectures ->
          In (get_variable_name l1, v1) easy_solution ->
          In (get_variable_name l2, v2) easy_solution ->
          get_variable_name l1 <> get_variable_name l2 ->
          section_id l1 = section_id l2 ->
          timeslot_of v1 <> timeslot_of v2).
Proof.
  apply (check_all_constraints_pairwise easy_solution clash_lectures).
  - apply distinct_sound. reflexivity.
  - apply distinct_sound. reflexivity.
Defined.

Lemma easy_solution_is_solution : is_solution clash_lectures easy_domains easy_solution.
Proof.
  split; [|reflexivity]. split; [reflexivity|]. split; [apply distinct_sound; reflexivity|].
  intros k v [E|[E|[]]]; inversion E; subst; simpl; tauto.
Qed.

Lemma solve_finds_a_solution_witness :
  exists result st',
    solve still_world clash_lectures easy_domains 300 new_solver
    = (Ret (Some result), st') /\
    is_solution clash_lectures easy_domains result /\
    get_conflicts result clash_lectures = [].
Proof.
  apply (solve_finds_a_solution still_world clash_lectures easy_domains 300 new_solver
           easy_solution).
  - intros k. vm_compute. discriminate.
  - exact easy_solution_is_solution.
Defined.

Lemma colliding_names_never_solved_witness :
  exists st',
    solve still_world colliding_lectures
          [("S1_A_B_L1", [("TS0", "R1", "P1"); ("TS1", "R1", "P1")])] 300 new_solver
    = (Ret None, st').
Proof.
  apply (colliding_names_never_solved still_world colliding_lectures).
  intros H. inversion H as [|x l Hnotin _]. apply Hnotin. now left.
Defined.

Lemma lecture_domain_exact_witness :
  In ("TS4", "L1", "PROF01") (domain_of demo_domains "S1_AID312_L1")
  <-> satisfies_unary_filters demo_loader (mkLecture "AID312" "S1" 1) ("TS4", "L1", "PROF01").
Proof.
  apply (lecture_domain_exact demo_loader (mkLecture "AID312" "S1" 1)).
  vm_compute. reflexivity.
Defined.

Lemma get_variable_name_inj_witness :
  mkLecture "AID312" "S1" 1 = mkLecture "AID312" "S1" 1.
Proof.
  apply (get_variable_name_inj (mkLecture "AID312" "S1" 1) (mkLecture "AID312" "S1" 1));
    reflexivity.
Defined.

Lemma room_distance_penalty_defined_witness :
  exists penalty,
    _calculate_room_distance_penalty demo_loader default_weights next_door campus_lectures
    = Some penalty /\
    ((0 <= consecutive_rooms default_weights)%Z -> (0 <= penalty)%Z).
Proof.
  apply (room_distance_penalty_defined demo_loader default_weights next_door campus_lectures).
  intros item [<-|[<-|[<-|[]]]]; vm_compute; tauto.
Defined.

Lemma score_raises_outside_all_slots_witness :
  _calculate_room_distance_penalty long_week_loader default_weights friday_sessions
                                   clash_lectures = None /\
  calculate_quality_score long_week_loader default_weights friday_sessions clash_lectures
  = None.
Proof.
  apply (score_raises_outside_all_slots long_week_loader default_weights friday_sessions
           clash_lectures ("S1", "Friday") ["TS20"; "TS21"] "TS20").
  - vm_compute. tauto.
  - simpl. lia.
  - now left.
  - intros H. apply mem_in in H. vm_compute in H. discriminate.
Defined.

Lemma balance_bonus_bounds_witness :
  (0 <= _calculate_balance_bonus demo_loader default_weights one_day clash_lectures
   <= 5 * IZR (balanced_days default_weights)
      * INR (List.length (section_day_counts demo_loader one_day clash_lectures)))%R.
Proof.
  apply (balance_bonus_bounds demo_loader default_weights one_day clash_lectures).
  simpl. lra.
Defined.

Lemma small_run_succeeds : run small_loader still_world ["S1"] 300 = Some true.
Proof.
  unfold run.
  replace (solve still_world (build_lectures_for_sections small_loader ["S1"])
                 (build_domains small_loader
                                (build_lectures_for_sections small_loader ["S1"]) [])
                 300 new_solver)
    with (Ret (Some small_solution),
          mkState small_solution 4 (Some 0%Q) 6 3
                  [MsgStart 3 300; MsgSolutionFound; MsgSummary 0%Q 4])
    by (vm_compute; reflexivity).
  unfold small_solution at 1. cbv beta iota delta [fst].
  rewrite (print_quality_report_defined small_loader default_weights _ _ 0%Z 0%Z);
    [reflexivity | vm_compute; reflexivity | vm_compute; reflexivity].
Qed.

Lemma run_success_is_valid_witness :
  exists solution st,
    solve still_world (build_lectures_for_sections small_loader ["S1"])
          (build_domains small_loader (build_lectures_for_sections small_loader ["S1"]) [])
          300 new_solver
    = (Ret (Some solution), st) /\
    solution <> [] /\
    get_conflicts solution (build_lectures_for_sections small_loader ["S1"]) = [] /\
    forall lecture, In lecture (build_lectures_for_sections small_loader ["S1"]) ->
      exists v, Dict.get String.eqb (get_variable_name lecture) solution = Some v /\
                satisfies_unary_filters small_loader lecture v.
Proof.
  apply (run_success_is_valid small_loader still_world ["S1"] 300).
  exact small_run_succeeds.
Defined.

Lemma run_without_lectures_fails_witness :
  run demo_loader still_world [] 300 = Some false /\
  run demo_loader still_world ["S9"] 300 = Some false.
Proof.
  split.
  - apply (run_without_lectures_fails demo_loader still_world [] 300). reflexivity.
  - apply (run_without_lectures_fails demo_loader still_world ["S9"] 300). reflexivity.
Defined.

Lemma get_conflicts_empty_iff_witness :
  get_conflicts easy_solution clash_lectures = []
  <-> check_all_constraints easy_solution clash_lectures = true.
Proof.
  apply (get_conflicts_empty_iff easy_solution clash_lectures).
  intros l [<-|[<-|[]]]; discriminate.
Defined.

Lemma solve_no_double_booking_witness :
  ~ same_instructor_and_time ("TS0", "R1", "P1") ("TS1", "R2", "P2") /\
  ~ same_room_and_time ("TS0", "R1", "P1") ("TS1", "R2", "P2") /\
  (section_id (mkLecture "A" "S1" 1) = section_id (mkLecture "B" "S1" 1) ->
   timeslot_of ("TS0", "R1", "P1") <> timeslot_of ("TS1", "R2", "P2")).
Proof.
  apply (solve_no_double_booking still_world clash_lectures easy_domains 300 new_solver
           easy_solution
           (snd (solve still_world clash_lectures easy_domains 300 new_solver))
           (mkLecture "A" "S1" 1) (mkLecture "B" "S1" 1)).
  - vm_compute. reflexivity.
  - now left.
  - right. now left.
  - discriminate.
  - reflexivity.
  - reflexivity.
Defined.

Lemma jump_world_monotone : monotone_clock jump_world.
Proof.
  intros i j Hij. simpl.
  destruct (i <? 2) eqn:Ei, (j <? 2) eqn:Ej; try (vm_compute; discriminate).
  apply Nat.ltb_lt in Ej. apply Nat.ltb_ge in Ei. lia.
Qed.

Lemma timeout_means_failure_witness :
  fst (solve jump_world clash_lectures easy_domains 300 new_solver) = Ret None.
Proof.
  apply (proj2 (timeout_means_failure jump_world clash_lectures easy_domains 300
                  jump_world_monotone new_solver)).
  vm_compute. discriminate.
Defined.

Lemma build_domains_lookup_witness :
  (forall l, In l demo_lectures ->
             Dict.get String.eqb (get_variable_name l) (build_domains demo_loader demo_lectures [])
             = match lecture_domain demo_loader l with
               | Some domain => Some domain
               | None => Dict.get String.eqb (get_variable_name l) []
               end) /\
  (forall k, ~ In k (map get_variable_name demo_lectures) ->
             Dict.get String.eqb k (build_domains demo_loader demo_lectures [])
             = Dict.get String.eqb k []).
Proof.
  apply (build_domains_lookup demo_loader demo_lectures []).
  apply distinct_sound. vm_compute. reflexivity.
Defined.

Lemma created_names_distinct_witness :
  NoDup (map get_variable_name (build_lectures_for_sections demo_loader ["S1"])).
Proof.
  apply (created_names_distinct demo_loader ["S1"]).
  - apply distinct_sound. reflexivity.
  - intros s [<-|[]]. split; [reflexivity|]. split.
    + apply distinct_sound. vm_compute. reflexivity.
    + intros c Hc. vm_compute in Hc.
      destruct Hc as [<-|[<-|[<-|[]]]]; reflexivity.
Defined.

Lemma is_consistent_spec_witness :
  is_consistent "S1_B_L1" ("TS1", "R2", "P2") first_assigned clash_lectures = true
  <-> forall k v, In (k, v) first_assigned ->
        ~ same_instructor_and_time ("TS1", "R2", "P2") v /\
        ~ same_room_and_time ("TS1", "R2", "P2") v /\
        (forall l l', In l clash_lectures -> In l' clash_lectures ->
                      get_variable_name l = "S1_B_L1" -> get_variable_name l' = k ->
                      section_id l = section_id l' ->
                      timeslot_of ("TS1", "R2", "P2") <> timeslot_of v).
Proof.
  apply (is_consistent_spec first_assigned clash_lectures "S1_B_L1" ("TS1", "R2", "P2")).
  - apply distinct_sound. reflexivity.
  - apply distinct_sound. reflexivity.
  - reflexivity.
  - reflexivity.
Defined.
